(** * Booking and installment lifecycle of the rental backend

    A shallow embedding of the booking controller
    (src/modules/bookings/bookings.routes.ts, class [BookingController]) and of
    the tables it reads and writes (src/db/schema/index.ts).

    Conventions of the embedding.
    - A table is the list of its rows, in insertion order.  [select ... limit 1]
      is [find], [update ... where] rewrites every matching row with [map],
      [insert] appends.  A statement against the store fails only when a
      value does not fit its column: a [decimal(12,2)] keeps ten digits
      before the point ([fitsDecimal]), an [integer] is a 32-bit number
      ([fitsInteger]), and the payment method is one of the four values of
      its enum.  The handler then answers through its [catch].  What else can
      fail is an external collaborator (payment gateway, PDF service), whose
      answer is an explicit argument of the handler.
    - Primary keys are natural numbers handed out by the counter [nextId]
      (the schema uses [gen_random_uuid()]; only freshness matters here).
    - A JavaScript number that is sent to the store is idealised as an exact
      rational ([Q]): the value of the decimal text the handler sends, with
      the double-precision rounding of a quotient left out.  A [decimal(12,2)]
      column holds a whole number of cents ([Z]), and writing a number to
      such a column rounds it to the cent ([toDecimal2]).  The quotient
      [totalAmount / installmentCount] of the program can therefore differ
      from the quotient of the model by the last bit of a double, and the
      stored share by one cent when the exact share ends in half a cent; the
      statements about shares are bounds that hold of both.  Numbers the
      handler adds up itself are doubles ([float]).
    - A [Date] is given by its calendar fields in the time zone of the
      process, and [getTime] is the time value of these fields read as they
      stand (the local time value); it is the time value proper when the
      process runs at UTC, and otherwise differs from it by the offset of the
      zone ([timeValue]).  [new Date()] is the argument [now], a time value
      in milliseconds. *)

From Stdlib Require Import ZArith QArith Qround Lqa Lia List String Bool Arith.
From Stdlib Require Import DecimalString DecimalZ DecimalPos Sorted Permutation.
From Stdlib Require Import PrimFloat Uint63.
Import ListNotations.

Open Scope Z_scope.

(** ** Identifiers and text *)

Definition Id := nat.
Bind Scope nat_scope with Id.

Definition show_nat (n : nat) : string := NilEmpty.string_of_uint (Nat.to_uint n).
Definition show_Z (z : Z) : string := NilZero.string_of_int (Z.to_int z).

(** [validPaymentMethods.includes(paymentMethod)] and friends. *)
Definition includes (l : list string) (s : string) : bool :=
  existsb (String.eqb s) l.

(** JavaScript truthiness of an optional string: [undefined] and the empty
    string are falsy. *)
Definition truthy (s : option string) : bool :=
  match s with
  | Some t => negb (String.eqb t EmptyString)
  | None => false
  end.

Definition opt_string_eqb (a b : option string) : bool :=
  match a, b with
  | Some x, Some y => String.eqb x y
  | None, None => true
  | _, _ => false
  end.

(** ** Money *)

(** Value kept by a [decimal(12,2)] column when the number [x] is written to
    it, in cents: [x] rounded to two places, ties away from zero. *)
Definition toDecimal2 (x : Q) : Z :=
  let y := (x * 100)%Q in
  if Qle_bool 0 y then Qfloor (y + (1 # 2)) else - Qfloor (- y + (1 # 2)).

(** A [decimal(12,2)] column keeps ten digits before the point: the store
    refuses a number whose rounded value needs more. *)
Definition fitsDecimal (x : Q) : bool := Z.abs (toDecimal2 x) <? 1000000000000.

(** An [integer] column is a 32-bit signed number. *)
Definition fitsInteger (n : Z) : bool := (-2147483648 <=? n) && (n <=? 2147483647).


(** ** Dates *)

Record JsDate : Type := mkDate {
  getFullYear : Z;
  getMonth : Z;        (* 0 = January ... 11 = December *)
  getDate : Z;         (* day of the month, from 1 *)
  msOfDay : Z          (* time within the day, in milliseconds *)
}.

Definition msPerDay : Z := 86400000.

Definition isLeap (y : Z) : bool :=
  ((y mod 4 =? 0) && negb (y mod 100 =? 0)) || (y mod 400 =? 0).

Definition daysInYear (y : Z) : Z := if isLeap y then 366 else 365.

Definition daysInMonth (y m : Z) : Z :=
  if m =? 1 then (if isLeap y then 29 else 28)
  else if (m =? 3) || (m =? 5) || (m =? 8) || (m =? 10) then 30
  else 31.

(** Days of year [y] before the first day of month [m]. *)
Definition daysBeforeMonth (y m : Z) : Z :=
  fold_right Z.add 0 (map (fun k => daysInMonth y (Z.of_nat k)) (seq 0 (Z.to_nat m))).

(** Day number of January 1st of year [y], counted from 1970-01-01. *)
Definition DayFromYear (y : Z) : Z :=
  365 * (y - 1970) + (y - 1969) / 4 - (y - 1901) / 100 + (y - 1601) / 400.

(** Day number of day [dt] of month [m] of year [y]; [m] may lie outside
    [0..11] and [dt] outside the month, as in the date library. *)
Definition MakeDay (y m dt : Z) : Z :=
  let ym := y + m / 12 in
  let mn := m mod 12 in
  DayFromYear ym + daysBeforeMonth ym mn + dt - 1.

(** Time value of the calendar fields of a date, in milliseconds since the
    epoch: the local time value, which is the time value when the process
    runs at UTC. *)
Definition getTime (d : JsDate) : Z :=
  MakeDay (getFullYear d) (getMonth d) (getDate d) * msPerDay + msOfDay d.

(** The time value in a zone whose offset from UTC at the local time [t] is
    [offset t] milliseconds (the date library's [UTC(t) = t - LocalTZA(t)]). *)
Definition timeValue (offset : Z -> Z) (d : JsDate) : Z :=
  getTime d - offset (getTime d).


(** [d.setMonth(m)]: the month becomes [m], carried into the year when it is
    outside [0..11]; the day of the month is kept, and when the target month
    is too short the surplus days run into the following month. *)
Definition setMonth (d : JsDate) (m : Z) : JsDate :=
  let ym := getFullYear d + m / 12 in
  let mn := m mod 12 in
  let len := daysInMonth ym mn in
  if getDate d <=? len then mkDate ym mn (getDate d) (msOfDay d)
  else if mn =? 11 then mkDate (ym + 1) 0 (getDate d - len) (msOfDay d)
  else mkDate ym (mn + 1) (getDate d - len) (msOfDay d).

(** Comparison of two dates, as the store compares timestamps. *)
Definition date_leb (a b : JsDate) : bool := getTime a <=? getTime b.

(** ** Schema (src/db/schema/index.ts) *)

Module PaymentType.
Inductive t : Type := CASH | ONLINE.
Definition eqb (a b : t) : bool :=
  match a, b with CASH, CASH | ONLINE, ONLINE => true | _, _ => false end.
End PaymentType.

Module BookingStatus.
Inductive t : Type := PENDING | CONFIRMED | ACTIVE | COMPLETED | CANCELLED.
End BookingStatus.

Module InstallmentStatus.
Inductive t : Type := UNPAID | PAID | OVERDUE.
Definition eqb (a b : t) : bool :=
  match a, b with
  | UNPAID, UNPAID | PAID, PAID | OVERDUE, OVERDUE => true
  | _, _ => false
  end.
End InstallmentStatus.

Module PaymentStatus.
Inductive t : Type := PENDING | COMPLETED | FAILED | REFUNDED.
End PaymentStatus.

Module InvoiceStatus.
Inductive t : Type := DUE | PAID | VOID | REFUNDED.
End InvoiceStatus.

Module LeaseStatus.
Inductive t : Type := PENDING | APPROVED | REJECTED | ACTIVE | COMPLETED.
End LeaseStatus.

Record Property : Type := mkProperty {
  p_id : Id;
  p_ownerId : Id
}.

Record Booking : Type := mkBooking {
  b_id : Id;
  b_propertyId : Id;
  b_tenantId : Id;
  b_landlordId : Id;
  b_startDate : JsDate;
  b_endDate : JsDate;
  b_totalAmount : Z;                    (* decimal(12,2), in cents *)
  b_securityDeposit : option Z;
  b_paymentType : PaymentType.t;
  b_installmentCount : Z;
  b_status : BookingStatus.t;
  b_contractPdfUrl : option string;
  b_contractGeneratedAt : option Z
}.

Record Lease : Type := mkLease {
  l_id : Id;
  l_propertyId : Id;
  l_tenantId : Id;
  l_landlordId : Id;
  l_startDate : JsDate;
  l_endDate : JsDate;
  l_rentAmount : Z;
  l_securityDeposit : option Z;
  l_status : LeaseStatus.t;
  l_notes : string
}.

Record BookingConflict : Type := mkConflict {
  c_id : Id;
  c_propertyId : Id;
  c_startDate : JsDate;
  c_endDate : JsDate;
  c_bookingId : option Id
}.

Record Installment : Type := mkInstallment {
  i_id : Id;
  i_bookingId : Id;
  i_installmentNumber : Z;
  i_amount : Z;                         (* decimal(12,2), in cents *)
  i_dueDate : JsDate;
  i_status : InstallmentStatus.t;
  i_paidAt : option Z;
  i_paidAmount : option Z;
  i_paymentMethod : option string;
  i_xenditInvoiceId : option string;
  i_xenditExternalId : option string
}.

Record Invoice : Type := mkInvoice {
  v_id : Id;
  v_leaseId : Id;
  v_amount : Z;
  v_dueDate : JsDate;
  v_status : InvoiceStatus.t;
  v_paidAt : option Z;
  v_memo : string
}.

Record RentalAgreement : Type := mkRentalAgreement {
  r_id : Id;
  r_leaseId : Id;
  r_pdfUrl : string;
  r_publicId : string;
  r_fileName : string;
  r_fileSize : Z
}.

Record PaymentTransaction : Type := mkTransaction {
  t_id : Id;
  t_installmentId : option Id;
  t_bookingId : Id;
  t_amount : Z;
  t_paymentMethod : string;
  t_paymentType : PaymentType.t;
  t_xenditInvoiceId : option string;
  t_xenditExternalId : option string;
  t_status : PaymentStatus.t;
  t_paidAt : option Z
}.

(** The store: one list per table and the supply of fresh primary keys. *)
Record DB : Type := mkDB {
  properties : list Property;
  bookings : list Booking;
  leases : list Lease;
  bookingConflicts : list BookingConflict;
  installments : list Installment;
  invoices : list Invoice;
  rentalAgreements : list RentalAgreement;
  paymentTransactions : list PaymentTransaction;
  nextId : nat
}.

Definition set_bookings (db : DB) (x : list Booking) (n : nat) : DB :=
  mkDB (properties db) x (leases db) (bookingConflicts db) (installments db)
       (invoices db) (rentalAgreements db) (paymentTransactions db) n.
Definition set_leases (db : DB) (x : list Lease) (n : nat) : DB :=
  mkDB (properties db) (bookings db) x (bookingConflicts db) (installments db)
       (invoices db) (rentalAgreements db) (paymentTransactions db) n.
Definition set_bookingConflicts (db : DB) (x : list BookingConflict) (n : nat) : DB :=
  mkDB (properties db) (bookings db) (leases db) x (installments db)
       (invoices db) (rentalAgreements db) (paymentTransactions db) n.
Definition set_installments (db : DB) (x : list Installment) (n : nat) : DB :=
  mkDB (properties db) (bookings db) (leases db) (bookingConflicts db) x
       (invoices db) (rentalAgreements db) (paymentTransactions db) n.
Definition set_invoices (db : DB) (x : list Invoice) (n : nat) : DB :=
  mkDB (properties db) (bookings db) (leases db) (bookingConflicts db) (installments db)
       x (rentalAgreements db) (paymentTransactions db) n.
Definition set_rentalAgreements (db : DB) (x : list RentalAgreement) (n : nat) : DB :=
  mkDB (properties db) (bookings db) (leases db) (bookingConflicts db) (installments db)
       (invoices db) x (paymentTransactions db) n.
Definition set_paymentTransactions (db : DB) (x : list PaymentTransaction) (n : nat) : DB :=
  mkDB (properties db) (bookings db) (leases db) (bookingConflicts db) (installments db)
       (invoices db) (rentalAgreements db) x n.

(** [update(table).set(f).where(p)]: every matching row is rewritten. *)
Definition updateWhere {A : Type} (p : A -> bool) (f : A -> A) (rows : list A) : list A :=
  map (fun r => if p r then f r else r) rows.

(** [installments INNER JOIN bookings ON installments.bookingId = bookings.id]. *)
Definition innerJoin (rows : list Installment) (bs : list Booking)
  : list (Installment * Booking) :=
  flat_map (fun i => map (fun b => (i, b))
                         (filter (fun b => Nat.eqb (i_bookingId i) (b_id b)) bs)) rows.

(** ** Responses *)

Inductive Body : Type :=
| Error (error : string)
| Availability (available : bool) (conflicts : list BookingConflict)
| BookingCreated (booking : Booking) (lease : Lease)
                 (insts : list Installment) (invs : list Invoice)
                 (rentalAgreement : RentalAgreement) (contractPdfUrl : string)
| CashPaid (installmentId : Id) (paidAmount : Z) (paidAt : Z)
| InvoiceCreated (invoiceUrl externalId invoiceId : string)
| PaymentConfirmed (installmentId : Id) (paidAmount : Z) (paidAt : Z)
| Received
| PaymentSimulated (installmentId : Id) (paidAmount : Z).

Record Response : Type := mkResponse {
  statusCode : Z;
  body : Body
}.

(** ** Conflict ledger: [checkAvailability] *)

Record AvailabilityReq : Type := mkAvailabilityReq {
  av_propertyId : Id;
  av_startDate : JsDate;
  av_endDate : JsDate
}.

(** The [where] clause shared by [checkAvailability] and [createBooking]:
    same property, [endDate >= startDate of the query] and
    [startDate <= endDate of the query]. *)
Definition conflictsWith (propertyId : Id) (startDate endDate : JsDate)
           (c : BookingConflict) : bool :=
  Nat.eqb (c_propertyId c) propertyId
  && date_leb startDate (c_endDate c)
  && date_leb (c_startDate c) endDate.

Definition selectConflicts (db : DB) (propertyId : Id) (startDate endDate : JsDate)
  : list BookingConflict :=
  filter (conflictsWith propertyId startDate endDate) (bookingConflicts db).

Definition checkAvailability (req : AvailabilityReq) (db : DB) : Response :=
  let conflicts :=
    selectConflicts db (av_propertyId req) (av_startDate req) (av_endDate req) in
  let isAvailable := Nat.eqb (List.length conflicts) 0 in
  mkResponse 200 (Availability isAvailable conflicts).

(** ** Booking aggregate: [createBooking] *)

Record CreateBookingReq : Type := mkCreateBookingReq {
  cb_userId : option Id;                (* req.user?.id *)
  cb_propertyId : Id;
  cb_startDate : JsDate;                (* new Date(startDate) *)
  cb_endDate : JsDate;
  cb_totalAmount : Q;
  cb_securityDeposit : option Q;
  cb_paymentType : option string;
  cb_installmentCount : option Z        (* defaults to 1 *)
}.

(** What [PDFGenerationService.generateRentalAgreementPDF] answers.
    [PdfFailed]: the service throws, or the insert of the rental agreement
    made of its answer does. *)
Inductive PdfOutcome : Type :=
| PdfGenerated (url key fileName : string) (size : Z)
| PdfFailed.

(** [!paymentType || !['CASH', 'ONLINE'].includes(paymentType)] rejects
    everything this function maps to [None]. *)
Definition parsePaymentType (s : option string) : option PaymentType.t :=
  match s with
  | Some t =>
      if String.eqb t "CASH" then Some PaymentType.CASH
      else if String.eqb t "ONLINE" then Some PaymentType.ONLINE
      else None
  | None => None
  end.

(** The objects pushed on [installmentRecords] and [invoiceRecords]. *)
Record InstallmentRecord : Type := mkInstallmentRecord {
  ir_bookingId : Id;
  ir_installmentNumber : Z;
  ir_amount : Q;                        (* installmentAmount.toString() *)
  ir_dueDate : JsDate;
  ir_status : InstallmentStatus.t
}.

Record InvoiceRecord : Type := mkInvoiceRecord {
  vr_leaseId : Id;
  vr_amount : Q;
  vr_dueDate : JsDate;
  vr_status : InvoiceStatus.t;
  vr_memo : string
}.

(** The values of [i] in [for (let i = 1; i <= installmentCount; i++)]. *)
Definition loopIndices (installmentCount : Z) : list Z :=
  map Z.of_nat (seq 1 (Z.to_nat installmentCount)).

(** [dueDate.setMonth(dueDate.getMonth() + (i - 1))] on a copy of the start
    date: month arithmetic on the calendar fields of the process's zone. *)
Definition dueDateOf (startDate : JsDate) (i : Z) : JsDate :=
  setMonth startDate (getMonth startDate + (i - 1)).

(** [installmentAmount = totalAmount / installmentCount], here the exact
    quotient (the program takes the quotient of two doubles and sends its
    shortest decimal text). *)
Definition installmentRecords (bookingId : Id) (totalAmount : Q)
           (installmentCount : Z) (startDate : JsDate) : list InstallmentRecord :=
  let installmentAmount := (totalAmount / inject_Z installmentCount)%Q in
  map (fun i => mkInstallmentRecord bookingId i installmentAmount
                                    (dueDateOf startDate i) InstallmentStatus.UNPAID)
      (loopIndices installmentCount).

Definition invoiceRecords (bookingId leaseId : Id) (totalAmount : Q)
           (installmentCount : Z) (startDate : JsDate) : list InvoiceRecord :=
  let installmentAmount := (totalAmount / inject_Z installmentCount)%Q in
  map (fun i => mkInvoiceRecord leaseId installmentAmount (dueDateOf startDate i)
                                InvoiceStatus.DUE
                                ("Installment " ++ show_Z i ++ " of "
                                 ++ show_Z installmentCount ++ " for booking "
                                 ++ show_nat bookingId))
      (loopIndices installmentCount).

(** [db.insert(installments).values(records).returning()]: the rows as the
    table keeps them, keys drawn from [first] on. *)
Fixpoint insertInstallments (first : nat) (records : list InstallmentRecord)
  : list Installment :=
  match records with
  | [] => []
  | r :: rest =>
      mkInstallment first (ir_bookingId r) (ir_installmentNumber r)
                    (toDecimal2 (ir_amount r)) (ir_dueDate r) (ir_status r)
                    None None None None None
      :: insertInstallments (S first) rest
  end.

Fixpoint insertInvoices (first : nat) (records : list InvoiceRecord) : list Invoice :=
  match records with
  | [] => []
  | r :: rest =>
      mkInvoice first (vr_leaseId r) (toDecimal2 (vr_amount r)) (vr_dueDate r)
                (vr_status r) None (vr_memo r)
      :: insertInvoices (S first) rest
  end.

Definition placeholderUrl (bookingId : Id) : string :=
  "https://storage.example.com/contracts/" ++ show_nat bookingId ++ ".pdf".

(** The answer of the PDF service that the fallback branch stands in for. *)
Definition placeholderPdf (bookingId : Id) : PdfOutcome :=
  PdfGenerated (placeholderUrl bookingId)
               ("contract_" ++ show_nat bookingId)
               ("rental_agreement_" ++ show_nat bookingId ++ ".pdf")
               1024000.

Definition confirmBooking (contractPdfUrl : string) (now : Z) (b : Booking) : Booking :=
  mkBooking (b_id b) (b_propertyId b) (b_tenantId b) (b_landlordId b)
            (b_startDate b) (b_endDate b) (b_totalAmount b) (b_securityDeposit b)
            (b_paymentType b) (b_installmentCount b)
            BookingStatus.CONFIRMED (Some contractPdfUrl) (Some now).

(** [{ ...booking, contractPdfUrl, status: 'CONFIRMED' }] of the response. *)
Definition confirmedView (contractPdfUrl : string) (b : Booking) : Booking :=
  mkBooking (b_id b) (b_propertyId b) (b_tenantId b) (b_landlordId b)
            (b_startDate b) (b_endDate b) (b_totalAmount b) (b_securityDeposit b)
            (b_paymentType b) (b_installmentCount b)
            BookingStatus.CONFIRMED (Some contractPdfUrl) (b_contractGeneratedAt b).

(** [installmentCount = 1] in the destructuring of the request body. *)
Definition installmentCountOf (req : CreateBookingReq) : Z :=
  match cb_installmentCount req with Some n => n | None => 1 end.

(** The values of the booking row that have a bounded column:
    [totalAmount], [securityDeposit] and [installmentCount]. *)
Definition fitsBookingColumns (req : CreateBookingReq) : bool :=
  fitsDecimal (cb_totalAmount req)
  && match cb_securityDeposit req with
     | Some deposit => fitsDecimal deposit
     | None => true
     end
  && fitsInteger (installmentCountOf req).

(** [createBooking].  The inserts run one after the other, outside any
    transaction: when one throws, the handler answers 500 from its [catch]
    and the rows inserted before stay in place.  The insert of the booking
    throws when a value does not fit its column.  For [installmentCount = 0]
    the quotient [totalAmount / installmentCount] is infinite and the insert
    of the lease throws (for [0 / 0] it is [NaN], which the column accepts;
    the lease of the model then shows 0).  With no record to insert, the
    insert of the installments throws. *)
Definition createBooking (req : CreateBookingReq) (now : Z) (pdf : PdfOutcome)
           (db : DB) : DB * Response :=
  match cb_userId req with
  | None => (db, mkResponse 401 (Error "User not authenticated"))
  | Some userId =>
  match parsePaymentType (cb_paymentType req) with
  | None =>
      (db, mkResponse 400
             (Error "Payment type is required and must be either CASH or ONLINE"))
  | Some paymentType =>
  let installmentCount := installmentCountOf req in
  let totalAmount := cb_totalAmount req in
  match find (fun p => Nat.eqb (p_id p) (cb_propertyId req)) (properties db) with
  | None => (db, mkResponse 404 (Error "Property not found"))
  | Some property =>
  let conflicts :=
    selectConflicts db (cb_propertyId req) (cb_startDate req) (cb_endDate req) in
  if Nat.ltb 0 (List.length conflicts) then
    (db, mkResponse 400 (Error "Property not available for selected dates"))
  else if negb (fitsBookingColumns req) then
    (* the insert of the booking throws *)
    (db, mkResponse 500 (Error "Failed to create booking"))
  else
    (* insert the booking *)
    let booking :=
      mkBooking (nextId db) (cb_propertyId req) userId (p_ownerId property)
                (cb_startDate req) (cb_endDate req) (toDecimal2 totalAmount)
                (option_map toDecimal2 (cb_securityDeposit req))
                paymentType installmentCount BookingStatus.PENDING None None in
    let db1 := set_bookings db (bookings db ++ [booking]) (S (nextId db)) in
    if (installmentCount =? 0) && negb (Qeq_bool totalAmount 0) then
      (* the insert of the lease throws on an infinite rent *)
      (db1, mkResponse 500 (Error "Failed to create booking"))
    else
    (* the lease kept for the invoice system *)
    let lease :=
      mkLease (nextId db1) (cb_propertyId req) userId (p_ownerId property)
              (cb_startDate req) (cb_endDate req)
              (toDecimal2 (totalAmount / inject_Z installmentCount))
              (option_map toDecimal2 (cb_securityDeposit req))
              LeaseStatus.APPROVED
              ("Auto-generated lease for booking " ++ show_nat (b_id booking)) in
    let db2 := set_leases db1 (leases db1 ++ [lease]) (S (nextId db1)) in
    (* the conflict record *)
    let conflict :=
      mkConflict (nextId db2) (cb_propertyId req) (cb_startDate req)
                 (cb_endDate req) (Some (b_id booking)) in
    let db3 :=
      set_bookingConflicts db2 (bookingConflicts db2 ++ [conflict]) (S (nextId db2)) in
    (* the schedule *)
    let irs :=
      installmentRecords (b_id booking) totalAmount installmentCount (cb_startDate req) in
    let vrs :=
      invoiceRecords (b_id booking) (l_id lease) totalAmount installmentCount
                     (cb_startDate req) in
    match irs with
    | [] => (db3, mkResponse 500 (Error "Failed to create booking"))
    | _ :: _ =>
    let createdInstallments := insertInstallments (nextId db3) irs in
    let db4 :=
      set_installments db3 (installments db3 ++ createdInstallments)
                       (nextId db3 + List.length irs) in
    let createdInvoices := insertInvoices (nextId db4) vrs in
    let db5 :=
      set_invoices db4 (invoices db4 ++ createdInvoices) (nextId db4 + List.length vrs) in
    (* the contract, or its placeholder *)
    let '(contractPdfUrl, rentalAgreement) :=
      match pdf with
      | PdfGenerated url key fileName size =>
          (url, mkRentalAgreement (nextId db5) (l_id lease) url key fileName size)
      | PdfFailed =>
          let url := placeholderUrl (b_id booking) in
          (url, mkRentalAgreement (nextId db5) (l_id lease) url
                                  ("contract_" ++ show_nat (b_id booking))
                                  ("rental_agreement_" ++ show_nat (b_id booking)
                                   ++ ".pdf")
                                  1024000)
      end in
    let db6 :=
      set_rentalAgreements db5 (rentalAgreements db5 ++ [rentalAgreement])
                           (S (nextId db5)) in
    let db7 :=
      set_bookings db6
        (updateWhere (fun b => Nat.eqb (b_id b) (b_id booking))
                     (confirmBooking contractPdfUrl now) (bookings db6))
        (nextId db6) in
    (db7, mkResponse 201
            (BookingCreated (confirmedView contractPdfUrl booking) lease
                            createdInstallments createdInvoices rentalAgreement
                            contractPdfUrl))
    end
  end
  end
  end.

(** ** Payment state machine *)

(** [.set({ status: 'PAID', paidAt, paidAmount, paymentMethod })]. *)
Definition markPaid (paidAt paidAmount : Z) (paymentMethod : string)
           (i : Installment) : Installment :=
  mkInstallment (i_id i) (i_bookingId i) (i_installmentNumber i) (i_amount i)
                (i_dueDate i) InstallmentStatus.PAID
                (Some paidAt) (Some paidAmount) (Some paymentMethod)
                (i_xenditInvoiceId i) (i_xenditExternalId i).

(** [.set({ xenditExternalId, xenditInvoiceId })]. *)
Definition setXenditInfo (externalId invoiceId : string) (i : Installment)
  : Installment :=
  mkInstallment (i_id i) (i_bookingId i) (i_installmentNumber i) (i_amount i)
                (i_dueDate i) (i_status i)
                (i_paidAt i) (i_paidAmount i) (i_paymentMethod i)
                (Some invoiceId) (Some externalId).

(** [.set({ status: 'COMPLETED', paidAt })] on a payment transaction. *)
Definition completeTransaction (paidAt : Z) (t : PaymentTransaction)
  : PaymentTransaction :=
  mkTransaction (t_id t) (t_installmentId t) (t_bookingId t) (t_amount t)
                (t_paymentMethod t) (t_paymentType t)
                (t_xenditInvoiceId t) (t_xenditExternalId t)
                PaymentStatus.COMPLETED (Some paidAt).

Definition payInvoice (paidAt : Z) (v : Invoice) : Invoice :=
  mkInvoice (v_id v) (v_leaseId v) (v_amount v) (v_dueDate v)
            InvoiceStatus.PAID (Some paidAt) (v_memo v).

Definition hasId (installmentId : Id) (i : Installment) : bool :=
  Nat.eqb (i_id i) installmentId.

Definition opt_id_eqb (a : option Id) (b : Id) : bool :=
  match a with Some x => Nat.eqb x b | None => false end.

(** *** [processInstallmentPayment] *)

Record PayReq : Type := mkPayReq {
  pay_userId : option Id;               (* req.user?.id *)
  pay_installmentId : option Id;
  pay_paymentMethod : option string
}.

(** Answer of the gateway to the creation of an invoice. *)
Inductive InvoiceOutcome : Type :=
| InvoiceIssued (id invoice_url external_id : string)
| InvoiceRejected (status : Z) (errorText : string)    (* !xenditResponse.ok *)
| InvoiceUnreachable (message : string).               (* fetch throws *)

Definition validPaymentMethods : list string :=
  ["BANK_TRANSFER"; "CASH"; "EWALLET"; "CREDIT_CARD"]%string.

Definition validCashMethods : list string := ["CASH"%string].

(** [paymentMethod && !validPaymentMethods.includes(paymentMethod)]. *)
Definition rejectedMethod (paymentMethod : option string) : bool :=
  match paymentMethod with
  | Some m => truthy paymentMethod && negb (includes validPaymentMethods m)
  | None => false
  end.

Definition finalPaymentMethod (paymentMethod : option string) : string :=
  match paymentMethod with
  | Some m => if includes validCashMethods m then m else "CASH"
  | None => "CASH"
  end.

Definition mkExternalId (installmentId : Id) (now : Z) : string :=
  "installment_" ++ show_nat installmentId ++ "_" ++ show_Z now.

(** The handler from
    [const { booking, installment: installmentData } = installmentResult[0]]
    on: the already-paid check and the two payment paths. *)
Definition payLocated (installmentId : Id) (installmentData : Installment)
           (booking : Booking) (paymentMethod xenditKey : option string)
           (now : Z) (gateway : InvoiceOutcome) (db : DB) : DB * Response :=
  if InstallmentStatus.eqb (i_status installmentData) InstallmentStatus.PAID then
    (db, mkResponse 400 (Error "Installment is already paid"))
  else if PaymentType.eqb (b_paymentType booking) PaymentType.CASH then
    (* cash: paid at once *)
    let method := finalPaymentMethod paymentMethod in
    let updated :=
      updateWhere (hasId installmentId)
                  (markPaid now (i_amount installmentData) method) (installments db) in
    if negb (existsb (hasId installmentId) (installments db)) then
      (db, mkResponse 500 (Error "Failed to update installment status"))
    else
      let transaction :=
        mkTransaction (nextId db) (Some installmentId) (b_id booking)
                      (i_amount installmentData) method PaymentType.CASH
                      None None PaymentStatus.COMPLETED (Some now) in
      let db1 := set_installments db updated (nextId db) in
      let db2 :=
        set_paymentTransactions db1 (paymentTransactions db1 ++ [transaction])
                                (S (nextId db1)) in
      (db2, mkResponse 200 (CashPaid installmentId (i_amount installmentData) now))
  else
    (* online: an invoice of the gateway *)
    if negb (truthy xenditKey) then
      (db, mkResponse 500 (Error "Xendit secret key not configured"))
    else
      let externalId := mkExternalId installmentId now in
      match gateway with
      | InvoiceIssued id invoice_url external_id =>
          let db1 :=
            set_installments db
              (updateWhere (hasId installmentId) (setXenditInfo externalId id)
                           (installments db))
              (nextId db) in
          let transaction :=
            mkTransaction (nextId db1) (Some installmentId) (b_id booking)
                          (i_amount installmentData) "BANK_TRANSFER"
                          PaymentType.ONLINE (Some id) (Some externalId)
                          PaymentStatus.PENDING None in
          let db2 :=
            set_paymentTransactions db1 (paymentTransactions db1 ++ [transaction])
                                    (S (nextId db1)) in
          (db2, mkResponse 200 (InvoiceCreated invoice_url external_id id))
      | InvoiceRejected _ _ | InvoiceUnreachable _ =>
          (db, mkResponse 500 (Error "Failed to create payment invoice"))
      end.

(** [select ... from installments inner join bookings where installments.id
    = installmentId and bookings.tenantId = userId limit 1]. *)
Definition ownedBy (installmentId userId : Id) (row : Installment * Booking) : bool :=
  hasId installmentId (fst row) && Nat.eqb (b_tenantId (snd row)) userId.

Definition processInstallmentPayment (req : PayReq) (xenditKey : option string)
           (now : Z) (gateway : InvoiceOutcome) (db : DB) : DB * Response :=
  match pay_userId req with
  | None => (db, mkResponse 401 (Error "User not authenticated"))
  | Some userId =>
  match pay_installmentId req with
  | None => (db, mkResponse 400 (Error "Installment ID is required"))
  | Some installmentId =>
  if rejectedMethod (pay_paymentMethod req) then
    (db, mkResponse 400
           (Error ("Invalid payment method. Valid options: "
                   ++ String.concat ", " validPaymentMethods)))
  else
  match find (hasId installmentId) (installments db) with
  | None => (db, mkResponse 404 (Error "Installment ID not found in database"))
  | Some _ =>
  match find (ownedBy installmentId userId)
             (innerJoin (installments db) (bookings db)) with
  | None =>
      (db, mkResponse 404
             (Error "Installment not found or you do not have permission to access it"))
  | Some (installmentData, booking) =>
      payLocated installmentId installmentData booking (pay_paymentMethod req)
                 xenditKey now gateway db
  end
  end
  end
  end.

(** *** [manualPaymentConfirmation] *)

Record ConfirmReq : Type := mkConfirmReq {
  cf_userId : option Id;
  cf_installmentId : Id;
  cf_xenditInvoiceId : string
}.

(** Answer of the gateway when the invoice is looked up for verification. *)
Inductive VerifyOutcome : Type :=
| VerifyAnswered (status : string)     (* xenditResponse.ok *)
| VerifyNotOk
| VerifyUnreachable.                   (* fetch throws: only a warning *)

Definition manualPaymentConfirmation (req : ConfirmReq) (now : Z)
           (verify : VerifyOutcome) (db : DB) : DB * Response :=
  match cf_userId req with
  | None => (db, mkResponse 401 (Error "User not authenticated"))
  | Some userId =>
  match find (fun '(i, b) => hasId (cf_installmentId req) i
                             && Nat.eqb (b_tenantId b) userId
                             && opt_string_eqb (i_xenditInvoiceId i)
                                               (Some (cf_xenditInvoiceId req)))
             (innerJoin (installments db) (bookings db)) with
  | None => (db, mkResponse 404 (Error "Installment not found or invalid invoice ID"))
  | Some (installment, _) =>
  if InstallmentStatus.eqb (i_status installment) InstallmentStatus.PAID then
    (db, mkResponse 400 (Error "Installment already paid"))
  else
    match (match verify with
           | VerifyAnswered status =>
               if negb (String.eqb status "PAID") then Some status else None
           | VerifyNotOk | VerifyUnreachable => None
           end) with
    | Some status =>
        (db, mkResponse 400
               (Error ("Payment not completed. Xendit status: " ++ status)))
    | None =>
      let db1 :=
        set_installments db
          (updateWhere (hasId (cf_installmentId req))
                       (markPaid now (i_amount installment) "BANK_TRANSFER")
                       (installments db))
          (nextId db) in
      let db2 :=
        set_paymentTransactions db1
          (updateWhere (fun t => opt_id_eqb (t_installmentId t) (cf_installmentId req))
                       (completeTransaction now) (paymentTransactions db1))
          (nextId db1) in
      (db2, mkResponse 200
              (PaymentConfirmed (cf_installmentId req) (i_amount installment) now))
    end
  end
  end.

(** *** [handleXenditWebhook] *)

Record WebhookData : Type := mkWebhookData {
  wh_status : option string;
  wh_external_id : option string;
  wh_amount : option Q;                 (* [None]: the field is missing *)
  wh_paid_at : Z;
  wh_payment_method : option string
}.

Definition hasExternalId (externalId : string) (i : Installment) : bool :=
  opt_string_eqb (i_xenditExternalId i) (Some externalId).

Definition handleXenditWebhook (callbackToken webhookToken : option string)
           (webhookData : WebhookData) (db : DB) : DB * Response :=
  if truthy webhookToken && negb (opt_string_eqb callbackToken webhookToken) then
    (db, mkResponse 401 (Error "Invalid webhook token"))
  else if opt_string_eqb (wh_status webhookData) (Some "PAID"%string)
          && truthy (wh_external_id webhookData)
  then
    match wh_external_id webhookData with
    | None => (db, mkResponse 200 Received)      (* excluded by the test above *)
    | Some externalId =>
        match find (hasExternalId externalId) (installments db) with
        | None => (db, mkResponse 404 (Error "Installment not found"))
        | Some installment =>
            match wh_amount webhookData with
            | None =>
                (* [webhookData.amount.toString()] throws *)
                (db, mkResponse 500 (Error "Webhook processing failed"))
            | Some amount =>
                let method :=
                  match wh_payment_method webhookData with
                  | Some m => if truthy (Some m) then m else "BANK_TRANSFER"%string
                  | None => "BANK_TRANSFER"%string
                  end in
                if negb (includes validPaymentMethods method && fitsDecimal amount)
                then
                  (* the update throws: the value is not of the enum, or the
                     amount does not fit its column *)
                  (db, mkResponse 500 (Error "Webhook processing failed"))
                else
                let db1 :=
                  set_installments db
                    (updateWhere (hasId (i_id installment))
                                 (markPaid (wh_paid_at webhookData)
                                           (toDecimal2 amount) method)
                                 (installments db))
                    (nextId db) in
                let db2 :=
                  set_paymentTransactions db1
                    (updateWhere (fun t => opt_string_eqb (t_xenditExternalId t)
                                                          (Some externalId))
                                 (completeTransaction (wh_paid_at webhookData))
                                 (paymentTransactions db1))
                    (nextId db1) in
                (* always respond with 200 to acknowledge the webhook *)
                (db2, mkResponse 200 Received)
            end
        end
    end
  else
    (* always respond with 200 to acknowledge the webhook *)
    (db, mkResponse 200 Received).

(** *** [simulatePaymentSuccess] *)

Record SimulateReq : Type := mkSimulateReq {
  sim_installmentId : Id;
  sim_externalId : string
}.

Definition simulatePaymentSuccess (req : SimulateReq) (now : Z) (db : DB)
  : DB * Response :=
  match find (fun i => hasId (sim_installmentId req) i
                       && hasExternalId (sim_externalId req) i)
             (installments db) with
  | None => (db, mkResponse 404 (Error "Installment not found"))
  | Some installment =>
      let db1 :=
        set_installments db
          (updateWhere (hasId (sim_installmentId req))
                       (markPaid now (i_amount installment) "CREDIT_CARD")
                       (installments db))
          (nextId db) in
      let db2 :=
        set_invoices db1
          (updateWhere (fun v => Nat.eqb (v_leaseId v) (i_bookingId installment))
                       (payInvoice now) (invoices db1))
          (nextId db1) in
      let transaction :=
        mkTransaction (nextId db2) (Some (sim_installmentId req))
                      (i_bookingId installment) (i_amount installment)
                      "CREDIT_CARD" PaymentType.ONLINE
                      None (Some (sim_externalId req))
                      PaymentStatus.COMPLETED (Some now) in
      let db3 :=
        set_paymentTransactions db2 (paymentTransactions db2 ++ [transaction])
                                (S (nextId db2)) in
      (db3, mkResponse 200
              (PaymentSimulated (sim_installmentId req) (i_amount installment)))
  end.

(** ** Sequences of payment operations *)

Inductive Op : Type :=
| PayInstallment (req : PayReq) (xenditKey : option string) (now : Z)
                 (gateway : InvoiceOutcome)
| XenditWebhook (callbackToken webhookToken : option string)
                (webhookData : WebhookData)
| ManualConfirmation (req : ConfirmReq) (now : Z) (verify : VerifyOutcome)
| SimulatePayment (req : SimulateReq) (now : Z).

Definition step (op : Op) (db : DB) : DB * Response :=
  match op with
  | PayInstallment req key now gateway =>
      processInstallmentPayment req key now gateway db
  | XenditWebhook callbackToken webhookToken webhookData =>
      handleXenditWebhook callbackToken webhookToken webhookData db
  | ManualConfirmation req now verify =>
      manualPaymentConfirmation req now verify db
  | SimulatePayment req now =>
      simulatePaymentSuccess req now db
  end.

Fixpoint run (ops : list Op) (db : DB) : DB :=
  match ops with
  | [] => db
  | op :: rest => run rest (fst (step op db))
  end.

(** ** Predicates of the statements *)

(** Inclusive-endpoint overlap of a stored range with a queried one. *)
Definition overlaps (c : BookingConflict) (propertyId : Id)
           (startDate endDate : JsDate) : Prop :=
  c_propertyId c = propertyId /\
  getTime (c_endDate c) >= getTime startDate /\
  getTime (c_startDate c) <= getTime endDate.

(** Primary keys: no two installments and no two bookings share an id. *)
Fixpoint distinct (l : list Id) : bool :=
  match l with
  | [] => true
  | x :: rest => negb (existsb (Nat.eqb x) rest) && distinct rest
  end.

Definition primaryKeysOk (db : DB) : bool :=
  distinct (map i_id (installments db)) && distinct (map b_id (bookings db)).

(** A paid installment records its own amount as the amount paid. *)
Definition paidInFull (i : Installment) : Prop :=
  i_status i = InstallmentStatus.PAID -> i_paidAmount i = Some (i_amount i).

Definition allPaidInFull (db : DB) : Prop := Forall paidInFull (installments db).

(** The amount a webhook delivery reports, at the scale of the column, is the
    amount of the installment its external id designates. *)
Definition reportsInstallmentAmount (w : WebhookData) (db : DB) : Prop :=
  forall externalId installment amount,
    wh_external_id w = Some externalId ->
    find (hasExternalId externalId) (installments db) = Some installment ->
    wh_amount w = Some amount ->
    toDecimal2 amount = i_amount installment.

Definition faithfulOp (op : Op) (db : DB) : Prop :=
  match op with
  | XenditWebhook _ _ w => reportsInstallmentAmount w db
  | _ => True
  end.

Fixpoint faithfulRun (ops : list Op) (db : DB) : Prop :=
  match ops with
  | [] => True
  | op :: rest => faithfulOp op db /\ faithfulRun rest (fst (step op db))
  end.

(** The gateway did not issue the invoice: it answered with an error status,
    or the call itself threw. *)
Definition invoiceFailed (gateway : InvoiceOutcome) : Prop :=
  match gateway with
  | InvoiceIssued _ _ _ => False
  | InvoiceRejected _ _ | InvoiceUnreachable _ => True
  end.


(** ** Fixtures *)

(** Midnight of a calendar day, the month counted from 1. *)
Definition ymd (y m d : Z) : JsDate := mkDate y (m - 1) d 0.

(** One property, booked from 1 to 10 January 2025. *)
Definition januaryDB : DB :=
  mkDB [mkProperty 1 7] [] []
       [mkConflict 2 1 (ymd 2025 1 1) (ymd 2025 1 10) None]
       [] [] [] [] 3.

(** A tenant (user 5) books property 1 from 1 to 31 March 2025 for 1200.00,
    in three installments. *)
Definition marchReq : CreateBookingReq :=
  mkCreateBookingReq (Some 5%nat) 1 (ymd 2025 3 1) (ymd 2025 3 31) 1200 None
                     (Some "CASH"%string) (Some 3).

Definition marchDB : DB := mkDB [mkProperty 1 7] [] [] [] [] [] [] [] 2.


(** The same booking on a server in New York: the request's 2025-03-01 and
    2025-03-31 (midnight UTC) read 2025-02-28 19:00 and 2025-03-30 20:00
    there. *)
Definition eveningReq : CreateBookingReq :=
  mkCreateBookingReq (Some 5%nat) 1 (mkDate 2025 1 28 68400000)
                     (mkDate 2025 2 30 72000000) 1200 None
                     (Some "CASH"%string) (Some 3).

(** Offset of America/New_York in 2025 as the date library applies it to a
    local time: five hours behind UTC, and four for the local times from
    2025-03-09 03:00 up to 2025-11-02 02:00 (a local time of the skipped
    hour is read with the offset before the change, one of the repeated hour
    with the earlier offset). *)
Definition newYork2025 (t : Z) : Z :=
  if (getTime (mkDate 2025 2 9 10800000) <=? t)
     && (t <? getTime (mkDate 2025 10 2 7200000))
  then -4 * 3600000
  else -5 * 3600000.


(** A confirmed booking (id 1) of tenant 5 with one unpaid installment
    (id 10) of 400.00. *)
Definition sampleBooking (paymentType : PaymentType.t) : Booking :=
  mkBooking 1 1 5 7 (ymd 2025 3 1) (ymd 2025 3 31) 120000 None paymentType 3
            BookingStatus.CONFIRMED
            (Some "https://storage.example.com/contracts/1.pdf"%string) (Some 0).

Definition sampleInstallment : Installment :=
  mkInstallment 10 1 1 40000 (ymd 2025 3 1) InstallmentStatus.UNPAID
                None None None None None.

Definition paymentDB (paymentType : PaymentType.t) : DB :=
  mkDB [mkProperty 1 7] [sampleBooking paymentType] [] [] [sampleInstallment]
       [] [] [] 11.

Definition payReq (paymentMethod : option string) : PayReq :=
  mkPayReq (Some 5%nat) (Some 10%nat) paymentMethod.

(** The gateway issues an invoice for installment 10 at time 1000, and later
    reports it paid. *)
Definition issuedInvoice : InvoiceOutcome :=
  InvoiceIssued "inv_1" "https://checkout.xendit.co/web/inv_1" "installment_10_1000".

Definition invoiceOp : Op :=
  PayInstallment (payReq None) (Some "xnd_development_key"%string) 1000 issuedInvoice.

Definition paidWebhook (amount : Q) (paid_at : Z) (paymentMethod : option string)
  : WebhookData :=
  mkWebhookData (Some "PAID"%string) (Some "installment_10_1000"%string)
                (Some amount) paid_at paymentMethod.


(** The four fields of an installment that a payment writes. *)
Definition paymentFields (i : Installment)
  : InstallmentStatus.t * option Z * option Z * option string :=
  (i_status i, i_paidAmount i, i_paidAt i, i_paymentMethod i).

(** ** Read handlers *)

(** Answer of a read handler: [res.json({ success: true, data })], which is
    HTTP 200, or [res.status(code).json({ success: false, error })]. *)
Inductive Reply (A : Type) : Type :=
| Ok (data : A)
| Fail (statusCode : Z) (error : string).

Arguments Ok {A} data.
Arguments Fail {A} statusCode error.

(** [orderBy(asc(column))]: rows by ascending key; rows with equal keys keep
    the order of the table (the store leaves that order open). *)
Fixpoint insertBy {A : Type} (key : A -> Z) (x : A) (l : list A) : list A :=
  match l with
  | [] => [x]
  | y :: rest => if key x <=? key y then x :: l else y :: insertBy key x rest
  end.

Definition orderBy {A : Type} (key : A -> Z) (l : list A) : list A :=
  fold_right (insertBy key) [] l.

(** *** [getBookingDetails] *)

Record BookingDetails : Type := mkBookingDetails {
  bd_booking : Booking;
  bd_installments : list Installment;
  bd_paymentFlow : string
}.

Definition getBookingDetails (userId : option Id) (bookingId : Id) (db : DB)
  : Reply BookingDetails :=
  match userId with
  | None => Fail 401 "User not authenticated"
  | Some userId =>
      match find (fun b => Nat.eqb (b_id b) bookingId && Nat.eqb (b_tenantId b) userId)
                 (bookings db) with
      | None => Fail 404 "Booking not found"
      | Some booking =>
          let bookingInstallments :=
            orderBy i_installmentNumber
                    (filter (fun i => Nat.eqb (i_bookingId i) bookingId)
                            (installments db)) in
          Ok (mkBookingDetails booking bookingInstallments
                (if PaymentType.eqb (b_paymentType booking) PaymentType.CASH
                 then "Direct Payment" else "Xendit Integration"))
      end
  end.

(** *** [getUserInstallments] *)

(** [status && ['UNPAID', 'PAID', 'OVERDUE'].includes(status)]: the filter
    that is added to the [where] clause, if any. *)
Definition statusFilter (status : option string) : option InstallmentStatus.t :=
  match status with
  | Some s =>
      if String.eqb s "UNPAID" then Some InstallmentStatus.UNPAID
      else if String.eqb s "PAID" then Some InstallmentStatus.PAID
      else if String.eqb s "OVERDUE" then Some InstallmentStatus.OVERDUE
      else None
  | None => None
  end.

Record InstallmentList : Type := mkInstallmentList {
  il_data : list (Installment * Booking);   (* the booking is sent in part *)
  il_count : nat;
  il_filter : string
}.

Definition dueTime (row : Installment * Booking) : Z := getTime (i_dueDate (fst row)).

Definition getUserInstallments (userId : option Id) (status : option string)
           (db : DB) : Reply InstallmentList :=
  match userId with
  | None => Fail 401 "User not authenticated"
  | Some userId =>
      let whereConditions (row : Installment * Booking) : bool :=
        Nat.eqb (b_tenantId (snd row)) userId
        && match statusFilter status with
           | Some s => InstallmentStatus.eqb (i_status (fst row)) s
           | None => true
           end in
      let userInstallments :=
        orderBy dueTime
                (filter whereConditions (innerJoin (installments db) (bookings db))) in
      Ok (mkInstallmentList userInstallments (List.length userInstallments)
            (match status with
             | Some s => if truthy status then s else "all"
             | None => "all"
             end))
  end.

(** *** [getUnpaidInstallments] *)







(** *** [checkPaymentStatus] *)

Record PaymentStatusView : Type := mkPaymentStatusView {
  ps_installmentId : Id;
  ps_externalId : option string;
  ps_status : InstallmentStatus.t;
  ps_amount : Z;
  ps_paidAmount : option Z;
  ps_paidAt : option Z;
  ps_paymentMethod : option string;
  ps_bookingId : Id;
  ps_isPaid : bool
}.

Definition checkPaymentStatus (userId : option Id) (installmentId : option Id)
           (externalId : option string) (db : DB) : Reply PaymentStatusView :=
  match userId with
  | None => Fail 401 "User not authenticated"
  | Some userId =>
      let whereCondition : option (Installment -> bool) :=
        match installmentId with
        | Some id => Some (hasId id)
        | None =>
            match externalId with
            | Some e => if truthy externalId then Some (hasExternalId e) else None
            | None => None
            end
        end in
      match whereCondition with
      | None => Fail 400 "Either installmentId or externalId is required"
      | Some condition =>
          match find (fun row => condition (fst row)
                                 && Nat.eqb (b_tenantId (snd row)) userId)
                     (innerJoin (installments db) (bookings db)) with
          | None => Fail 404 "Installment not found"
          | Some (installment, booking) =>
              Ok (mkPaymentStatusView
                    (i_id installment) (i_xenditExternalId installment)
                    (i_status installment) (i_amount installment)
                    (i_paidAmount installment) (i_paidAt installment)
                    (i_paymentMethod installment) (b_id booking)
                    (InstallmentStatus.eqb (i_status installment)
                                           InstallmentStatus.PAID))
          end
      end
  end.

(** ** Predicates of the further statements *)

(** What a payment may not touch in an installment, and how its status may
    move: it stays as it is or becomes [PAID]. *)
Definition scheduleKept (i i' : Installment) : Prop :=
  i_id i' = i_id i
  /\ i_bookingId i' = i_bookingId i
  /\ i_installmentNumber i' = i_installmentNumber i
  /\ i_amount i' = i_amount i
  /\ i_dueDate i' = i_dueDate i
  /\ (i_status i' = i_status i \/ i_status i' = InstallmentStatus.PAID).

(** How a payment transaction may change: only its status and payment time,
    and the status only towards [COMPLETED]. *)
Definition transactionKept (t t' : PaymentTransaction) : Prop :=
  t_id t' = t_id t
  /\ t_installmentId t' = t_installmentId t
  /\ t_bookingId t' = t_bookingId t
  /\ t_amount t' = t_amount t
  /\ t_paymentMethod t' = t_paymentMethod t
  /\ t_paymentType t' = t_paymentType t
  /\ t_xenditInvoiceId t' = t_xenditInvoiceId t
  /\ t_xenditExternalId t' = t_xenditExternalId t
  /\ (t' = t \/ t_status t' = PaymentStatus.COMPLETED).

Definition newTransaction (t : PaymentTransaction) : Prop :=
  t_status t = PaymentStatus.PENDING \/ t_status t = PaymentStatus.COMPLETED.

(** The tables no payment handler writes. *)
Definition bookingTablesKept (db db' : DB) : Prop :=
  properties db' = properties db
  /\ bookings db' = bookings db
  /\ leases db' = leases db
  /\ bookingConflicts db' = bookingConflicts db
  /\ rentalAgreements db' = rentalAgreements db.

(** No installment carries the external id. *)
Definition freshExternalId (externalId : string) (db : DB) : Prop :=
  Forall (fun i => hasExternalId externalId i = false) (installments db).

(** An installment with one invoice issued (at time 1000) and a payment
    transaction pending for it. *)
Definition invoicedDB : DB := fst (step invoiceOp (paymentDB PaymentType.ONLINE)).

(** * Conflict ledger *)

Section ConflictLedger.

Variables (propertyId : Id) (startDate endDate : JsDate).

Lemma conflictsWith_overlaps (c : BookingConflict) :
  conflictsWith propertyId startDate endDate c = true
  <-> overlaps c propertyId startDate endDate.
Proof.
  unfold conflictsWith, overlaps, date_leb.
  rewrite !andb_true_iff, Nat.eqb_eq, !Z.leb_le.
  intuition lia.
Qed.

Lemma selectConflicts_spec (db : DB) (c : BookingConflict) :
  In c (selectConflicts db propertyId startDate endDate)
  <-> In c (bookingConflicts db) /\ overlaps c propertyId startDate endDate.
Proof.
  unfold selectConflicts.
  rewrite filter_In, conflictsWith_overlaps.
  reflexivity.
Qed.

End ConflictLedger.

(** C3. [checkAvailability] answers 200 with the list of the conflict records
    of the property whose range [s1, e1] meets the queried range [s2, e2]
    with both ends included ([e1 >= s2] and [s1 <= e2]); [available] is false
    exactly when there is such a record and true, with no conflict listed,
    otherwise.  A property booked from 1 to 10 January is available from
    11 to 20 January. *)
Theorem checkAvailability_inclusive_overlap :
  (forall (req : AvailabilityReq) (db : DB),
      exists available conflicts,
        checkAvailability req db = mkResponse 200 (Availability available conflicts)
        /\ (forall c, In c conflicts <->
                      In c (bookingConflicts db)
                      /\ overlaps c (av_propertyId req) (av_startDate req)
                                  (av_endDate req))
        /\ (available = false <->
            exists c, In c (bookingConflicts db)
                      /\ overlaps c (av_propertyId req) (av_startDate req)
                                  (av_endDate req))
        /\ (available = true -> conflicts = []))
  /\ checkAvailability (mkAvailabilityReq 1 (ymd 2025 1 11) (ymd 2025 1 20)) januaryDB
     = mkResponse 200 (Availability true []).
Proof.
  split; [ | reflexivity ].
  intros req db.
  set (cs := selectConflicts db (av_propertyId req) (av_startDate req) (av_endDate req)).
  exists (Nat.eqb (List.length cs) 0), cs.
  split; [ reflexivity | ].
  split; [ intro c; apply selectConflicts_spec | ].
  split.
  - rewrite Nat.eqb_neq. split.
    + intro Hne. destruct cs as [ | c rest ] eqn:E; [ now elim Hne | ].
      exists c. apply selectConflicts_spec. fold cs. rewrite E. now left.
    + intros [c Hc] Hlen. apply selectConflicts_spec in Hc. fold cs in Hc.
      destruct cs; [ contradiction | discriminate ].
  - rewrite Nat.eqb_eq. intro Hlen. now apply length_zero_iff_nil.
Qed.

(** * Calendar arithmetic *)

Section Calendar.

Lemma DayFromYear_succ (y : Z) :
  DayFromYear (y + 1) = DayFromYear y + daysInYear y.
Proof.
  unfold DayFromYear, daysInYear, isLeap.
  replace (y + 1 - 1969) with (y - 1968) by lia.
  replace (y + 1 - 1901) with (y - 1900) by lia.
  replace (y + 1 - 1601) with (y - 1600) by lia.
  destruct (y mod 4 =? 0) eqn:E4; destruct (y mod 100 =? 0) eqn:E100;
    destruct (y mod 400 =? 0) eqn:E400; cbn [andb orb negb];
    rewrite ?Z.eqb_eq, ?Z.eqb_neq in *;
    Z.div_mod_to_equations; lia.
Qed.

Lemma daysBeforeMonth_succ (y m : Z) :
  0 <= m ->
  daysBeforeMonth y (m + 1) = daysBeforeMonth y m + daysInMonth y m.
Proof.
  intro Hm. unfold daysBeforeMonth.
  replace (Z.to_nat (m + 1)) with (Z.to_nat m + 1)%nat by lia.
  rewrite seq_app, map_app, fold_right_app. cbn [seq map fold_right].
  rewrite Nat.add_0_l, Z2Nat.id by assumption.
  generalize (daysInMonth y m). intro k.
  induction (seq 0 (Z.to_nat m)) as [ | a l IH ]; cbn [map fold_right]; lia.
Qed.

Lemma daysBeforeMonth_december (y : Z) :
  daysBeforeMonth y 11 + 31 = daysInYear y.
Proof.
  unfold daysBeforeMonth, daysInYear. cbn. unfold daysInMonth. cbn.
  destruct (isLeap y); reflexivity.
Qed.

Lemma MakeDay_in_year (y k dt : Z) :
  0 <= k <= 11 ->
  MakeDay y k dt = DayFromYear y + daysBeforeMonth y k + dt - 1.
Proof.
  intro Hk. unfold MakeDay.
  rewrite Z.div_small, Z.mod_small, Z.add_0_r by lia. reflexivity.
Qed.

(** The calendar fields [setMonth] leaves are those of the time value the
    date library computes: the day number of the first of the target month
    plus the day of the month, at the same time of day. *)
Lemma setMonth_getTime (d : JsDate) (m : Z) :
  getTime (setMonth d m)
  = MakeDay (getFullYear d) m (getDate d) * msPerDay + msOfDay d.
Proof.
  unfold setMonth, getTime.
  pose proof (Z.mod_pos_bound m 12 eq_refl) as Hmn.
  set (ym := getFullYear d + m / 12). set (mn := m mod 12) in *.
  assert (Hm : MakeDay (getFullYear d) m (getDate d)
               = DayFromYear ym + daysBeforeMonth ym mn + getDate d - 1)
    by reflexivity.
  rewrite Hm.
  destruct (getDate d <=? daysInMonth ym mn) eqn:Hfit;
    cbn [getFullYear getMonth getDate msOfDay].
  - rewrite MakeDay_in_year by lia. reflexivity.
  - destruct (mn =? 11) eqn:Hdec; cbn [getFullYear getMonth getDate msOfDay].
    + apply Z.eqb_eq in Hdec. rewrite Hdec.
      rewrite MakeDay_in_year by lia.
      rewrite DayFromYear_succ, <- daysBeforeMonth_december.
      change (daysInMonth ym 11) with 31.
      change (daysBeforeMonth (ym + 1) 0) with 0. lia.
    + apply Z.eqb_neq in Hdec.
      rewrite MakeDay_in_year by lia.
      rewrite daysBeforeMonth_succ by lia. lia.
Qed.

Lemma daysInMonth_bounds (y m : Z) : 28 <= daysInMonth y m <= 31.
Proof.
  unfold daysInMonth.
  destruct (m =? 1); [ destruct (isLeap y); lia | ].
  destruct ((m =? 3) || (m =? 5) || (m =? 8) || (m =? 10)); lia.
Qed.



End Calendar.

(** * Rounding to the cent *)


Section Rounding.




End Rounding.

(** * Installment schedule *)

Section Schedule.

Lemma length_loopIndices (n : Z) : List.length (loopIndices n) = Z.to_nat n.
Proof. unfold loopIndices. now rewrite length_map, length_seq. Qed.

Lemma nth_error_loopIndices (n i : Z) :
  1 <= i <= n -> nth_error (loopIndices n) (Z.to_nat (i - 1)) = Some i.
Proof.
  intro Hi. unfold loopIndices.
  rewrite nth_error_map.
  assert (Hlt : (Z.to_nat (i - 1) < Z.to_nat n)%nat) by lia.
  rewrite (nth_error_nth' _ 0%nat) by (now rewrite length_seq).
  rewrite seq_nth by assumption. cbn [option_map]. f_equal. lia.
Qed.


Lemma nth_error_insertInstallments (records : list InstallmentRecord) :
  forall (first k : nat) (r : InstallmentRecord),
    nth_error records k = Some r ->
    nth_error (insertInstallments first records) k
    = Some (mkInstallment (first + k) (ir_bookingId r) (ir_installmentNumber r)
                          (toDecimal2 (ir_amount r)) (ir_dueDate r) (ir_status r)
                          None None None None None).
Proof.
  induction records as [ | r0 rest IH ]; intros first k r Hk.
  - destruct k; discriminate.
  - destruct k as [ | k ]; cbn in *.
    + injection Hk as <-. now rewrite Nat.add_0_r.
    + rewrite (IH (S first) k r Hk). do 2 f_equal. lia.
Qed.


(** What a [201] of [createBooking] says about the request and the store. *)
Lemma createBooking_created (req : CreateBookingReq) (now : Z) (pdf : PdfOutcome)
      (db db' : DB) (booking : Booking) (lease : Lease)
      (insts : list Installment) (invs : list Invoice)
      (ra : RentalAgreement) (url : string) :
  createBooking req now pdf db
  = (db', mkResponse 201 (BookingCreated booking lease insts invs ra url)) ->
  insts = insertInstallments (S (S (S (nextId db))))
            (installmentRecords (nextId db) (cb_totalAmount req)
                                (installmentCountOf req) (cb_startDate req))
  /\ installments db' = installments db ++ insts
  /\ b_id booking = nextId db
  /\ b_totalAmount booking = toDecimal2 (cb_totalAmount req)
  /\ b_installmentCount booking = installmentCountOf req
  /\ b_status booking = BookingStatus.CONFIRMED.
Proof.
  unfold createBooking.
  destruct (cb_userId req) as [ userId | ]; [ | discriminate ].
  destruct (parsePaymentType (cb_paymentType req)) as [ paymentType | ];
    [ | discriminate ].
  cbv zeta.
  destruct (find _ (properties db)) as [ property | ]; [ | discriminate ].
  destruct (Nat.ltb 0 _); [ discriminate | ].
  destruct (negb (fitsBookingColumns req)); [ discriminate | ].
  destruct ((installmentCountOf req =? 0) && _); [ discriminate | ].
  cbn [b_id l_id nextId set_bookings set_leases set_bookingConflicts installments].
  destruct (installmentRecords _ _ _ _) as [ | r rest ] eqn:E; [ discriminate | ].
  destruct pdf; intro H; injection H as <- <- <- <- <- <- <-;
    cbn; repeat split; reflexivity.
Qed.

End Schedule.

Section ExactShares.



End ExactShares.

Section ShareSums.


End ShareSums.







(** * Contract issuance *)

Section Contract.

Lemma installmentRecords_nonempty (bookingId : Id) (q : Q) (n : Z) (start : JsDate) :
  1 <= n -> installmentRecords bookingId q n start <> [].
Proof.
  intros Hn Hnil. apply (f_equal (@List.length _)) in Hnil.
  unfold installmentRecords in Hnil.
  rewrite length_map, length_loopIndices in Hnil. cbn in Hnil. lia.
Qed.

Lemma installmentRecords_none (bookingId : Id) (q : Q) (n : Z) (start : JsDate) :
  n <= 0 -> installmentRecords bookingId q n start = [].
Proof.
  intro Hn. unfold installmentRecords, loopIndices.
  replace (Z.to_nat n) with 0%nat by lia. reflexivity.
Qed.

(** The fallback branch does what the success branch does on the answer
    [placeholderPdf]. *)
Lemma createBooking_fallback_eq (req : CreateBookingReq) (now : Z) (db : DB) :
  createBooking req now PdfFailed db
  = createBooking req now (placeholderPdf (nextId db)) db.
Proof. reflexivity. Qed.

(** A request that is answered 201 passed every check and fits the columns,
    whatever the PDF service answered. *)
Lemma createBooking_201_checks (req : CreateBookingReq) (now : Z) (pdf : PdfOutcome)
      (db : DB) :
  statusCode (snd (createBooking req now pdf db)) = 201 ->
  exists userId paymentType property,
    cb_userId req = Some userId
    /\ parsePaymentType (cb_paymentType req) = Some paymentType
    /\ find (fun p => Nat.eqb (p_id p) (cb_propertyId req)) (properties db)
       = Some property
    /\ selectConflicts db (cb_propertyId req) (cb_startDate req) (cb_endDate req) = []
    /\ fitsBookingColumns req = true
    /\ 1 <= installmentCountOf req.
Proof.
  unfold createBooking.
  destruct (cb_userId req) as [ userId | ]; [ | discriminate ].
  destruct (parsePaymentType (cb_paymentType req)) as [ paymentType | ];
    [ | discriminate ].
  cbv zeta.
  destruct (find _ (properties db)) as [ property | ]; [ | discriminate ].
  destruct (selectConflicts _ _ _ _) as [ | conflict conflicts ];
    [ | discriminate ].
  cbn [List.length Nat.ltb Nat.leb].
  destruct (fitsBookingColumns req); [ | discriminate ].
  cbn [negb].
  destruct ((installmentCountOf req =? 0) && _); [ discriminate | ].
  intro H.
  exists userId, paymentType, property.
  do 5 (split; [ reflexivity | ]).
  destruct (Z_le_gt_dec (installmentCountOf req) 0) as [ Hle | Hgt ]; [ | lia ].
  rewrite (installmentRecords_none _ _ _ _ Hle) in H. discriminate.
Qed.

Lemma map_status_confirmBooking (p : Booking -> bool) (url url' : string) (now : Z)
      (rows : list Booking) :
  map (fun b => (b_id b, b_status b, b_contractGeneratedAt b))
      (updateWhere p (confirmBooking url now) rows)
  = map (fun b => (b_id b, b_status b, b_contractGeneratedAt b))
        (updateWhere p (confirmBooking url' now) rows).
Proof.
  unfold updateWhere. rewrite !map_map. apply map_ext.
  intro b. destruct (p b); reflexivity.
Qed.

End Contract.

(** C9. Take a request that [createBooking] answers with 201 when the PDF
    service delivers the contract.  When the PDF service fails instead, after
    the booking, its conflict record and its installments were written,
    [createBooking] still answers 201: the contract reference is the
    placeholder, a rental agreement carrying the placeholder is inserted for
    the lease, and the booking is stored and returned as [CONFIRMED] with
    that reference.  The whole run is the run of the success case on the
    placeholder document, and it leaves the leases, conflict records,
    installments and invoices of the success case, and the same bookings up
    to the contract reference. *)
Theorem createBooking_contract_fallback :
  forall req now db url0 key0 fileName0 size0,
    statusCode (snd (createBooking req now (PdfGenerated url0 key0 fileName0 size0) db))
    = 201 ->
    let url := placeholderUrl (nextId db) in
    let generated :=
      fst (createBooking req now (PdfGenerated url0 key0 fileName0 size0) db) in
    createBooking req now PdfFailed db
    = createBooking req now (placeholderPdf (nextId db)) db
    /\ exists db' booking lease insts invs ra,
        createBooking req now PdfFailed db
        = (db', mkResponse 201 (BookingCreated booking lease insts invs ra url))
        /\ b_id booking = nextId db
        /\ b_status booking = BookingStatus.CONFIRMED
        /\ b_contractPdfUrl booking = Some url
        /\ rentalAgreements db' = rentalAgreements db ++ [ra]
        /\ r_leaseId ra = l_id lease
        /\ r_pdfUrl ra = url
        /\ bookingConflicts db'
           = bookingConflicts db
             ++ [mkConflict (S (S (nextId db))) (cb_propertyId req)
                            (cb_startDate req) (cb_endDate req) (Some (nextId db))]
        /\ installments db' = installments db ++ insts
        /\ (exists row, In row (bookings db')
                        /\ b_id row = nextId db
                        /\ cb_userId req = Some (b_tenantId row)
                        /\ b_status row = BookingStatus.CONFIRMED
                        /\ b_contractPdfUrl row = Some url
                        /\ b_contractGeneratedAt row = Some now)
        /\ leases db' = leases generated
        /\ bookingConflicts db' = bookingConflicts generated
        /\ installments db' = installments generated
        /\ invoices db' = invoices generated
        /\ map (fun b => (b_id b, b_status b, b_contractGeneratedAt b)) (bookings db')
           = map (fun b => (b_id b, b_status b, b_contractGeneratedAt b))
                 (bookings generated).
Proof.
  intros req now db url0 key0 fileName0 size0 Hok url generated.
  split; [ apply createBooking_fallback_eq | ].
  destruct (createBooking_201_checks _ _ _ _ Hok)
    as (userId & paymentType & property & Huser & Htype & Hprop & Hfree & Hfits & Hn).
  pose proof (installmentRecords_nonempty (nextId db) (cb_totalAmount req)
                (installmentCountOf req) (cb_startDate req) Hn) as Hrecs.
  subst generated. unfold createBooking.
  rewrite Huser, Htype. cbv zeta. rewrite Hprop, Hfree, Hfits.
  replace (installmentCountOf req =? 0) with false by (symmetry; apply Z.eqb_neq; lia).
  cbn [List.length Nat.ltb Nat.leb negb andb
       b_id l_id nextId set_bookings set_leases set_bookingConflicts].
  destruct (installmentRecords _ _ _ _) as [ | r rest ] eqn:E; [ now elim Hrecs | ].
  do 6 eexists.
  split; [ reflexivity | ].
  cbn [fst].
  do 8 (split; [ reflexivity | ]).
  split.
  { eexists. split.
    - cbn. unfold updateWhere. rewrite map_app. apply in_or_app. right.
      cbn [map b_id]. rewrite Nat.eqb_refl. left. reflexivity.
    - cbn. repeat split; reflexivity. }
  do 4 (split; [ reflexivity | ]).
  cbn [bookings set_rentalAgreements set_bookings set_invoices set_installments].
  apply map_status_confirmBooking.
Qed.

Lemma createBooking_contract_fallback_witness :
  statusCode (snd (createBooking marchReq 0
                     (PdfGenerated "https://cdn.example.com/c.pdf" "c" "c.pdf" 2048)
                     marchDB)) = 201
  /\ exists db' booking lease insts invs ra,
      createBooking marchReq 0 PdfFailed marchDB
      = (db', mkResponse 201
                (BookingCreated booking lease insts invs ra
                                "https://storage.example.com/contracts/2.pdf"))
      /\ b_status booking = BookingStatus.CONFIRMED
      /\ map r_pdfUrl (rentalAgreements db')
         = ["https://storage.example.com/contracts/2.pdf"%string]
      /\ map (fun b => (b_status b, b_contractPdfUrl b)) (bookings db')
         = [(BookingStatus.CONFIRMED,
             Some "https://storage.example.com/contracts/2.pdf"%string)].
Proof.
  split; [ vm_compute; reflexivity | ].
  destruct (createBooking_contract_fallback marchReq 0 marchDB
              "https://cdn.example.com/c.pdf" "c" "c.pdf" 2048
              ltac:(vm_compute; reflexivity))
    as (_ & db' & booking & lease & insts & invs & ra & Hrun & _ & Hstatus & _).
  exists db', booking, lease, insts, invs, ra.
  split; [ exact Hrun | ].
  split; [ exact Hstatus | ].
  assert (Hdb : db' = fst (createBooking marchReq 0 PdfFailed marchDB))
    by (now rewrite Hrun).
  rewrite Hdb. split; vm_compute; reflexivity.
Defined.

(** * Rows and keys *)

Section Keys.

Context {A : Type} (key : A -> Id).

Lemma distinct_not_in (k : Id) (l : list Id) :
  existsb (Nat.eqb k) l = false -> ~ In k l.
Proof.
  intros Hex Hin.
  assert (existsb (Nat.eqb k) l = true)
    by (apply existsb_exists; exists k; split; [ assumption | apply Nat.eqb_refl ]).
  congruence.
Qed.

Lemma key_unique (l : list A) (a b : A) :
  distinct (map key l) = true ->
  In a l -> In b l -> key a = key b -> a = b.
Proof.
  induction l as [ | x l IH ]; intros Hd Ha Hb Hk; [ contradiction | ].
  cbn in Hd. apply andb_true_iff in Hd as [Hx Hd].
  apply negb_true_iff, distinct_not_in in Hx.
  destruct Ha as [ -> | Ha ], Hb as [ -> | Hb ].
  - reflexivity.
  - elim Hx. rewrite Hk. now apply in_map.
  - elim Hx. rewrite <- Hk. now apply in_map.
  - now apply IH.
Qed.

(** [select ... where key = k limit 1] on a table with distinct keys. *)
Lemma find_by_key (l : list A) (x : A) :
  distinct (map key l) = true ->
  In x l ->
  find (fun y => Nat.eqb (key y) (key x)) l = Some x.
Proof.
  intros Hd Hx.
  destruct (find (fun y => Nat.eqb (key y) (key x)) l) as [ y | ] eqn:E.
  - apply find_some in E as [Hy Hk]. apply Nat.eqb_eq in Hk.
    f_equal. now apply (key_unique l).
  - apply (find_none _ _ E) in Hx. now rewrite Nat.eqb_refl in Hx.
Qed.

Lemma map_key_updateWhere (p : A -> bool) (f : A -> A) (l : list A) :
  (forall x, key (f x) = key x) ->
  map key (updateWhere p f l) = map key l.
Proof.
  intro Hf. unfold updateWhere. rewrite map_map.
  apply map_ext. intro x. destruct (p x); [ apply Hf | reflexivity ].
Qed.

(** An update by key on a table with distinct keys rewrites one row. *)
Lemma Forall_updateWhere_key (P : A -> Prop) (f : A -> A) (l : list A) (x : A) :
  distinct (map key l) = true ->
  In x l ->
  P (f x) ->
  Forall P l ->
  Forall P (updateWhere (fun y => Nat.eqb (key y) (key x)) f l).
Proof.
  intros Hd Hx Hfx Hall. unfold updateWhere.
  apply Forall_forall. intros y Hy.
  apply in_map_iff in Hy as (z & <- & Hz).
  destruct (Nat.eqb (key z) (key x)) eqn:E.
  - apply Nat.eqb_eq in E. now rewrite (key_unique l z x Hd Hz Hx E).
  - now apply (proj1 (Forall_forall P l) Hall).
Qed.

Lemma Forall_updateWhere (P : A -> Prop) (p : A -> bool) (f : A -> A) (l : list A) :
  (forall x, P x -> P (f x)) ->
  Forall P l ->
  Forall P (updateWhere p f l).
Proof.
  intros Hf Hall. unfold updateWhere.
  apply Forall_forall. intros y Hy.
  apply in_map_iff in Hy as (z & <- & Hz).
  pose proof (proj1 (Forall_forall P l) Hall z Hz).
  destruct (p z); auto.
Qed.

Lemma in_updateWhere_key (f : A -> A) (l : list A) (x : A) :
  In x l ->
  In (f x) (updateWhere (fun y => Nat.eqb (key y) (key x)) f l).
Proof.
  intro Hx. unfold updateWhere. apply in_map_iff.
  exists x. now rewrite Nat.eqb_refl.
Qed.

End Keys.

Section Join.

Lemma in_innerJoin (rows : list Installment) (bs : list Booking)
      (i : Installment) (b : Booking) :
  In (i, b) (innerJoin rows bs)
  <-> In i rows /\ In b bs /\ i_bookingId i = b_id b.
Proof.
  unfold innerJoin. rewrite in_flat_map. split.
  - intros (i' & Hi' & Hin).
    apply in_map_iff in Hin as (b' & Heq & Hb').
    injection Heq as -> ->.
    apply filter_In in Hb' as [Hb' Hk]. apply Nat.eqb_eq in Hk. auto.
  - intros (Hi & Hb & Hk). exists i. split; [ assumption | ].
    apply in_map_iff. exists b. split; [ reflexivity | ].
    apply filter_In. split; [ assumption | now apply Nat.eqb_eq ].
Qed.

(** [select ... from installments inner join bookings where installments.id
    = k and ... limit 1], when ids are distinct: the only candidate is the
    installment with its booking. *)
Lemma find_innerJoin (db : DB) (i : Installment) (b : Booking)
      (p : Installment * Booking -> bool) :
  primaryKeysOk db = true ->
  In i (installments db) ->
  In b (bookings db) ->
  i_bookingId i = b_id b ->
  (forall i' b', p (i', b') = true -> i_id i' = i_id i) ->
  find p (innerJoin (installments db) (bookings db))
  = if p (i, b) then Some (i, b) else None.
Proof.
  intros Hkeys Hi Hb Hk Hp.
  apply andb_true_iff in Hkeys as [Hki Hkb].
  destruct (find p (innerJoin (installments db) (bookings db)))
    as [ [i' b'] | ] eqn:E.
  - apply find_some in E as [Hin Hpt].
    apply in_innerJoin in Hin as (Hi' & Hb' & Hk').
    assert (i' = i)
      by (apply (key_unique i_id (installments db)); auto; now apply (Hp i' b')).
    subst i'.
    assert (b' = b)
      by (apply (key_unique b_id (bookings db)); auto; congruence).
    subst b'. now rewrite Hpt.
  - assert (Hin : In (i, b) (innerJoin (installments db) (bookings db)))
      by (apply in_innerJoin; auto).
    now rewrite (find_none _ _ E _ Hin).
Qed.

End Join.

(** * Payment state machine: what the handlers keep *)

Ltac split_handler :=
  repeat match goal with
         | |- context [match ?x with _ => _ end] => destruct x eqn:?
         end.

Section PaidInvariant.

Lemma markPaid_own_amount (t : Z) (m : string) (x : Installment) :
  paidInFull (markPaid t (i_amount x) m x).
Proof. intros _. reflexivity. Qed.

Lemma setXenditInfo_paidInFull (e v : string) (x : Installment) :
  paidInFull x -> paidInFull (setXenditInfo e v x).
Proof. exact (fun H => H). Qed.

(** Marking the designated installment paid with its own amount. *)
Lemma markPaid_keeps (db : DB) (x : Installment) (t : Z) (m : string) :
  primaryKeysOk db = true ->
  In x (installments db) ->
  allPaidInFull db ->
  Forall paidInFull
         (updateWhere (hasId (i_id x)) (markPaid t (i_amount x) m) (installments db)).
Proof.
  intros Hkeys Hx Hall.
  apply andb_true_iff in Hkeys as [Hki _].
  apply (Forall_updateWhere_key i_id); auto using markPaid_own_amount.
Qed.

Lemma joined_row (db : DB) (p : Installment * Booking -> bool)
      (i : Installment) (b : Booking) :
  find p (innerJoin (installments db) (bookings db)) = Some (i, b) ->
  In i (installments db) /\ p (i, b) = true.
Proof.
  intro E. apply find_some in E as [Hin Hp].
  apply in_innerJoin in Hin as (Hi & _). auto.
Qed.

Lemma processInstallmentPayment_paidInFull req key now gateway (db : DB) :
  primaryKeysOk db = true ->
  allPaidInFull db ->
  allPaidInFull (fst (processInstallmentPayment req key now gateway db)).
Proof.
  intros Hkeys Hall. unfold processInstallmentPayment, payLocated.
  split_handler; cbn [fst]; try assumption.
  - (* cash *)
    match goal with H : find _ (innerJoin _ _) = Some _ |- _ =>
      apply joined_row in H as [Hin Hp] end.
    apply andb_true_iff in Hp as [Hid _]. apply Nat.eqb_eq in Hid.
    cbn [fst] in Hid. subst.
    unfold allPaidInFull. cbn [installments set_installments set_paymentTransactions].
    now apply markPaid_keeps.
  - (* online, invoice issued *)
    unfold allPaidInFull. cbn [installments set_installments set_paymentTransactions].
    apply Forall_updateWhere; [ intro x; apply setXenditInfo_paidInFull | assumption ].
Qed.

Lemma manualPaymentConfirmation_paidInFull req now verify (db : DB) :
  primaryKeysOk db = true ->
  allPaidInFull db ->
  allPaidInFull (fst (manualPaymentConfirmation req now verify db)).
Proof.
  intros Hkeys Hall. unfold manualPaymentConfirmation.
  split_handler; cbn [fst]; try assumption;
    match goal with H : find _ (innerJoin _ _) = Some _ |- _ =>
      apply joined_row in H as [Hin Hp] end;
    apply andb_true_iff in Hp as [Hp _];
    apply andb_true_iff in Hp as [Hid _]; apply Nat.eqb_eq in Hid;
    rewrite <- Hid;
    unfold allPaidInFull;
    cbn [installments set_installments set_paymentTransactions];
    now apply markPaid_keeps.
Qed.

Lemma simulatePaymentSuccess_paidInFull req now (db : DB) :
  primaryKeysOk db = true ->
  allPaidInFull db ->
  allPaidInFull (fst (simulatePaymentSuccess req now db)).
Proof.
  intros Hkeys Hall. unfold simulatePaymentSuccess.
  split_handler; cbn [fst]; try assumption.
  match goal with H : find _ (installments db) = Some _ |- _ =>
    apply find_some in H as [Hin Hp] end.
  apply andb_true_iff in Hp as [Hid _]. apply Nat.eqb_eq in Hid.
  rewrite <- Hid.
  unfold allPaidInFull.
  cbn [installments set_installments set_paymentTransactions set_invoices].
  now apply markPaid_keeps.
Qed.

Lemma handleXenditWebhook_paidInFull callbackToken webhookToken w (db : DB) :
  primaryKeysOk db = true ->
  allPaidInFull db ->
  reportsInstallmentAmount w db ->
  allPaidInFull (fst (handleXenditWebhook callbackToken webhookToken w db)).
Proof.
  intros Hkeys Hall Hamount. unfold handleXenditWebhook.
  split_handler; cbn [fst]; try assumption;
    match goal with
      Hext : wh_external_id w = Some _,
      Hfind : find _ (installments db) = Some _,
      Hamt : wh_amount w = Some _ |- _ =>
        rewrite (Hamount _ _ _ Hext Hfind Hamt);
        apply find_some in Hfind as [Hin _]
    end;
    unfold allPaidInFull;
    cbn [installments set_installments set_paymentTransactions];
    now apply markPaid_keeps.
Qed.

Lemma step_keys (op : Op) (db : DB) :
  primaryKeysOk (fst (step op db)) = primaryKeysOk db.
Proof.
  assert (Hm : forall t a m x, i_id (markPaid t a m x) = i_id x) by reflexivity.
  assert (Hx : forall e v x, i_id (setXenditInfo e v x) = i_id x) by reflexivity.
  destruct op; cbn [step];
    [ unfold processInstallmentPayment, payLocated | unfold handleXenditWebhook
    | unfold manualPaymentConfirmation | unfold simulatePaymentSuccess ];
    split_handler; cbn [fst]; try reflexivity;
    unfold primaryKeysOk;
    cbn [installments bookings set_installments set_paymentTransactions set_invoices];
    rewrite (map_key_updateWhere i_id); auto.
Qed.

Lemma step_paidInFull (op : Op) (db : DB) :
  primaryKeysOk db = true ->
  allPaidInFull db ->
  faithfulOp op db ->
  allPaidInFull (fst (step op db)).
Proof.
  destruct op; cbn [step faithfulOp]; intros Hkeys Hall Hop.
  - now apply processInstallmentPayment_paidInFull.
  - now apply handleXenditWebhook_paidInFull.
  - now apply manualPaymentConfirmation_paidInFull.
  - now apply simulatePaymentSuccess_paidInFull.
Qed.

End PaidInvariant.

(** C1, as the code has it.  Start from a store whose installment and booking
    ids are distinct and in which every paid installment records its own
    amount as paid.  After any sequence of pay-installment requests (cash or
    online), webhook deliveries, manual confirmations and simulated payments
    in which each webhook delivery reports the amount of the installment it
    designates, every installment whose status is [PAID] has [paidAmount]
    equal to its [amount]. *)
Theorem paid_amount_is_amount :
  forall (ops : list Op) (db : DB),
    primaryKeysOk db = true ->
    allPaidInFull db ->
    faithfulRun ops db ->
    forall i, In i (installments (run ops db)) ->
              i_status i = InstallmentStatus.PAID ->
              i_paidAmount i = Some (i_amount i).
Proof.
  intros ops db Hkeys Hall Hrun.
  enough (Hend : allPaidInFull (run ops db))
    by (intros i Hi; exact (proj1 (Forall_forall _ _) Hend i Hi)).
  revert db Hkeys Hall Hrun.
  induction ops as [ | op ops IH ]; intros db Hkeys Hall Hrun; cbn [run].
  - exact Hall.
  - destruct Hrun as [Hop Hrest].
    apply IH.
    + now rewrite step_keys.
    + now apply step_paidInFull.
    + exact Hrest.
Qed.

Lemma paid_amount_is_amount_witness :
  primaryKeysOk (paymentDB PaymentType.ONLINE) = true
  /\ Forall (fun i => paymentFields i
                      = (InstallmentStatus.PAID, Some 40000, Some 2000,
                         Some "BANK_TRANSFER"%string)
                      /\ i_paidAmount i = Some (i_amount i))
            (installments
               (run [invoiceOp; XenditWebhook None None (paidWebhook 400 2000 None)]
                    (paymentDB PaymentType.ONLINE))).
Proof.
  split; [ reflexivity | ].
  apply Forall_forall. intros i Hi. split.
  - vm_compute in Hi. destruct Hi as [ <- | [] ]. reflexivity.
  - apply (paid_amount_is_amount
             [invoiceOp; XenditWebhook None None (paidWebhook 400 2000 None)]
             (paymentDB PaymentType.ONLINE)).
    + reflexivity.
    + repeat constructor. intro Hpaid. discriminate Hpaid.
    + cbn [faithfulRun faithfulOp invoiceOp]. repeat split.
      intros externalId installment amount Hext Hfind Hamount.
      injection Hext as <-. injection Hamount as <-.
      vm_compute in Hfind. injection Hfind as <-. reflexivity.
    + exact Hi.
    + vm_compute in Hi. destruct Hi as [ <- | [] ]. reflexivity.
Defined.

(** C1, as stated, fails: a webhook delivery stores the amount the gateway
    reports.  An installment of 400.00 for which the gateway reports 1.00 is
    [PAID] with [paidAmount] 1.00. *)
Lemma webhook_records_reported_amount :
  primaryKeysOk (paymentDB PaymentType.ONLINE) = true
  /\ allPaidInFull (paymentDB PaymentType.ONLINE)
  /\ exists i,
      installments (run [invoiceOp; XenditWebhook None None (paidWebhook 1 2000 None)]
                        (paymentDB PaymentType.ONLINE)) = [i]
      /\ i_status i = InstallmentStatus.PAID
      /\ i_amount i = 40000
      /\ i_paidAmount i = Some 100
      /\ i_paidAmount i <> Some (i_amount i).
Proof.
  split; [ reflexivity | ].
  split; [ repeat constructor; intro Hpaid; discriminate Hpaid | ].
  eexists. split; [ vm_compute; reflexivity | ].
  cbn. repeat split. discriminate.
Qed.

(** * Paying an installment *)

Section PayInstallment.

Lemma finalPaymentMethod_cash (paymentMethod : option string) :
  finalPaymentMethod paymentMethod = "CASH"%string.
Proof.
  destruct paymentMethod as [ m | ]; [ | reflexivity ].
  unfold finalPaymentMethod, includes, validCashMethods. cbn [existsb].
  rewrite orb_false_r.
  destruct (String.eqb m "CASH") eqn:E; [ | reflexivity ].
  now apply String.eqb_eq in E.
Qed.

Lemma status_eqb_PAID (s : InstallmentStatus.t) :
  InstallmentStatus.eqb s InstallmentStatus.PAID = true
  <-> s = InstallmentStatus.PAID.
Proof. destruct s; cbn; split; intro H; try reflexivity; discriminate H. Qed.

Lemma status_eqb_not_PAID (s : InstallmentStatus.t) :
  s <> InstallmentStatus.PAID ->
  InstallmentStatus.eqb s InstallmentStatus.PAID = false.
Proof. destruct s; cbn; intro H; try reflexivity. now elim H. Qed.

(** For the tenant of the booking, with a payment method that passes the
    validation, the handler reaches the already-paid check with the
    installment and its booking. *)
Lemma processInstallmentPayment_located (req : PayReq) (key : option string)
      (now : Z) (gateway : InvoiceOutcome) (db : DB)
      (inst : Installment) (bk : Booking) :
  primaryKeysOk db = true ->
  In inst (installments db) ->
  In bk (bookings db) ->
  i_bookingId inst = b_id bk ->
  pay_userId req = Some (b_tenantId bk) ->
  pay_installmentId req = Some (i_id inst) ->
  rejectedMethod (pay_paymentMethod req) = false ->
  processInstallmentPayment req key now gateway db
  = payLocated (i_id inst) inst bk (pay_paymentMethod req) key now gateway db.
Proof.
  intros Hkeys Hi Hb Hk Huser Hid Hmethod.
  unfold processInstallmentPayment. rewrite Huser, Hid, Hmethod.
  pose proof Hkeys as Hkeys'. apply andb_true_iff in Hkeys' as [Hki _].
  unfold hasId at 1. rewrite (find_by_key i_id _ inst Hki Hi).
  rewrite (find_innerJoin db inst bk (ownedBy (i_id inst) (b_tenantId bk)) Hkeys Hi Hb Hk).
  - unfold ownedBy, hasId. cbn [fst snd]. now rewrite !Nat.eqb_refl.
  - intros i' b' Hp. unfold ownedBy, hasId in Hp. cbn [fst snd] in Hp.
    apply andb_true_iff in Hp as [Hp _]. now apply Nat.eqb_eq.
Qed.

End PayInstallment.

(** C6. Two pay-installment calls by the tenant on the same unpaid installment
    of a [CASH] booking.  The first answers 200, marks the installment [PAID]
    with [paidAmount] equal to its amount, and appends exactly one payment
    transaction, [COMPLETED].  The second answers 400 "Installment is
    already paid" and leaves the whole store as it was: no second
    transaction. *)
Theorem payInstallment_twice :
  forall db inst bk req1 req2 key1 key2 now1 now2 gateway1 gateway2,
    primaryKeysOk db = true ->
    In inst (installments db) ->
    In bk (bookings db) ->
    i_bookingId inst = b_id bk ->
    b_paymentType bk = PaymentType.CASH ->
    i_status inst <> InstallmentStatus.PAID ->
    pay_userId req1 = Some (b_tenantId bk) ->
    pay_installmentId req1 = Some (i_id inst) ->
    rejectedMethod (pay_paymentMethod req1) = false ->
    pay_userId req2 = Some (b_tenantId bk) ->
    pay_installmentId req2 = Some (i_id inst) ->
    rejectedMethod (pay_paymentMethod req2) = false ->
    let first := processInstallmentPayment req1 key1 now1 gateway1 db in
    let second := processInstallmentPayment req2 key2 now2 gateway2 (fst first) in
    snd first = mkResponse 200 (CashPaid (i_id inst) (i_amount inst) now1)
    /\ (exists paid,
           find (hasId (i_id inst)) (installments (fst first)) = Some paid
           /\ i_status paid = InstallmentStatus.PAID
           /\ i_paidAmount paid = Some (i_amount inst)
           /\ i_paidAt paid = Some now1
           /\ i_paymentMethod paid = Some "CASH"%string
           /\ i_amount paid = i_amount inst
           /\ i_bookingId paid = i_bookingId inst
           /\ i_installmentNumber paid = i_installmentNumber inst
           /\ i_dueDate paid = i_dueDate inst)
    /\ (exists tx,
           paymentTransactions (fst first) = paymentTransactions db ++ [tx]
           /\ t_installmentId tx = Some (i_id inst)
           /\ t_amount tx = i_amount inst
           /\ t_paymentMethod tx = "CASH"%string
           /\ t_status tx = PaymentStatus.COMPLETED
           /\ t_paidAt tx = Some now1)
    /\ snd second = mkResponse 400 (Error "Installment is already paid")
    /\ fst second = fst first.
Proof.
  intros db inst bk req1 req2 key1 key2 now1 now2 gateway1 gateway2
         Hkeys Hi Hb Hk Hcash Hunpaid Hu1 Hid1 Hm1 Hu2 Hid2 Hm2 first second.
  assert (Hfirst : first
                   = (set_paymentTransactions
                        (set_installments db
                           (updateWhere (hasId (i_id inst))
                                        (markPaid now1 (i_amount inst) "CASH")
                                        (installments db))
                           (nextId db))
                        (paymentTransactions db
                         ++ [mkTransaction (nextId db) (Some (i_id inst)) (b_id bk)
                                           (i_amount inst) "CASH" PaymentType.CASH
                                           None None PaymentStatus.COMPLETED
                                           (Some now1)])
                        (S (nextId db)),
                      mkResponse 200 (CashPaid (i_id inst) (i_amount inst) now1))).
  { unfold first.
    rewrite (processInstallmentPayment_located req1 key1 now1 gateway1 db inst bk)
      by assumption.
    unfold payLocated.
    rewrite (status_eqb_not_PAID _ Hunpaid), Hcash. cbn [PaymentType.eqb].
    rewrite finalPaymentMethod_cash.
    assert (Hex : existsb (hasId (i_id inst)) (installments db) = true)
      by (apply existsb_exists; exists inst; split;
          [ assumption | apply Nat.eqb_refl ]).
    rewrite Hex. reflexivity. }
  set (paid := markPaid now1 (i_amount inst) "CASH" inst).
  assert (Hkeys1 : primaryKeysOk (fst first) = true)
    by exact (eq_trans (step_keys (PayInstallment req1 key1 now1 gateway1) db) Hkeys).
  assert (Hpaid : In paid (installments (fst first)))
    by (rewrite Hfirst; cbn [fst installments set_installments set_paymentTransactions];
        apply (in_updateWhere_key i_id); assumption).
  assert (Hb1 : In bk (bookings (fst first))) by (rewrite Hfirst; exact Hb).
  split; [ now rewrite Hfirst | ].
  split.
  { pose proof Hkeys1 as Hk1. apply andb_true_iff in Hk1 as [Hki _].
    exists paid.
    split; [ exact (find_by_key i_id _ paid Hki Hpaid) | ].
    cbn. repeat split. }
  split.
  { eexists. rewrite Hfirst. cbn [fst paymentTransactions set_paymentTransactions].
    split; [ reflexivity | cbn; repeat split ]. }
  unfold second.
  rewrite (processInstallmentPayment_located req2 key2 now2 gateway2 (fst first)
                                             paid bk Hkeys1 Hpaid Hb1 Hk Hu2 Hid2 Hm2).
  split; reflexivity.
Qed.

Lemma payInstallment_twice_witness :
  let db := paymentDB PaymentType.CASH in
  let first := processInstallmentPayment (payReq (Some "CASH"%string)) None 1000
                                         issuedInvoice db in
  let second := processInstallmentPayment (payReq (Some "CASH"%string)) None 2000
                                          issuedInvoice (fst first) in
  primaryKeysOk db = true
  /\ snd first = mkResponse 200 (CashPaid 10 40000 1000)
  /\ map paymentFields (installments (fst first))
     = [ (InstallmentStatus.PAID, Some 40000, Some 1000, Some "CASH"%string) ]
  /\ map (fun t => (t_amount t, t_status t)) (paymentTransactions (fst first))
     = [ (40000, PaymentStatus.COMPLETED) ]
  /\ snd second = mkResponse 400 (Error "Installment is already paid")
  /\ map paymentFields (installments (fst second))
     = [ (InstallmentStatus.PAID, Some 40000, Some 1000, Some "CASH"%string) ]
  /\ List.length (paymentTransactions (fst second)) = 1%nat.
Proof.
  intros db first second.
  destruct (payInstallment_twice db sampleInstallment (sampleBooking PaymentType.CASH)
              (payReq (Some "CASH"%string)) (payReq (Some "CASH"%string))
              None None 1000 2000 issuedInvoice issuedInvoice
              eq_refl (or_introl eq_refl) (or_introl eq_refl) eq_refl eq_refl
              ltac:(discriminate) eq_refl eq_refl eq_refl eq_refl eq_refl eq_refl)
    as (Hfirst & _ & _ & Hsecond & Hsame).
  split; [ reflexivity | ].
  split; [ exact Hfirst | ].
  split; [ reflexivity | ].
  split; [ reflexivity | ].
  split; [ exact Hsecond | ].
  change (map paymentFields (installments (fst second))
          = [ (InstallmentStatus.PAID, Some 40000, Some 1000, Some "CASH"%string) ]
          /\ List.length (paymentTransactions (fst second)) = 1%nat).
  replace (fst second) with (fst first) by (symmetry; exact Hsame).
  split; reflexivity.
Defined.

(** C8. On an [ONLINE] booking, when the gateway does not issue the invoice
    (error status, or the call throws), the tenant's pay-installment request
    is answered 500 "Failed to create payment invoice" and the store is left
    as it was: the installment row carries no invoice id or external id of
    this attempt, and no payment transaction is created. *)
Theorem invoice_failure_leaves_store :
  forall db inst bk req key now gateway,
    primaryKeysOk db = true ->
    In inst (installments db) ->
    In bk (bookings db) ->
    i_bookingId inst = b_id bk ->
    b_paymentType bk = PaymentType.ONLINE ->
    i_status inst <> InstallmentStatus.PAID ->
    pay_userId req = Some (b_tenantId bk) ->
    pay_installmentId req = Some (i_id inst) ->
    rejectedMethod (pay_paymentMethod req) = false ->
    truthy key = true ->
    invoiceFailed gateway ->
    let result := processInstallmentPayment req key now gateway db in
    snd result = mkResponse 500 (Error "Failed to create payment invoice")
    /\ fst result = db
    /\ installments (fst result) = installments db
    /\ paymentTransactions (fst result) = paymentTransactions db.
Proof.
  intros db inst bk req key now gateway
         Hkeys Hi Hb Hk Honline Hunpaid Hu Hid Hm Hkey Hfail result.
  assert (Hresult : result
                    = (db, mkResponse 500 (Error "Failed to create payment invoice"))).
  { unfold result.
    rewrite (processInstallmentPayment_located req key now gateway db inst bk)
      by assumption.
    unfold payLocated.
    rewrite (status_eqb_not_PAID _ Hunpaid), Honline, Hkey. cbn [PaymentType.eqb negb].
    destruct gateway; [ contradiction | reflexivity | reflexivity ]. }
  rewrite Hresult. repeat split.
Qed.

Lemma invoice_failure_leaves_store_witness :
  let db := paymentDB PaymentType.ONLINE in
  primaryKeysOk db = true
  /\ invoiceFailed (InvoiceRejected 401 "INVALID_API_KEY")
  /\ processInstallmentPayment (payReq None) (Some "xnd_development_key"%string) 1000
                               (InvoiceRejected 401 "INVALID_API_KEY") db
     = (db, mkResponse 500 (Error "Failed to create payment invoice")).
Proof.
  intro db.
  destruct (invoice_failure_leaves_store db sampleInstallment
              (sampleBooking PaymentType.ONLINE) (payReq None)
              (Some "xnd_development_key"%string) 1000
              (InvoiceRejected 401 "INVALID_API_KEY")
              eq_refl (or_introl eq_refl) (or_introl eq_refl) eq_refl eq_refl
              ltac:(discriminate) eq_refl eq_refl eq_refl eq_refl I)
    as (Hresponse & Hstore & _).
  split; [ reflexivity | ].
  split; [ exact I | ].
  apply injective_projections; [ exact Hstore | exact Hresponse ].
Defined.

(** C10, as the code has it.  Among the requests that pass the validation of
    the payment method (absent, or one of BANK_TRANSFER, CASH, EWALLET,
    CREDIT_CARD) the method has no effect on the outcome: two such requests
    for the same installment by the same user get the same answer and leave
    the same store.  For the tenant and an unpaid installment, a [CASH]
    booking takes the cash path whatever the method (the installment is
    [PAID] at once, with method CASH), and an [ONLINE] booking takes the
    online path whatever the method, also for method CASH (with the key
    configured and the gateway issuing the invoice, the installment gets the
    invoice ids, a [PENDING] transaction is appended, and the status is not
    changed). *)
Theorem payment_path_follows_booking_type :
  (forall db req req' key now gateway,
      pay_userId req = pay_userId req' ->
      pay_installmentId req = pay_installmentId req' ->
      rejectedMethod (pay_paymentMethod req) = false ->
      rejectedMethod (pay_paymentMethod req') = false ->
      processInstallmentPayment req key now gateway db
      = processInstallmentPayment req' key now gateway db)
  /\ (forall db inst bk req key now gateway,
         primaryKeysOk db = true ->
         In inst (installments db) ->
         In bk (bookings db) ->
         i_bookingId inst = b_id bk ->
         i_status inst <> InstallmentStatus.PAID ->
         pay_userId req = Some (b_tenantId bk) ->
         pay_installmentId req = Some (i_id inst) ->
         rejectedMethod (pay_paymentMethod req) = false ->
         let result := processInstallmentPayment req key now gateway db in
         (b_paymentType bk = PaymentType.CASH ->
          snd result = mkResponse 200 (CashPaid (i_id inst) (i_amount inst) now)
          /\ find (hasId (i_id inst)) (installments (fst result))
             = Some (markPaid now (i_amount inst) "CASH" inst))
         /\ (b_paymentType bk = PaymentType.ONLINE ->
             forall id invoice_url external_id,
               truthy key = true ->
               gateway = InvoiceIssued id invoice_url external_id ->
               snd result = mkResponse 200 (InvoiceCreated invoice_url external_id id)
               /\ find (hasId (i_id inst)) (installments (fst result))
                  = Some (setXenditInfo (mkExternalId (i_id inst) now) id inst)
               /\ i_status (setXenditInfo (mkExternalId (i_id inst) now) id inst)
                  = i_status inst
               /\ exists tx,
                   paymentTransactions (fst result) = paymentTransactions db ++ [tx]
                   /\ t_status tx = PaymentStatus.PENDING
                   /\ t_xenditInvoiceId tx = Some id)).
Proof.
  split.
  - intros db req req' key now gateway Hu Hid Hm Hm'.
    unfold processInstallmentPayment. rewrite <- Hu, <- Hid, Hm, Hm'.
    destruct (pay_userId req) as [ userId | ]; [ | reflexivity ].
    destruct (pay_installmentId req) as [ installmentId | ]; [ | reflexivity ].
    destruct (find (hasId installmentId) (installments db)) as [ found | ];
      [ | reflexivity ].
    destruct (find (ownedBy installmentId userId) _) as [ [i b] | ]; [ | reflexivity ].
    unfold payLocated. now rewrite !finalPaymentMethod_cash.
  - intros db inst bk req key now gateway Hkeys Hi Hb Hk Hunpaid Hu Hid Hm result.
    pose proof Hkeys as Hkeys'. apply andb_true_iff in Hkeys' as [Hki _].
    assert (Hresult : result
                      = payLocated (i_id inst) inst bk (pay_paymentMethod req)
                                   key now gateway db)
      by (apply processInstallmentPayment_located; assumption).
    assert (Hex : existsb (hasId (i_id inst)) (installments db) = true)
      by (apply existsb_exists; exists inst; split;
          [ assumption | apply Nat.eqb_refl ]).
    split.
    + intro Hcash. rewrite Hresult. unfold payLocated.
      rewrite (status_eqb_not_PAID _ Hunpaid), Hcash, finalPaymentMethod_cash, Hex.
      cbn [PaymentType.eqb negb fst snd installments set_installments
           set_paymentTransactions].
      split; [ reflexivity | ].
      apply (find_by_key i_id _ (markPaid now (i_amount inst) "CASH" inst)).
      * now rewrite (map_key_updateWhere i_id).
      * now apply (in_updateWhere_key i_id).
    + intros Honline id invoice_url external_id Hkey ->.
      rewrite Hresult. unfold payLocated.
      rewrite (status_eqb_not_PAID _ Hunpaid), Honline, Hkey.
      cbn [PaymentType.eqb negb fst snd installments paymentTransactions
           set_installments set_paymentTransactions].
      split; [ reflexivity | ].
      split.
      * apply (find_by_key i_id _ (setXenditInfo (mkExternalId (i_id inst) now) id inst)).
        -- now rewrite (map_key_updateWhere i_id).
        -- now apply (in_updateWhere_key i_id).
      * split; [ reflexivity | ].
        eexists. split; [ reflexivity | split; reflexivity ].
Qed.

Lemma payment_path_follows_booking_type_witness :
  (let result := processInstallmentPayment (payReq (Some "EWALLET"%string)) None 1000
                                           issuedInvoice (paymentDB PaymentType.CASH) in
   rejectedMethod (Some "EWALLET"%string) = false
   /\ snd result = mkResponse 200 (CashPaid 10 40000 1000)
   /\ map paymentFields (installments (fst result))
      = [ (InstallmentStatus.PAID, Some 40000, Some 1000, Some "CASH"%string) ])
  /\ (let result := processInstallmentPayment (payReq (Some "CASH"%string))
                                              (Some "xnd_development_key"%string) 1000
                                              issuedInvoice
                                              (paymentDB PaymentType.ONLINE) in
      snd result
      = mkResponse 200 (InvoiceCreated "https://checkout.xendit.co/web/inv_1"
                                       "installment_10_1000" "inv_1")
      /\ map paymentFields (installments (fst result))
         = [ (InstallmentStatus.UNPAID, None, None, None) ]).
Proof.
  split.
  - intro result.
    destruct (proj2 payment_path_follows_booking_type
                    (paymentDB PaymentType.CASH) sampleInstallment
                    (sampleBooking PaymentType.CASH) (payReq (Some "EWALLET"%string))
                    None 1000 issuedInvoice
                    eq_refl (or_introl eq_refl) (or_introl eq_refl) eq_refl
                    ltac:(discriminate) eq_refl eq_refl eq_refl)
      as [Hcash _].
    destruct (Hcash eq_refl) as [Hresponse _].
    split; [ reflexivity | ].
    split; [ exact Hresponse | reflexivity ].
  - intro result.
    destruct (proj2 payment_path_follows_booking_type
                    (paymentDB PaymentType.ONLINE) sampleInstallment
                    (sampleBooking PaymentType.ONLINE) (payReq (Some "CASH"%string))
                    (Some "xnd_development_key"%string) 1000 issuedInvoice
                    eq_refl (or_introl eq_refl) (or_introl eq_refl) eq_refl
                    ltac:(discriminate) eq_refl eq_refl eq_refl)
      as [_ Honline].
    destruct (Honline eq_refl _ _ _ eq_refl eq_refl) as [Hresponse _].
    split; [ exact Hresponse | reflexivity ].
Defined.

(** C10, as stated, fails: on a [CASH] booking a request whose payment method
    is not among the valid ones (and so is not CASH) is rejected with 400 by
    the validation; the installment stays [UNPAID]. *)
Lemma invalid_method_is_not_coerced :
  let db := paymentDB PaymentType.CASH in
  let result := processInstallmentPayment (payReq (Some "PAYPAL"%string)) None 1000
                                          issuedInvoice db in
  map b_paymentType (bookings db) = [PaymentType.CASH]
  /\ Some "PAYPAL"%string <> Some "CASH"%string
  /\ snd result
     = mkResponse 400
         (Error "Invalid payment method. Valid options: BANK_TRANSFER, CASH, EWALLET, CREDIT_CARD")
  /\ map paymentFields (installments (fst result))
     = [ (InstallmentStatus.UNPAID, None, None, None) ]
  /\ paymentTransactions (fst result) = [].
Proof.
  cbv zeta. repeat split; try reflexivity. discriminate.
Qed.

(** * Gateway callbacks *)

Section Terminal.

Lemma Forall2_updateWhere {A : Type} (R : A -> A -> Prop) (p : A -> bool)
      (f : A -> A) (l : list A) :
  (forall x, R x x) -> (forall x, R x (f x)) -> Forall2 R l (updateWhere p f l).
Proof.
  intros Hrefl Hf. unfold updateWhere.
  induction l as [ | x l IH ]; cbn [map]; constructor; [ | exact IH ].
  destruct (p x); auto.
Qed.

Lemma Forall2_same {A : Type} (R : A -> A -> Prop) (l : list A) :
  (forall x, R x x) -> Forall2 R l l.
Proof. intro Hrefl. induction l; constructor; auto. Qed.

(** No handler takes an installment out of [PAID]: row by row, the id is kept
    and a paid installment is still paid after the operation. *)
Lemma paid_stays_paid (op : Op) (db : DB) :
  Forall2 (fun i i' => i_id i' = i_id i
                       /\ i_amount i' = i_amount i
                       /\ (i_status i = InstallmentStatus.PAID ->
                           i_status i' = InstallmentStatus.PAID))
          (installments db) (installments (fst (step op db))).
Proof.
  destruct op; cbn [step];
    [ unfold processInstallmentPayment, payLocated | unfold handleXenditWebhook
    | unfold manualPaymentConfirmation | unfold simulatePaymentSuccess ];
    split_handler;
    cbn [fst installments set_installments set_paymentTransactions set_invoices];
    (apply Forall2_same || apply Forall2_updateWhere);
    intros; cbn; auto.
Qed.

End Terminal.

(** C7, what the code does.  A webhook delivery that passes the token check,
    has status PAID and an external id that designates no installment is
    answered with HTTP status 404 and the body [{ error: 'Installment not
    found' }]; nothing is written and no error escapes the handler.  The
    statement of C7 (HTTP 200, the 404 in the body only) and the handler's
    own closing comment (always respond with 200) say otherwise. *)
Theorem webhook_unknown_installment_is_404 :
  forall callbackToken webhookToken w externalId db,
    truthy webhookToken && negb (opt_string_eqb callbackToken webhookToken) = false ->
    wh_status w = Some "PAID"%string ->
    wh_external_id w = Some externalId ->
    truthy (Some externalId) = true ->
    find (hasExternalId externalId) (installments db) = None ->
    handleXenditWebhook callbackToken webhookToken w db
    = (db, mkResponse 404 (Error "Installment not found")).
Proof.
  intros callbackToken webhookToken w externalId db Htoken Hstatus Hext Htruthy Hnone.
  unfold handleXenditWebhook.
  rewrite Htoken, Hstatus, Hext, Htruthy, Hnone. reflexivity.
Qed.

Lemma webhook_unknown_installment_is_404_witness :
  let w := paidWebhook 400 2000 None in
  let db := paymentDB PaymentType.ONLINE in
  find (hasExternalId "installment_10_1000") (installments db) = None
  /\ statusCode (snd (handleXenditWebhook (Some "secret"%string) (Some "secret"%string)
                                          w db)) = 404
  /\ statusCode (snd (handleXenditWebhook (Some "secret"%string) (Some "secret"%string)
                                          w db)) <> 200.
Proof.
  intros w db.
  pose proof (webhook_unknown_installment_is_404
                (Some "secret"%string) (Some "secret"%string) w "installment_10_1000" db
                eq_refl eq_refl eq_refl eq_refl eq_refl) as Hrun.
  split; [ reflexivity | ].
  rewrite Hrun. split; [ reflexivity | discriminate ].
Defined.

(** C2, what the code does.  Installment 10 is paid by a first webhook
    delivery (400.00 at time 2000, BANK_TRANSFER).  The pay-installment
    handler and the manual confirmation then refuse it with 400 and write
    nothing; a second webhook delivery and the simulated payment do not look
    at the status and overwrite [paidAmount], [paidAt] and [paymentMethod] of
    the paid installment.  The status itself stays [PAID]. *)
Theorem paid_installment_is_overwritten :
  let paid := run [invoiceOp; XenditWebhook None None (paidWebhook 400 2000 None)]
                  (paymentDB PaymentType.ONLINE) in
  map paymentFields (installments paid)
  = [ (InstallmentStatus.PAID, Some 40000, Some 2000, Some "BANK_TRANSFER"%string) ]
  /\ processInstallmentPayment (payReq None) (Some "xnd_development_key"%string) 3000
                               issuedInvoice paid
     = (paid, mkResponse 400 (Error "Installment is already paid"))
  /\ manualPaymentConfirmation (mkConfirmReq (Some 5%nat) 10 "inv_1") 3000
                               (VerifyAnswered "PAID") paid
     = (paid, mkResponse 400 (Error "Installment already paid"))
  /\ snd (handleXenditWebhook None None (paidWebhook 1 3000 (Some "EWALLET"%string)) paid)
     = mkResponse 200 Received
  /\ map paymentFields
         (installments
            (fst (handleXenditWebhook None None
                                      (paidWebhook 1 3000 (Some "EWALLET"%string)) paid)))
     = [ (InstallmentStatus.PAID, Some 100, Some 3000, Some "EWALLET"%string) ]
  /\ map paymentFields
         (installments
            (fst (simulatePaymentSuccess (mkSimulateReq 10 "installment_10_1000")
                                         5000 paid)))
     = [ (InstallmentStatus.PAID, Some 40000, Some 5000, Some "CREDIT_CARD"%string) ].
Proof.
  cbv zeta. repeat split; vm_compute; reflexivity.
Qed.

(** * Further properties of the payment handlers *)

Section Rows.

Lemma Forall2_compose {A : Type} (R : A -> A -> Prop) (l1 l2 l3 : list A) :
  (forall x y z, R x y -> R y z -> R x z) ->
  Forall2 R l1 l2 -> Forall2 R l2 l3 -> Forall2 R l1 l3.
Proof.
  intros Htrans H12. revert l3.
  induction H12 as [ | x y l1 l2 Hxy _ IH ]; intros l3 H23; inversion H23; subst.
  - constructor.
  - constructor; [ eapply Htrans; eassumption | now apply IH ].
Qed.

Lemma Forall2_weaken {A : Type} (R S : A -> A -> Prop) (l1 l2 : list A) :
  (forall x y, R x y -> S x y) -> Forall2 R l1 l2 -> Forall2 S l1 l2.
Proof. intros HRS H. induction H; constructor; auto. Qed.

Lemma scheduleKept_refl (i : Installment) : scheduleKept i i.
Proof. unfold scheduleKept. auto 10. Qed.

Lemma scheduleKept_trans (a b c : Installment) :
  scheduleKept a b -> scheduleKept b c -> scheduleKept a c.
Proof.
  unfold scheduleKept.
  intros (H1 & H2 & H3 & H4 & H5 & H6) (K1 & K2 & K3 & K4 & K5 & K6).
  repeat split; try congruence.
  destruct K6 as [K6 | K6]; [ rewrite K6; exact H6 | now right ].
Qed.

Lemma step_scheduleKept (op : Op) (db : DB) :
  Forall2 scheduleKept (installments db) (installments (fst (step op db)))
  /\ bookingTablesKept db (fst (step op db)).
Proof.
  destruct op; cbn [step];
    [ unfold processInstallmentPayment, payLocated | unfold handleXenditWebhook
    | unfold manualPaymentConfirmation | unfold simulatePaymentSuccess ];
    split_handler;
    cbn [fst installments set_installments set_paymentTransactions set_invoices];
    (split; [ | repeat split ]);
    (apply Forall2_same || apply Forall2_updateWhere);
    intros; unfold scheduleKept; cbn; auto 10.
Qed.

Lemma run_scheduleKept (ops : list Op) (db : DB) :
  Forall2 scheduleKept (installments db) (installments (run ops db))
  /\ bookingTablesKept db (run ops db).
Proof.
  revert db. induction ops as [ | op ops IH ]; intro db; cbn [run].
  - split; [ apply Forall2_same, scheduleKept_refl | repeat split ].
  - destruct (step_scheduleKept op db) as [Hstep (S1 & S2 & S3 & S4 & S5)].
    destruct (IH (fst (step op db))) as [Hrest (R1 & R2 & R3 & R4 & R5)].
    split.
    + exact (Forall2_compose _ _ _ _ scheduleKept_trans Hstep Hrest).
    + repeat split; congruence.
Qed.

End Rows.

(** X1. Whatever pay-installment requests, webhook deliveries, manual
    confirmations and simulated payments are processed, the schedule stays
    as it was created: no installment is added or removed, and every
    installment keeps its id, booking, number, amount and due date; the
    properties, bookings, leases, conflict records and rental agreements are
    not written. *)
Theorem payment_runs_keep_schedule :
  forall (ops : list Op) (db : DB),
    List.length (installments (run ops db)) = List.length (installments db)
    /\ Forall2 (fun i i' => i_id i' = i_id i
                            /\ i_bookingId i' = i_bookingId i
                            /\ i_installmentNumber i' = i_installmentNumber i
                            /\ i_amount i' = i_amount i
                            /\ i_dueDate i' = i_dueDate i)
               (installments db) (installments (run ops db))
    /\ bookingTablesKept db (run ops db).
Proof.
  intros ops db. destruct (run_scheduleKept ops db) as [Hrows Htables].
  split; [ symmetry; exact (Forall2_length Hrows) | ].
  split; [ | exact Htables ].
  apply (Forall2_weaken scheduleKept); [ | exact Hrows ].
  unfold scheduleKept. intros i i' (H1 & H2 & H3 & H4 & H5 & _). auto.
Qed.

(** X2. Over any sequence of payment operations the status of an installment
    only ever moves to [PAID]: a paid installment stays paid, and an
    installment is [UNPAID] or [OVERDUE] afterwards only if it had that very
    status before.  In particular no handler stores [OVERDUE]. *)
Theorem status_only_moves_to_paid :
  forall (ops : list Op) (db : DB),
    Forall2 (fun i i' =>
               i_id i' = i_id i
               /\ (i_status i = InstallmentStatus.PAID ->
                   i_status i' = InstallmentStatus.PAID)
               /\ (i_status i' <> InstallmentStatus.PAID -> i_status i' = i_status i))
            (installments db) (installments (run ops db)).
Proof.
  intros ops db. destruct (run_scheduleKept ops db) as [Hrows _].
  apply (Forall2_weaken scheduleKept); [ | exact Hrows ].
  unfold scheduleKept. intros i i' (H1 & _ & _ & _ & _ & [H6 | H6]).
  - repeat split; [ exact H1 | congruence | intros _; exact H6 ].
  - repeat split; [ exact H1 | intros _; exact H6 | intro Hn; now elim Hn ].
Qed.

Section Transactions.

Lemma transactionKept_refl (t : PaymentTransaction) : transactionKept t t.
Proof. unfold transactionKept. auto 12. Qed.

Lemma transactionKept_trans (a b c : PaymentTransaction) :
  transactionKept a b -> transactionKept b c -> transactionKept a c.
Proof.
  unfold transactionKept.
  intros (H1 & H2 & H3 & H4 & H5 & H6 & H7 & H8 & H9)
         (K1 & K2 & K3 & K4 & K5 & K6 & K7 & K8 & K9).
  repeat split; try congruence.
  destruct K9 as [K9 | K9]; [ subst c; exact H9 | now right ].
Qed.

Lemma completeTransaction_kept (paidAt : Z) (t : PaymentTransaction) :
  transactionKept t (completeTransaction paidAt t).
Proof. unfold transactionKept. cbn. auto 12. Qed.

Lemma Forall2_app_nil_r {A : Type} (R : A -> A -> Prop) (l l' : list A) :
  Forall2 R l l' -> Forall2 R l (l' ++ []).
Proof. now rewrite app_nil_r. Qed.

(** One operation: the transactions that were there are kept, in place, and
    at most new ones are appended. *)
Lemma step_transactions (op : Op) (db : DB) :
  exists kept added,
    paymentTransactions (fst (step op db)) = kept ++ added
    /\ Forall2 transactionKept (paymentTransactions db) kept
    /\ Forall newTransaction added.
Proof.
  destruct op; cbn [step];
    [ unfold processInstallmentPayment, payLocated | unfold handleXenditWebhook
    | unfold manualPaymentConfirmation | unfold simulatePaymentSuccess ];
    split_handler;
    cbn [fst paymentTransactions set_installments set_paymentTransactions set_invoices];
    try (exists (paymentTransactions db), [];
         split; [ now rewrite app_nil_r | ];
         split; [ apply Forall2_same, transactionKept_refl | constructor ]);
    try (eexists (paymentTransactions db), [_];
         split; [ reflexivity | ];
         split; [ apply Forall2_same, transactionKept_refl | ];
         constructor; [ unfold newTransaction; cbn; auto | constructor ]);
    try (eexists _, [];
         split; [ now rewrite app_nil_r | ];
         split; [ apply Forall2_updateWhere;
                  [ apply transactionKept_refl | intro; apply completeTransaction_kept ]
                | constructor ]).
Qed.

Lemma newTransaction_kept (t t' : PaymentTransaction) :
  newTransaction t -> transactionKept t t' -> newTransaction t'.
Proof.
  unfold newTransaction, transactionKept.
  intros Hnew (_ & _ & _ & _ & _ & _ & _ & _ & [-> | Hc]); [ exact Hnew | now right ].
Qed.

Lemma Forall2_app_split {A : Type} (R : A -> A -> Prop) (l1 l2 l' : list A) :
  Forall2 R (l1 ++ l2) l' ->
  exists l1' l2', l' = l1' ++ l2' /\ Forall2 R l1 l1' /\ Forall2 R l2 l2'.
Proof.
  revert l'. induction l1 as [ | x l1 IH ]; intros l' H; cbn in H.
  - exists [], l'. repeat split; [ constructor | exact H ].
  - inversion H as [ | ? y ? l'' Hxy Hrest ]; subst.
    destruct (IH _ Hrest) as (l1' & l2' & -> & H1 & H2).
    exists (y :: l1'), l2'. repeat split; [ now constructor | exact H2 ].
Qed.

Lemma Forall_kept_new (l l' : list PaymentTransaction) :
  Forall newTransaction l -> Forall2 transactionKept l l' -> Forall newTransaction l'.
Proof.
  intros Hnew H. induction H as [ | t t' l l' Ht _ IH ]; [ constructor | ].
  inversion Hnew; subst.
  constructor; [ now apply (newTransaction_kept t) | now apply IH ].
Qed.

End Transactions.

(** X3. The payment transactions are an append-only record: over any sequence
    of payment operations every transaction that was there is still there,
    in place, with its installment, booking, amount, method, type and
    gateway ids unchanged, and either wholly unchanged or [COMPLETED]; the
    transactions that were appended are [PENDING] or [COMPLETED]. *)
Theorem transactions_are_append_only :
  forall (ops : list Op) (db : DB),
    exists kept added,
      paymentTransactions (run ops db) = kept ++ added
      /\ Forall2 transactionKept (paymentTransactions db) kept
      /\ Forall newTransaction added.
Proof.
  intros ops. induction ops as [ | op ops IH ]; intro db; cbn [run].
  - exists (paymentTransactions db), [].
    split; [ now rewrite app_nil_r | ].
    split; [ apply Forall2_same, transactionKept_refl | constructor ].
  - destruct (step_transactions op db) as (kept1 & added1 & E1 & K1 & N1).
    destruct (IH (fst (step op db))) as (kept2 & added2 & E2 & K2 & N2).
    rewrite E1 in K2.
    destruct (Forall2_app_split _ _ _ _ K2) as (k & a & -> & Hk & Ha).
    exists k, (a ++ added2).
    split; [ now rewrite E2, app_assoc | ].
    split; [ exact (Forall2_compose _ _ _ _ transactionKept_trans K1 Hk) | ].
    apply Forall_app. split; [ exact (Forall_kept_new _ _ N1 Ha) | exact N2 ].
Qed.

(** X4. A payment operation that is not answered with HTTP 200 has written
    nothing: the store after it is the store before it. *)
Theorem refused_operation_writes_nothing :
  forall (op : Op) (db : DB),
    statusCode (snd (step op db)) <> 200 ->
    fst (step op db) = db.
Proof.
  intros op db.
  destruct op; cbn [step];
    [ unfold processInstallmentPayment, payLocated | unfold handleXenditWebhook
    | unfold manualPaymentConfirmation | unfold simulatePaymentSuccess ];
    split_handler; cbn [fst snd statusCode]; intro Hcode;
    try reflexivity; now elim Hcode.
Qed.

Lemma refused_operation_writes_nothing_witness :
  statusCode (snd (step (PayInstallment (payReq (Some "PAYPAL"%string)) None 1000
                                        issuedInvoice)
                        (paymentDB PaymentType.CASH))) <> 200
  /\ fst (step (PayInstallment (payReq (Some "PAYPAL"%string)) None 1000 issuedInvoice)
               (paymentDB PaymentType.CASH))
     = paymentDB PaymentType.CASH.
Proof.
  split; [ vm_compute; discriminate | ].
  apply (refused_operation_writes_nothing
           (PayInstallment (payReq (Some "PAYPAL"%string)) None 1000 issuedInvoice)
           (paymentDB PaymentType.CASH)).
  vm_compute. discriminate.
Defined.

(** * Further properties of the gateway callbacks *)

Section ExternalIds.

Lemma opt_string_eqb_eq (a b : option string) :
  opt_string_eqb a b = true <-> a = b.
Proof.
  destruct a as [ x | ], b as [ y | ]; cbn; split; intro H;
    try reflexivity; try discriminate H.
  - apply String.eqb_eq in H. now subst.
  - injection H as ->. apply String.eqb_refl.
Qed.

Lemma opt_string_eqb_neq (a b : option string) :
  a <> b -> opt_string_eqb a b = false.
Proof.
  intro Hne. destruct (opt_string_eqb a b) eqn:E; [ | reflexivity ].
  apply opt_string_eqb_eq in E. now elim Hne.
Qed.

Lemma append_same_prefix (p a b : string) :
  (p ++ a)%string = (p ++ b)%string -> a = b.
Proof.
  induction p as [ | c p IH ]; cbn; intro H; [ exact H | ].
  injection H as H. now apply IH.
Qed.

Lemma show_Z_inj (a b : Z) : show_Z a = show_Z b -> a = b.
Proof.
  unfold show_Z. intro H.
  assert (Hnil : forall z, Z.to_int z <> Decimal.Pos Decimal.Nil
                           /\ Z.to_int z <> Decimal.Neg Decimal.Nil).
  { intro z. destruct z as [ | q | q ]; cbn; split; try discriminate;
      intro E; injection E as E; now apply Unsigned.to_uint_nonnil in E. }
  apply (f_equal NilZero.int_of_string) in H.
  rewrite !NilZero.isi in H by apply Hnil.
  injection H as H. now apply DecimalZ.to_int_inj.
Qed.

(** Two invoices for the same installment have different external ids
    unless they are created in the same millisecond. *)
Lemma mkExternalId_inj (installmentId : Id) (now now' : Z) :
  mkExternalId installmentId now = mkExternalId installmentId now' -> now = now'.
Proof.
  unfold mkExternalId. intro H.
  do 3 apply append_same_prefix in H.
  now apply show_Z_inj.
Qed.

Lemma truthy_mkExternalId (installmentId : Id) (now : Z) :
  truthy (Some (mkExternalId installmentId now)) = true.
Proof. reflexivity. Qed.

(** After the invoice ids are written on the installment, the external id
    designates it, provided no other installment carried that id. *)
Lemma find_issued (db : DB) (inst : Installment) (externalId invoiceId : string) :
  primaryKeysOk db = true ->
  In inst (installments db) ->
  freshExternalId externalId db ->
  find (hasExternalId externalId)
       (updateWhere (hasId (i_id inst)) (setXenditInfo externalId invoiceId)
                    (installments db))
  = Some (setXenditInfo externalId invoiceId inst).
Proof.
  intros Hkeys Hin Hfresh.
  apply andb_true_iff in Hkeys as [Hki _].
  set (issued := setXenditInfo externalId invoiceId inst).
  assert (Hissued : In issued (updateWhere (hasId (i_id inst))
                                 (setXenditInfo externalId invoiceId)
                                 (installments db)))
    by (apply (in_updateWhere_key i_id); exact Hin).
  assert (Hext : hasExternalId externalId issued = true)
    by (unfold hasExternalId, issued; cbn; apply String.eqb_refl).
  destruct (find (hasExternalId externalId) _) as [ y | ] eqn:E.
  - apply find_some in E as [Hy Hp].
    unfold updateWhere in Hy. apply in_map_iff in Hy as (z & Hz & Hzin).
    destruct (hasId (i_id inst) z) eqn:Hid.
    + apply Nat.eqb_eq in Hid.
      rewrite (key_unique i_id _ z inst Hki Hzin Hin Hid) in Hz. now subst y.
    + subst y. pose proof (proj1 (Forall_forall _ _) Hfresh z Hzin) as Hz.
      cbv beta in Hz. congruence.
  - apply (find_none _ _ E) in Hissued. congruence.
Qed.

End ExternalIds.

(** X5. The webhook token: when [XENDIT_WEBHOOK_TOKEN] is unset or empty the
    check is skipped and the [x-callback-token] header plays no part; when
    it is set, a delivery whose header differs from it (or is missing) is
    answered 401 and nothing is written, and a delivery with the right
    header is handled as if no token were configured. *)
Theorem webhook_token_check :
  forall callbackToken webhookToken w db,
    (truthy webhookToken = false ->
     handleXenditWebhook callbackToken webhookToken w db
     = handleXenditWebhook None None w db)
    /\ (truthy webhookToken = true ->
        callbackToken <> webhookToken ->
        handleXenditWebhook callbackToken webhookToken w db
        = (db, mkResponse 401 (Error "Invalid webhook token")))
    /\ (callbackToken = webhookToken ->
        handleXenditWebhook callbackToken webhookToken w db
        = handleXenditWebhook None None w db).
Proof.
  intros callbackToken webhookToken w db. unfold handleXenditWebhook.
  repeat split.
  - intros ->. reflexivity.
  - intros -> Hne. now rewrite (opt_string_eqb_neq _ _ Hne).
  - intros ->. rewrite (proj2 (opt_string_eqb_eq webhookToken webhookToken) eq_refl).
    now rewrite andb_false_r.
Qed.

Lemma webhook_token_check_witness :
  handleXenditWebhook None None (paidWebhook 400 2000 None) invoicedDB
  = handleXenditWebhook None (Some ""%string) (paidWebhook 400 2000 None) invoicedDB
  /\ statusCode (snd (handleXenditWebhook (Some "guess"%string) (Some "secret"%string)
                                          (paidWebhook 400 2000 None) invoicedDB)) = 401
  /\ installments (fst (handleXenditWebhook (Some "guess"%string) (Some "secret"%string)
                                            (paidWebhook 400 2000 None) invoicedDB))
     = installments invoicedDB.
Proof.
  destruct (webhook_token_check None (Some ""%string) (paidWebhook 400 2000 None)
                                invoicedDB) as (Hunset & _ & _).
  destruct (webhook_token_check (Some "guess"%string) (Some "secret"%string)
                                (paidWebhook 400 2000 None) invoicedDB)
    as (_ & Hwrong & _).
  split; [ symmetry; apply Hunset; reflexivity | ].
  rewrite Hwrong; [ split; reflexivity | reflexivity | discriminate ].
Defined.

(** X6. A delivery that passes the token check and whose status is not PAID
    (an expired invoice, say) or that carries no external id is acknowledged
    with 200 and nothing is written: the installment stays as it is. *)
Theorem webhook_without_payment_is_acknowledged :
  forall callbackToken webhookToken w db,
    truthy webhookToken && negb (opt_string_eqb callbackToken webhookToken) = false ->
    wh_status w <> Some "PAID"%string \/ truthy (wh_external_id w) = false ->
    handleXenditWebhook callbackToken webhookToken w db
    = (db, mkResponse 200 Received).
Proof.
  intros callbackToken webhookToken w db Htoken Hother.
  unfold handleXenditWebhook. rewrite Htoken.
  destruct Hother as [Hstatus | Hext].
  - now rewrite (opt_string_eqb_neq _ _ Hstatus).
  - rewrite Hext, andb_false_r. reflexivity.
Qed.

Lemma webhook_without_payment_is_acknowledged_witness :
  let w := mkWebhookData (Some "EXPIRED"%string) (Some "installment_10_1000"%string)
                         None 2000 None in
  wh_status w <> Some "PAID"%string
  /\ handleXenditWebhook None None w invoicedDB = (invoicedDB, mkResponse 200 Received).
Proof.
  intro w. split; [ discriminate | ].
  apply (webhook_without_payment_is_acknowledged None None w invoicedDB).
  - reflexivity.
  - left. discriminate.
Defined.

Section OnlinePath.

(** The online path for the tenant's unpaid installment, the key configured
    and the gateway issuing the invoice. *)
Lemma processInstallmentPayment_issued (req : PayReq) (key : option string) (now : Z)
      (id invoice_url external_id : string) (db : DB)
      (inst : Installment) (bk : Booking) :
  primaryKeysOk db = true ->
  In inst (installments db) ->
  In bk (bookings db) ->
  i_bookingId inst = b_id bk ->
  b_paymentType bk = PaymentType.ONLINE ->
  i_status inst <> InstallmentStatus.PAID ->
  pay_userId req = Some (b_tenantId bk) ->
  pay_installmentId req = Some (i_id inst) ->
  rejectedMethod (pay_paymentMethod req) = false ->
  truthy key = true ->
  processInstallmentPayment req key now (InvoiceIssued id invoice_url external_id) db
  = (set_paymentTransactions
       (set_installments db
          (updateWhere (hasId (i_id inst))
                       (setXenditInfo (mkExternalId (i_id inst) now) id)
                       (installments db))
          (nextId db))
       (paymentTransactions db
        ++ [mkTransaction (nextId db) (Some (i_id inst)) (b_id bk) (i_amount inst)
                          "BANK_TRANSFER" PaymentType.ONLINE (Some id)
                          (Some (mkExternalId (i_id inst) now))
                          PaymentStatus.PENDING None])
       (S (nextId db)),
     mkResponse 200 (InvoiceCreated invoice_url external_id id)).
Proof.
  intros Hkeys Hi Hb Hk Honline Hunpaid Hu Hid Hm Hkey.
  rewrite (processInstallmentPayment_located req key now _ db inst bk) by assumption.
  unfold payLocated.
  rewrite (status_eqb_not_PAID _ Hunpaid), Honline, Hkey. reflexivity.
Qed.

(** The method a delivery makes the handler write is a value of the enum
    when the reported one is absent, empty or valid. *)
Lemma reported_method_valid (paymentMethod : option string) :
  rejectedMethod paymentMethod = false ->
  includes validPaymentMethods
           (match paymentMethod with
            | Some m => if truthy (Some m) then m else "BANK_TRANSFER"%string
            | None => "BANK_TRANSFER"%string
            end) = true.
Proof.
  destruct paymentMethod as [ m | ]; [ | reflexivity ].
  unfold rejectedMethod. destruct (truthy (Some m)); [ | reflexivity ].
  cbn [andb]. intro H. now apply negb_false_iff in H.
Qed.

Lemma reported_method_refused (paymentMethod : option string) :
  rejectedMethod paymentMethod = true ->
  includes validPaymentMethods
           (match paymentMethod with
            | Some m => if truthy (Some m) then m else "BANK_TRANSFER"%string
            | None => "BANK_TRANSFER"%string
            end) = false.
Proof.
  destruct paymentMethod as [ m | ]; [ | discriminate ].
  unfold rejectedMethod. destruct (truthy (Some m)); [ | discriminate ].
  cbn [andb]. intro H. now apply negb_true_iff in H.
Qed.

End OnlinePath.

(** X7. The online path end to end.  The tenant asks to pay an unpaid
    installment of an [ONLINE] booking and the gateway issues an invoice;
    no other installment carries the external id made for it.  The gateway
    then reports that external id as PAID.  When the reported amount fits
    the [decimal(12,2)] column and the reported payment method is absent,
    empty or one of the four values of the enum, the delivery is answered
    200, the installment is [PAID] with the reported amount (at the scale of
    the column), payment time and method ([BANK_TRANSFER] when none is
    reported) and still carries the invoice ids, and the transaction that
    was [PENDING] for the invoice is [COMPLETED] with that payment time.
    With any other method, or a larger amount, the store refuses the update:
    the delivery is answered 500 and nothing is written. *)
Theorem online_payment_round_trip :
  forall db inst bk req key now id invoice_url external_id
         callbackToken webhookToken w amount,
    primaryKeysOk db = true ->
    In inst (installments db) ->
    In bk (bookings db) ->
    i_bookingId inst = b_id bk ->
    b_paymentType bk = PaymentType.ONLINE ->
    i_status inst <> InstallmentStatus.PAID ->
    pay_userId req = Some (b_tenantId bk) ->
    pay_installmentId req = Some (i_id inst) ->
    rejectedMethod (pay_paymentMethod req) = false ->
    truthy key = true ->
    freshExternalId (mkExternalId (i_id inst) now) db ->
    truthy webhookToken && negb (opt_string_eqb callbackToken webhookToken) = false ->
    wh_status w = Some "PAID"%string ->
    wh_external_id w = Some (mkExternalId (i_id inst) now) ->
    wh_amount w = Some amount ->
    let invoiced :=
      fst (processInstallmentPayment req key now
                                     (InvoiceIssued id invoice_url external_id) db) in
    let result := handleXenditWebhook callbackToken webhookToken w invoiced in
    (fitsDecimal amount = true ->
     rejectedMethod (wh_payment_method w) = false ->
     snd result = mkResponse 200 Received
     /\ (exists paid,
            find (hasId (i_id inst)) (installments (fst result)) = Some paid
            /\ i_status paid = InstallmentStatus.PAID
            /\ i_paidAmount paid = Some (toDecimal2 amount)
            /\ i_paidAt paid = Some (wh_paid_at w)
            /\ (forall m, wh_payment_method w = Some m -> m <> EmptyString ->
                          i_paymentMethod paid = Some m)
            /\ (truthy (wh_payment_method w) = false ->
                i_paymentMethod paid = Some "BANK_TRANSFER"%string)
            /\ i_amount paid = i_amount inst
            /\ i_xenditInvoiceId paid = Some id
            /\ i_xenditExternalId paid = Some (mkExternalId (i_id inst) now))
     /\ (exists kept tx,
            paymentTransactions (fst result) = kept ++ [tx]
            /\ List.length kept = List.length (paymentTransactions db)
            /\ t_installmentId tx = Some (i_id inst)
            /\ t_xenditInvoiceId tx = Some id
            /\ t_amount tx = i_amount inst
            /\ t_status tx = PaymentStatus.COMPLETED
            /\ t_paidAt tx = Some (wh_paid_at w)))
    /\ (fitsDecimal amount = false \/ rejectedMethod (wh_payment_method w) = true ->
        result = (invoiced, mkResponse 500 (Error "Webhook processing failed"))).
Proof.
  intros db inst bk req key now id invoice_url external_id
         callbackToken webhookToken w amount
         Hkeys Hi Hb Hk Honline Hunpaid Hu Hid Hm Hkey Hfresh Htoken Hstatus Hext Hamount
         invoiced result.
  set (ext := mkExternalId (i_id inst) now) in *.
  assert (Hinvoiced : installments invoiced
                      = updateWhere (hasId (i_id inst)) (setXenditInfo ext id)
                                    (installments db)
                        /\ paymentTransactions invoiced
                           = paymentTransactions db
                             ++ [mkTransaction (nextId db) (Some (i_id inst)) (b_id bk)
                                               (i_amount inst) "BANK_TRANSFER"
                                               PaymentType.ONLINE (Some id) (Some ext)
                                               PaymentStatus.PENDING None]).
  { unfold invoiced.
    rewrite (processInstallmentPayment_issued req key now id invoice_url external_id
                                              db inst bk) by assumption.
    split; reflexivity. }
  destruct Hinvoiced as [Hrows Htxs].
  pose proof Hkeys as Hkeys'. apply andb_true_iff in Hkeys' as [Hki _].
  assert (Hfound : find (hasExternalId ext) (installments invoiced)
                   = Some (setXenditInfo ext id inst))
    by (rewrite Hrows; now apply find_issued).
  unfold result, handleXenditWebhook.
  rewrite Htoken, Hstatus, Hext, Hamount.
  change (truthy (Some ext)) with true. cbn [opt_string_eqb andb].
  rewrite (proj2 (String.eqb_eq "PAID" "PAID") eq_refl). cbn [andb].
  rewrite Hfound.
  set (method := match wh_payment_method w with
                 | Some m => if truthy (Some m) then m else "BANK_TRANSFER"%string
                 | None => "BANK_TRANSFER"%string
                 end).
  split.
  - intros Hfits Hmethod.
    rewrite (reported_method_valid _ Hmethod : includes validPaymentMethods method = true).
    rewrite Hfits. cbn [andb negb].
    cbn [fst snd installments paymentTransactions set_installments
         set_paymentTransactions i_id setXenditInfo].
    set (paid := markPaid (wh_paid_at w) (toDecimal2 amount) method
                          (setXenditInfo ext id inst)).
    split; [ reflexivity | ].
    split.
    + exists paid. split.
      * apply (find_by_key i_id _ paid).
        -- rewrite (map_key_updateWhere i_id) by reflexivity.
           rewrite Hrows, (map_key_updateWhere i_id) by reflexivity. exact Hki.
        -- apply (in_updateWhere_key i_id (markPaid _ _ _) _ (setXenditInfo ext id inst)).
           rewrite Hrows. now apply (in_updateWhere_key i_id).
      * do 3 (split; [ reflexivity | ]).
        split.
        { intros m Hsome Hne. cbn [paid markPaid i_paymentMethod]. unfold method.
          rewrite Hsome. cbn [truthy].
          rewrite (proj2 (String.eqb_neq m EmptyString) Hne). reflexivity. }
        split.
        { intro Hfalsy. cbn [paid markPaid i_paymentMethod]. unfold method.
          destruct (wh_payment_method w) as [ m | ]; [ | reflexivity ].
          now rewrite Hfalsy. }
        cbn. repeat split.
    + rewrite Htxs. unfold updateWhere at 1. rewrite map_app.
      cbn [map t_xenditExternalId].
      cbn [opt_string_eqb]. rewrite String.eqb_refl.
      eexists _, _. split; [ reflexivity | ].
      split; [ now rewrite length_map | ].
      cbn. repeat split.
  - intros [ Hfits | Hmethod ].
    + rewrite Hfits, andb_false_r. reflexivity.
    + rewrite (reported_method_refused _ Hmethod
               : includes validPaymentMethods method = false).
      reflexivity.
Qed.

Lemma online_payment_round_trip_witness :
  let db := paymentDB PaymentType.ONLINE in
  let delivery := paidWebhook 400 2000 (Some "EWALLET"%string) in
  let result := handleXenditWebhook None None delivery invoicedDB in
  let refused :=
    handleXenditWebhook None None (paidWebhook 400 2000 (Some "QR_CODE"%string))
                        invoicedDB in
  freshExternalId "installment_10_1000" db
  /\ fitsDecimal 400 = true
  /\ rejectedMethod (wh_payment_method delivery) = false
  /\ snd result = mkResponse 200 Received
  /\ map paymentFields (installments (fst result))
     = [ (InstallmentStatus.PAID, Some 40000, Some 2000, Some "EWALLET"%string) ]
  /\ map t_status (paymentTransactions (fst result)) = [ PaymentStatus.COMPLETED ]
  /\ refused = (invoicedDB, mkResponse 500 (Error "Webhook processing failed"))
  /\ map paymentFields (installments (fst refused))
     = [ (InstallmentStatus.UNPAID, None, None, None) ].
Proof.
  intros db delivery result refused.
  destruct (online_payment_round_trip db sampleInstallment
              (sampleBooking PaymentType.ONLINE) (payReq None)
              (Some "xnd_development_key"%string) 1000
              "inv_1" "https://checkout.xendit.co/web/inv_1" "installment_10_1000"
              None None delivery 400
              eq_refl (or_introl eq_refl) (or_introl eq_refl) eq_refl eq_refl
              ltac:(discriminate) eq_refl eq_refl eq_refl eq_refl
              ltac:(repeat constructor) eq_refl eq_refl eq_refl eq_refl)
    as (Hpaid & _).
  destruct (Hpaid eq_refl eq_refl) as (Hresponse & _ & _).
  destruct (online_payment_round_trip db sampleInstallment
              (sampleBooking PaymentType.ONLINE) (payReq None)
              (Some "xnd_development_key"%string) 1000
              "inv_1" "https://checkout.xendit.co/web/inv_1" "installment_10_1000"
              None None (paidWebhook 400 2000 (Some "QR_CODE"%string)) 400
              eq_refl (or_introl eq_refl) (or_introl eq_refl) eq_refl eq_refl
              ltac:(discriminate) eq_refl eq_refl eq_refl eq_refl
              ltac:(repeat constructor) eq_refl eq_refl eq_refl eq_refl)
    as (_ & Hrefused).
  split; [ repeat constructor | ].
  split; [ reflexivity | ].
  split; [ reflexivity | ].
  split; [ exact Hresponse | ].
  split; [ reflexivity | ].
  split; [ reflexivity | ].
  split; [ exact (Hrefused (or_intror eq_refl)) | reflexivity ].
Defined.

(** X8. A retry supersedes the earlier invoice.  When the tenant asks twice to
    pay the same unpaid installment online, at different times, and the
    gateway issues an invoice each time, the installment carries the ids of
    the second invoice only.  A later delivery that reports the first
    external id as PAID finds no installment: it is answered 404 and nothing
    is written, so the installment stays unpaid although a transaction for
    that external id exists. *)
Theorem retry_supersedes_first_invoice :
  forall db inst bk req1 req2 key now1 now2 id1 url1 echo1 id2 url2 echo2
         callbackToken webhookToken w,
    primaryKeysOk db = true ->
    In inst (installments db) ->
    In bk (bookings db) ->
    i_bookingId inst = b_id bk ->
    b_paymentType bk = PaymentType.ONLINE ->
    i_status inst <> InstallmentStatus.PAID ->
    pay_userId req1 = Some (b_tenantId bk) ->
    pay_installmentId req1 = Some (i_id inst) ->
    rejectedMethod (pay_paymentMethod req1) = false ->
    pay_userId req2 = Some (b_tenantId bk) ->
    pay_installmentId req2 = Some (i_id inst) ->
    rejectedMethod (pay_paymentMethod req2) = false ->
    truthy key = true ->
    now1 <> now2 ->
    freshExternalId (mkExternalId (i_id inst) now1) db ->
    truthy webhookToken && negb (opt_string_eqb callbackToken webhookToken) = false ->
    wh_status w = Some "PAID"%string ->
    wh_external_id w = Some (mkExternalId (i_id inst) now1) ->
    let first :=
      fst (processInstallmentPayment req1 key now1 (InvoiceIssued id1 url1 echo1) db) in
    let second :=
      fst (processInstallmentPayment req2 key now2 (InvoiceIssued id2 url2 echo2)
                                     first) in
    find (hasId (i_id inst)) (installments second)
    = Some (setXenditInfo (mkExternalId (i_id inst) now2) id2 inst)
    /\ (exists tx, In tx (paymentTransactions second)
                   /\ t_xenditExternalId tx = Some (mkExternalId (i_id inst) now1)
                   /\ t_status tx = PaymentStatus.PENDING)
    /\ handleXenditWebhook callbackToken webhookToken w second
       = (second, mkResponse 404 (Error "Installment not found")).
Proof.
  intros db inst bk req1 req2 key now1 now2 id1 url1 echo1 id2 url2 echo2
         callbackToken webhookToken w
         Hkeys Hi Hb Hk Honline Hunpaid Hu1 Hid1 Hm1 Hu2 Hid2 Hm2 Hkey Hnow Hfresh
         Htoken Hstatus Hext first second.
  set (ext1 := mkExternalId (i_id inst) now1) in *.
  set (ext2 := mkExternalId (i_id inst) now2) in *.
  pose proof Hkeys as Hkeys'. apply andb_true_iff in Hkeys' as [Hki Hkb].
  assert (Hfirst : first
                   = set_paymentTransactions
                       (set_installments db
                          (updateWhere (hasId (i_id inst)) (setXenditInfo ext1 id1)
                                       (installments db))
                          (nextId db))
                       (paymentTransactions db
                        ++ [mkTransaction (nextId db) (Some (i_id inst)) (b_id bk)
                                          (i_amount inst) "BANK_TRANSFER"
                                          PaymentType.ONLINE (Some id1) (Some ext1)
                                          PaymentStatus.PENDING None])
                       (S (nextId db))).
  { unfold first.
    now rewrite (processInstallmentPayment_issued req1 key now1 id1 url1 echo1
                                                  db inst bk) by assumption. }
  set (inst1 := setXenditInfo ext1 id1 inst).
  assert (Hkeys1 : primaryKeysOk first = true).
  { rewrite Hfirst. unfold primaryKeysOk.
    cbn [installments bookings set_installments set_paymentTransactions].
    rewrite (map_key_updateWhere i_id) by reflexivity.
    now rewrite Hki, Hkb. }
  assert (Hi1 : In inst1 (installments first))
    by (rewrite Hfirst; apply (in_updateWhere_key i_id); exact Hi).
  assert (Hb1 : In bk (bookings first)) by (rewrite Hfirst; exact Hb).
  assert (Hsecond : second
                    = set_paymentTransactions
                        (set_installments first
                           (updateWhere (hasId (i_id inst)) (setXenditInfo ext2 id2)
                                        (installments first))
                           (nextId first))
                        (paymentTransactions first
                         ++ [mkTransaction (nextId first) (Some (i_id inst)) (b_id bk)
                                           (i_amount inst) "BANK_TRANSFER"
                                           PaymentType.ONLINE (Some id2) (Some ext2)
                                           PaymentStatus.PENDING None])
                        (S (nextId first))).
  { unfold second.
    now rewrite (processInstallmentPayment_issued req2 key now2 id2 url2 echo2
                                                  first inst1 bk Hkeys1 Hi1 Hb1 Hk
                                                  Honline Hunpaid Hu2 Hid2 Hm2 Hkey). }
  assert (Hrows : installments second
                  = updateWhere (hasId (i_id inst)) (setXenditInfo ext2 id2)
                                (installments first))
    by (rewrite Hsecond; reflexivity).
  split.
  { rewrite Hrows.
    pose proof Hkeys1 as Hk1. apply andb_true_iff in Hk1 as [Hki1 _].
    change (setXenditInfo ext2 id2 inst) with (setXenditInfo ext2 id2 inst1).
    apply (find_by_key i_id _ (setXenditInfo ext2 id2 inst1)).
    - rewrite (map_key_updateWhere i_id) by reflexivity. exact Hki1.
    - apply (in_updateWhere_key i_id (setXenditInfo ext2 id2) _ inst1). exact Hi1. }
  split.
  { exists (mkTransaction (nextId db) (Some (i_id inst)) (b_id bk) (i_amount inst)
                          "BANK_TRANSFER" PaymentType.ONLINE (Some id1) (Some ext1)
                          PaymentStatus.PENDING None).
    split; [ | split; reflexivity ].
    rewrite Hsecond, Hfirst.
    cbn [paymentTransactions set_installments set_paymentTransactions].
    apply in_or_app. left. apply in_or_app. right. left. reflexivity. }
  assert (Hnone : find (hasExternalId ext1) (installments second) = None).
  { destruct (find (hasExternalId ext1) (installments second)) as [ y | ] eqn:E;
      [ exfalso | reflexivity ].
    apply find_some in E as [Hy Hp].
    rewrite Hrows in Hy. unfold updateWhere in Hy.
    apply in_map_iff in Hy as (z & Hz & Hzin).
    destruct (hasId (i_id inst) z) eqn:Hzid.
    - subst y. unfold hasExternalId, setXenditInfo in Hp.
      cbn [i_xenditExternalId opt_string_eqb] in Hp.
      apply String.eqb_eq in Hp. unfold ext1, ext2 in Hp.
      apply mkExternalId_inj in Hp. congruence.
    - subst y. rewrite Hfirst in Hzin.
      cbn [installments set_installments set_paymentTransactions] in Hzin.
      unfold updateWhere in Hzin. apply in_map_iff in Hzin as (z0 & Hz0 & Hz0in).
      destruct (hasId (i_id inst) z0) eqn:Hz0id.
      + subst z. unfold hasId in Hzid. cbn in Hzid. unfold hasId in Hz0id. congruence.
      + subst z. pose proof (proj1 (Forall_forall _ _) Hfresh z0 Hz0in) as Hf.
        cbv beta in Hf. congruence. }
  unfold handleXenditWebhook.
  rewrite Htoken, Hstatus, Hext, Hnone.
  change (truthy (Some ext1)) with true. cbn [opt_string_eqb andb].
  now rewrite (proj2 (String.eqb_eq "PAID" "PAID") eq_refl).
Qed.

Lemma retry_supersedes_first_invoice_witness :
  let db := paymentDB PaymentType.ONLINE in
  let second :=
    fst (processInstallmentPayment (payReq None) (Some "xnd_development_key"%string)
                                   5000
                                   (InvoiceIssued "inv_2" "https://checkout.xendit.co/web/inv_2"
                                                  "installment_10_5000")
                                   invoicedDB) in
  1000 <> 5000
  /\ map i_xenditExternalId (installments second) = [ Some "installment_10_5000"%string ]
  /\ handleXenditWebhook None None (paidWebhook 400 2000 None) second
     = (second, mkResponse 404 (Error "Installment not found")).
Proof.
  intros db second.
  destruct (retry_supersedes_first_invoice db sampleInstallment
              (sampleBooking PaymentType.ONLINE) (payReq None) (payReq None)
              (Some "xnd_development_key"%string) 1000 5000
              "inv_1" "https://checkout.xendit.co/web/inv_1" "installment_10_1000"
              "inv_2" "https://checkout.xendit.co/web/inv_2" "installment_10_5000"
              None None (paidWebhook 400 2000 None)
              eq_refl (or_introl eq_refl) (or_introl eq_refl) eq_refl eq_refl
              ltac:(discriminate) eq_refl eq_refl eq_refl eq_refl eq_refl eq_refl
              eq_refl ltac:(discriminate) ltac:(repeat constructor)
              eq_refl eq_refl eq_refl)
    as (_ & _ & Hwebhook).
  split; [ discriminate | ].
  split; [ reflexivity | exact Hwebhook ].
Defined.

(** * Further properties of manual confirmation and simulated payment *)

Section Confirmation.

(** The row the manual confirmation selects, for ids that are distinct. *)
Lemma confirmation_row (req : ConfirmReq) (userId : Id) (db : DB)
      (inst : Installment) (bk : Booking) :
  primaryKeysOk db = true ->
  In inst (installments db) ->
  In bk (bookings db) ->
  i_bookingId inst = b_id bk ->
  cf_installmentId req = i_id inst ->
  find (fun '(i, b) => hasId (cf_installmentId req) i
                       && Nat.eqb (b_tenantId b) userId
                       && opt_string_eqb (i_xenditInvoiceId i)
                                         (Some (cf_xenditInvoiceId req)))
       (innerJoin (installments db) (bookings db))
  = if Nat.eqb (b_tenantId bk) userId
       && opt_string_eqb (i_xenditInvoiceId inst) (Some (cf_xenditInvoiceId req))
    then Some (inst, bk) else None.
Proof.
  intros Hkeys Hi Hb Hk Hid.
  rewrite (find_innerJoin db inst bk _ Hkeys Hi Hb Hk).
  - rewrite Hid. unfold hasId. rewrite Nat.eqb_refl. cbn [andb]. reflexivity.
  - intros i' b' Hp.
    apply andb_true_iff in Hp as [Hp _]. apply andb_true_iff in Hp as [Hp _].
    apply Nat.eqb_eq in Hp. congruence.
Qed.

End Confirmation.

(** X9. Manual confirmation by the tenant of an unpaid installment.  With an
    invoice id other than the one stored on the installment the answer is
    404.  With the stored invoice id: if the gateway answers the lookup with
    a status other than PAID the answer is 400; in both cases nothing is
    written.  Otherwise (the gateway reports PAID, or answers with an
    error, or cannot be reached: the verification is optional) the
    installment is marked [PAID] with its own amount as the amount paid,
    the current time as payment time and method BANK_TRANSFER, and every
    payment transaction of the installment is set to [COMPLETED] with that
    payment time, the other transactions staying as they are. *)
Theorem manual_confirmation_outcomes :
  forall db inst bk req now verify,
    primaryKeysOk db = true ->
    In inst (installments db) ->
    In bk (bookings db) ->
    i_bookingId inst = b_id bk ->
    i_status inst <> InstallmentStatus.PAID ->
    cf_userId req = Some (b_tenantId bk) ->
    cf_installmentId req = i_id inst ->
    let result := manualPaymentConfirmation req now verify db in
    (i_xenditInvoiceId inst <> Some (cf_xenditInvoiceId req) ->
     result = (db, mkResponse 404 (Error "Installment not found or invalid invoice ID")))
    /\ (i_xenditInvoiceId inst = Some (cf_xenditInvoiceId req) ->
        (forall status,
            verify = VerifyAnswered status ->
            status <> "PAID"%string ->
            result
            = (db, mkResponse 400
                     (Error ("Payment not completed. Xendit status: " ++ status))))
        /\ (verify = VerifyAnswered "PAID" \/ verify = VerifyNotOk
            \/ verify = VerifyUnreachable ->
            snd result
            = mkResponse 200 (PaymentConfirmed (i_id inst) (i_amount inst) now)
            /\ (exists paid,
                   find (hasId (i_id inst)) (installments (fst result)) = Some paid
                   /\ i_status paid = InstallmentStatus.PAID
                   /\ i_paidAmount paid = Some (i_amount inst)
                   /\ i_paidAt paid = Some now
                   /\ i_paymentMethod paid = Some "BANK_TRANSFER"%string
                   /\ i_amount paid = i_amount inst
                   /\ i_bookingId paid = i_bookingId inst
                   /\ i_xenditInvoiceId paid = i_xenditInvoiceId inst
                   /\ i_xenditExternalId paid = i_xenditExternalId inst)
            /\ paymentTransactions (fst result)
               = map (fun t => if opt_id_eqb (t_installmentId t) (i_id inst)
                               then completeTransaction now t else t)
                     (paymentTransactions db)
            /\ Forall (fun t => t_installmentId t = Some (i_id inst) ->
                                t_status t = PaymentStatus.COMPLETED
                                /\ t_paidAt t = Some now)
                      (paymentTransactions (fst result)))).
Proof.
  intros db inst bk req now verify Hkeys Hi Hb Hk Hunpaid Hu Hid result.
  pose proof Hkeys as Hkeys'. apply andb_true_iff in Hkeys' as [Hki _].
  pose proof (confirmation_row req (b_tenantId bk) db inst bk Hkeys Hi Hb Hk Hid) as Hrow.
  rewrite Nat.eqb_refl in Hrow. cbn [andb] in Hrow.
  split.
  - intro Hother. unfold result, manualPaymentConfirmation.
    now rewrite Hu, Hrow, (opt_string_eqb_neq _ _ Hother).
  - intro Hinvoice.
    rewrite (proj2 (opt_string_eqb_eq _ _) Hinvoice) in Hrow.
    split.
    + intros status -> Hstatus. unfold result, manualPaymentConfirmation.
      rewrite Hu, Hrow, (status_eqb_not_PAID _ Hunpaid).
      destruct (String.eqb status "PAID") eqn:E;
        [ apply String.eqb_eq in E; now elim Hstatus | reflexivity ].
    + intro Hverify.
      assert (Hresult : result
                        = (set_paymentTransactions
                             (set_installments db
                                (updateWhere (hasId (i_id inst))
                                             (markPaid now (i_amount inst) "BANK_TRANSFER")
                                             (installments db))
                                (nextId db))
                             (updateWhere
                                (fun t => opt_id_eqb (t_installmentId t) (i_id inst))
                                (completeTransaction now) (paymentTransactions db))
                             (nextId db),
                           mkResponse 200
                             (PaymentConfirmed (i_id inst) (i_amount inst) now))).
      { unfold result, manualPaymentConfirmation.
        rewrite Hu, Hrow, (status_eqb_not_PAID _ Hunpaid), Hid.
        destruct Hverify as [ -> | [ -> | -> ] ]; reflexivity. }
      rewrite Hresult.
      cbn [fst snd installments paymentTransactions set_installments
           set_paymentTransactions].
      split; [ reflexivity | ].
      split.
      { exists (markPaid now (i_amount inst) "BANK_TRANSFER" inst).
        split; [ | cbn; repeat split ].
        apply (find_by_key i_id _ (markPaid now (i_amount inst) "BANK_TRANSFER" inst)).
        - now rewrite (map_key_updateWhere i_id).
        - now apply (in_updateWhere_key i_id). }
      split; [ reflexivity | ].
      unfold updateWhere. apply Forall_forall. intros t Ht.
      apply in_map_iff in Ht as (t0 & <- & _).
      destruct (opt_id_eqb (t_installmentId t0) (i_id inst)) eqn:E.
      * intros _. split; reflexivity.
      * intro Hsome. rewrite Hsome in E. cbn in E. now rewrite Nat.eqb_refl in E.
Qed.

Lemma manual_confirmation_outcomes_witness :
  let req := mkConfirmReq (Some 5%nat) 10 "inv_1" in
  primaryKeysOk invoicedDB = true
  /\ snd (manualPaymentConfirmation req 3000 VerifyUnreachable invoicedDB)
     = mkResponse 200 (PaymentConfirmed 10 40000 3000)
  /\ map paymentFields
         (installments (fst (manualPaymentConfirmation req 3000 VerifyUnreachable
                                                       invoicedDB)))
     = [ (InstallmentStatus.PAID, Some 40000, Some 3000, Some "BANK_TRANSFER"%string) ]
  /\ map (fun t => (t_status t, t_paidAt t))
         (paymentTransactions (fst (manualPaymentConfirmation req 3000 VerifyUnreachable
                                                              invoicedDB)))
     = [ (PaymentStatus.COMPLETED, Some 3000) ]
  /\ manualPaymentConfirmation req 3000 (VerifyAnswered "EXPIRED") invoicedDB
     = (invoicedDB,
        mkResponse 400 (Error "Payment not completed. Xendit status: EXPIRED"))
  /\ manualPaymentConfirmation (mkConfirmReq (Some 5%nat) 10 "inv_9") 3000
                               VerifyUnreachable invoicedDB
     = (invoicedDB,
        mkResponse 404 (Error "Installment not found or invalid invoice ID")).
Proof.
  intro req.
  assert (Hrow : In (setXenditInfo "installment_10_1000" "inv_1" sampleInstallment)
                    (installments invoicedDB)) by (left; reflexivity).
  assert (Hbk : In (sampleBooking PaymentType.ONLINE) (bookings invoicedDB))
    by (left; reflexivity).
  destruct (manual_confirmation_outcomes invoicedDB _ _ req 3000 VerifyUnreachable
              eq_refl Hrow Hbk eq_refl ltac:(discriminate) eq_refl eq_refl)
    as (_ & Hmatch).
  destruct (Hmatch eq_refl) as (_ & Hconfirm).
  destruct (Hconfirm (or_intror (or_intror eq_refl))) as (Hresponse & _).
  destruct (manual_confirmation_outcomes invoicedDB _ _ req 3000
              (VerifyAnswered "EXPIRED")
              eq_refl Hrow Hbk eq_refl ltac:(discriminate) eq_refl eq_refl)
    as (_ & Hmatch').
  destruct (Hmatch' eq_refl) as (Hrefused & _).
  destruct (manual_confirmation_outcomes invoicedDB _ _
              (mkConfirmReq (Some 5%nat) 10 "inv_9") 3000 VerifyUnreachable
              eq_refl Hrow Hbk eq_refl ltac:(discriminate) eq_refl eq_refl)
    as (Hwrong & _).
  split; [ reflexivity | ].
  split; [ exact Hresponse | ].
  split; [ reflexivity | ].
  split; [ reflexivity | ].
  split; [ apply (Hrefused "EXPIRED"%string eq_refl); discriminate | ].
  apply Hwrong. discriminate.
Defined.

(** X10. Only the tenant pays.  For an installment of a booking whose tenant
    is another user (the landlord, for one), a pay-installment request is
    answered 404 "Installment not found or you do not have permission to
    access it" and a manual confirmation 404, whatever the other fields of
    the request; nothing is written. *)
Theorem only_the_tenant_pays :
  forall db inst bk userId,
    primaryKeysOk db = true ->
    In inst (installments db) ->
    In bk (bookings db) ->
    i_bookingId inst = b_id bk ->
    userId <> b_tenantId bk ->
    (forall req key now gateway,
        pay_userId req = Some userId ->
        pay_installmentId req = Some (i_id inst) ->
        rejectedMethod (pay_paymentMethod req) = false ->
        processInstallmentPayment req key now gateway db
        = (db, mkResponse 404
                 (Error "Installment not found or you do not have permission to access it")))
    /\ (forall req now verify,
           cf_userId req = Some userId ->
           cf_installmentId req = i_id inst ->
           manualPaymentConfirmation req now verify db
           = (db, mkResponse 404 (Error "Installment not found or invalid invoice ID"))).
Proof.
  intros db inst bk userId Hkeys Hi Hb Hk Hother.
  pose proof Hkeys as Hkeys'. apply andb_true_iff in Hkeys' as [Hki _].
  assert (Hne : Nat.eqb (b_tenantId bk) userId = false)
    by (apply Nat.eqb_neq; congruence).
  split.
  - intros req key now gateway Hu Hid Hm.
    unfold processInstallmentPayment. rewrite Hu, Hid, Hm.
    unfold hasId at 1. rewrite (find_by_key i_id _ inst Hki Hi).
    rewrite (find_innerJoin db inst bk (ownedBy (i_id inst) userId) Hkeys Hi Hb Hk).
    + unfold ownedBy. cbn [fst snd]. now rewrite Hne, andb_false_r.
    + intros i' b' Hp. unfold ownedBy, hasId in Hp. cbn [fst snd] in Hp.
      apply andb_true_iff in Hp as [Hp _]. now apply Nat.eqb_eq.
  - intros req now verify Hu Hid.
    unfold manualPaymentConfirmation.
    now rewrite Hu, (confirmation_row req userId db inst bk Hkeys Hi Hb Hk Hid), Hne.
Qed.

Lemma only_the_tenant_pays_witness :
  7%nat <> b_tenantId (sampleBooking PaymentType.CASH)
  /\ processInstallmentPayment (mkPayReq (Some 7%nat) (Some 10%nat) None) None 1000
                               issuedInvoice (paymentDB PaymentType.CASH)
     = (paymentDB PaymentType.CASH,
        mkResponse 404
          (Error "Installment not found or you do not have permission to access it")).
Proof.
  split; [ discriminate | ].
  destruct (only_the_tenant_pays (paymentDB PaymentType.CASH) sampleInstallment
              (sampleBooking PaymentType.CASH) 7%nat
              eq_refl (or_introl eq_refl) (or_introl eq_refl) eq_refl
              ltac:(discriminate)) as [Hpay _].
  apply Hpay; reflexivity.
Defined.



(** * Further properties of booking creation *)

Section Creation.

(** What a [201] says about the request, and the rows of the other tables. *)
Lemma createBooking_accepted (req : CreateBookingReq) (now : Z) (pdf : PdfOutcome)
      (db db' : DB) (booking : Booking) (lease : Lease)
      (insts : list Installment) (invs : list Invoice)
      (ra : RentalAgreement) (url : string) :
  createBooking req now pdf db
  = (db', mkResponse 201 (BookingCreated booking lease insts invs ra url)) ->
  (exists userId paymentType property,
      cb_userId req = Some userId
      /\ parsePaymentType (cb_paymentType req) = Some paymentType
      /\ find (fun p => Nat.eqb (p_id p) (cb_propertyId req)) (properties db)
         = Some property)
  /\ selectConflicts db (cb_propertyId req) (cb_startDate req) (cb_endDate req) = []
  /\ 1 <= installmentCountOf req
  /\ properties db' = properties db
  /\ bookingConflicts db'
     = bookingConflicts db
       ++ [mkConflict (S (S (nextId db))) (cb_propertyId req) (cb_startDate req)
                      (cb_endDate req) (Some (nextId db))]
  /\ l_id lease = S (nextId db)
  /\ l_rentAmount lease
     = toDecimal2 (cb_totalAmount req / inject_Z (installmentCountOf req))
  /\ (exists first,
         invs = insertInvoices first
                  (invoiceRecords (nextId db) (S (nextId db)) (cb_totalAmount req)
                                  (installmentCountOf req) (cb_startDate req)))
  /\ invoices db' = invoices db ++ invs.
Proof.
  unfold createBooking.
  destruct (cb_userId req) as [ userId | ]; [ | discriminate ].
  destruct (parsePaymentType (cb_paymentType req)) as [ paymentType | ];
    [ | discriminate ].
  cbv zeta.
  destruct (find _ (properties db)) as [ property | ]; [ | discriminate ].
  destruct (selectConflicts db _ _ _) as [ | c cs ] eqn:Hfree; [ | discriminate ].
  destruct (fitsBookingColumns req) eqn:Hfits; [ | discriminate ].
  cbn [List.length Nat.ltb Nat.leb negb
       b_id l_id nextId set_bookings set_leases set_bookingConflicts installments].
  destruct ((installmentCountOf req =? 0) && _); [ discriminate | ].
  destruct (installmentRecords _ _ _ _) as [ | r rest ] eqn:E; [ discriminate | ].
  assert (Hn : 1 <= installmentCountOf req).
  { destruct (Z_lt_le_dec (installmentCountOf req) 1) as [Hlt | Hge]; [ | exact Hge ].
    unfold installmentRecords, loopIndices in E.
    replace (Z.to_nat (installmentCountOf req)) with 0%nat in E by lia.
    discriminate E. }
  destruct pdf; intro H; injection H as <- <- <- <- <- <- <-;
    (split; [ exists userId, paymentType, property; auto | ]);
    (split; [ reflexivity | ]);
    (split; [ exact Hn | ]);
    cbn [properties bookingConflicts invoices l_id l_rentAmount
         set_bookings set_leases set_bookingConflicts set_installments set_invoices
         set_rentalAgreements nextId];
    (do 4 (split; [ reflexivity | ]));
    (split; [ eexists; reflexivity | reflexivity ]).
Qed.

(** The conditions under which the request is accepted. *)
Lemma createBooking_accepts (req : CreateBookingReq) (now : Z) (pdf : PdfOutcome)
      (db : DB) (userId : Id) (paymentType : PaymentType.t) (property : Property) :
  cb_userId req = Some userId ->
  parsePaymentType (cb_paymentType req) = Some paymentType ->
  find (fun p => Nat.eqb (p_id p) (cb_propertyId req)) (properties db) = Some property ->
  selectConflicts db (cb_propertyId req) (cb_startDate req) (cb_endDate req) = [] ->
  fitsBookingColumns req = true ->
  1 <= installmentCountOf req ->
  statusCode (snd (createBooking req now pdf db)) = 201.
Proof.
  intros Huser Htype Hprop Hfree Hfits Hn.
  pose proof (installmentRecords_nonempty (nextId db) (cb_totalAmount req)
                (installmentCountOf req) (cb_startDate req) Hn) as Hrecs.
  unfold createBooking.
  rewrite Huser, Htype. cbv zeta. rewrite Hprop, Hfree, Hfits.
  replace (installmentCountOf req =? 0) with false by (symmetry; apply Z.eqb_neq; lia).
  cbn [List.length Nat.ltb Nat.leb negb andb
       b_id l_id nextId set_bookings set_leases set_bookingConflicts].
  destruct (installmentRecords _ _ _ _) as [ | r rest ] eqn:E; [ now elim Hrecs | ].
  destruct pdf; reflexivity.
Qed.

Lemma selectConflicts_app (db : DB) (extra : list BookingConflict) (n : nat)
      (propertyId : Id) (s e : JsDate) :
  selectConflicts (set_bookingConflicts db (bookingConflicts db ++ extra) n)
                  propertyId s e
  = selectConflicts db propertyId s e ++ filter (conflictsWith propertyId s e) extra.
Proof. unfold selectConflicts. cbn [bookingConflicts set_bookingConflicts]. apply filter_app. Qed.

End Creation.

(** X12. An accepted booking blocks its range.  After a [201] for a range
    whose start is not after its end, [checkAvailability] reports the
    property unavailable, listing the new conflict record, for every range
    that meets the booked one (ends included), and a further [createBooking]
    by an authenticated user for such a range of that property is answered
    400 "Property not available for selected dates" and writes nothing. *)
Theorem accepted_booking_blocks_its_range :
  forall req now pdf db db' booking lease insts invs ra url,
    createBooking req now pdf db
    = (db', mkResponse 201 (BookingCreated booking lease insts invs ra url)) ->
    getTime (cb_startDate req) <= getTime (cb_endDate req) ->
    forall s e,
      getTime s <= getTime (cb_endDate req) ->
      getTime (cb_startDate req) <= getTime e ->
      (exists cs,
          checkAvailability (mkAvailabilityReq (cb_propertyId req) s e) db'
          = mkResponse 200 (Availability false cs)
          /\ In (mkConflict (S (S (nextId db))) (cb_propertyId req) (cb_startDate req)
                            (cb_endDate req) (Some (b_id booking))) cs)
      /\ (forall req2 now2 pdf2 userId paymentType,
             cb_userId req2 = Some userId ->
             parsePaymentType (cb_paymentType req2) = Some paymentType ->
             cb_propertyId req2 = cb_propertyId req ->
             cb_startDate req2 = s ->
             cb_endDate req2 = e ->
             createBooking req2 now2 pdf2 db'
             = (db', mkResponse 400 (Error "Property not available for selected dates"))).
Proof.
  intros req now pdf db db' booking lease insts invs ra url Hcreate Hrange s e Hs He.
  destruct (createBooking_accepted _ _ _ _ _ _ _ _ _ _ _ Hcreate)
    as ((userId0 & paymentType0 & property & _ & _ & Hprop) & _ & _ & Hprops & Hconf & _).
  destruct (createBooking_created _ _ _ _ _ _ _ _ _ _ _ Hcreate) as (_ & _ & Hid & _).
  rewrite Hid.
  set (c := mkConflict (S (S (nextId db))) (cb_propertyId req) (cb_startDate req)
                       (cb_endDate req) (Some (nextId db))).
  assert (Hc : In c (selectConflicts db' (cb_propertyId req) s e)).
  { apply selectConflicts_spec. split.
    - rewrite Hconf. apply in_or_app. right. now left.
    - unfold overlaps, c. cbn. repeat split; lia. }
  split.
  - exists (selectConflicts db' (cb_propertyId req) s e).
    split; [ | exact Hc ].
    unfold checkAvailability. cbn [av_propertyId av_startDate av_endDate].
    destruct (selectConflicts db' (cb_propertyId req) s e); [ contradiction | reflexivity ].
  - intros req2 now2 pdf2 userId paymentType Hu Ht Hp Hs2 He2.
    unfold createBooking. rewrite Hu, Ht. cbv zeta.
    rewrite Hp, Hs2, He2, Hprops, Hprop.
    destruct (selectConflicts db' (cb_propertyId req) s e); [ contradiction | reflexivity ].
Qed.

Lemma accepted_booking_blocks_its_range_witness :
  let db' := fst (createBooking marchReq 0 PdfFailed marchDB) in
  getTime (cb_startDate marchReq) <= getTime (cb_endDate marchReq)
  /\ createBooking marchReq 9 PdfFailed db'
     = (db', mkResponse 400 (Error "Property not available for selected dates")).
Proof.
  intro db'.
  split; [ vm_compute; discriminate | ].
  destruct (accepted_booking_blocks_its_range marchReq 0 PdfFailed marchDB db'
              _ _ _ _ _ _
              ltac:(vm_compute; reflexivity) ltac:(vm_compute; discriminate)
              (cb_startDate marchReq) (cb_endDate marchReq)
              ltac:(vm_compute; discriminate) ltac:(vm_compute; discriminate))
    as [_ Hagain].
  exact (Hagain marchReq 9 PdfFailed 5%nat PaymentType.CASH
                eq_refl eq_refl eq_refl eq_refl eq_refl).
Defined.

(** X13. The dates of a booking are not compared with each other.  A request
    whose end date precedes its start date is accepted like any other, and
    the conflict record it leaves does not meet its own range: afterwards
    the same range is still reported available, and the same request is
    accepted again. *)
Theorem reversed_range_blocks_nothing :
  forall req now pdf db db' booking lease insts invs ra url,
    createBooking req now pdf db
    = (db', mkResponse 201 (BookingCreated booking lease insts invs ra url)) ->
    getTime (cb_endDate req) < getTime (cb_startDate req) ->
    checkAvailability (mkAvailabilityReq (cb_propertyId req) (cb_startDate req)
                                         (cb_endDate req)) db'
    = mkResponse 200 (Availability true [])
    /\ forall now2 pdf2, statusCode (snd (createBooking req now2 pdf2 db')) = 201.
Proof.
  intros req now pdf db db' booking lease insts invs ra url Hcreate Hrev.
  destruct (createBooking_accepted _ _ _ _ _ _ _ _ _ _ _ Hcreate)
    as ((userId & paymentType & property & Hu & Ht & Hprop)
        & Hfree & Hn & Hprops & Hconf & _).
  assert (Hfits : fitsBookingColumns req = true).
  { destruct (createBooking_201_checks req now pdf db) as (_ & _ & _ & _ & _ & _ & _ & H & _);
      [ now rewrite Hcreate | exact H ]. }
  assert (Hstill : selectConflicts db' (cb_propertyId req) (cb_startDate req)
                                   (cb_endDate req) = []).
  { unfold selectConflicts in *. rewrite Hconf, filter_app, Hfree.
    cbn [filter app]. unfold conflictsWith, date_leb.
    cbn [c_propertyId c_startDate c_endDate].
    replace (getTime (cb_startDate req) <=? getTime (cb_endDate req)) with false
      by (symmetry; apply Z.leb_gt; exact Hrev).
    now rewrite andb_false_r. }
  split.
  - unfold checkAvailability. cbn [av_propertyId av_startDate av_endDate].
    now rewrite Hstill.
  - intros now2 pdf2.
    apply (createBooking_accepts req now2 pdf2 db' userId paymentType property);
      try assumption.
    now rewrite Hprops.
Qed.

Lemma reversed_range_blocks_nothing_witness :
  let req := mkCreateBookingReq (Some 5%nat) 1 (ymd 2025 3 31) (ymd 2025 3 1) 1200 None
                                (Some "CASH"%string) (Some 3) in
  let db' := fst (createBooking req 0 PdfFailed marchDB) in
  getTime (cb_endDate req) < getTime (cb_startDate req)
  /\ statusCode (snd (createBooking req 0 PdfFailed marchDB)) = 201
  /\ statusCode (snd (createBooking req 9 PdfFailed db')) = 201.
Proof.
  intros req db'.
  split; [ vm_compute; reflexivity | ].
  split; [ vm_compute; reflexivity | ].
  destruct (reversed_range_blocks_nothing req 0 PdfFailed marchDB db'
              _ _ _ _ _ _
              ltac:(vm_compute; reflexivity) ltac:(vm_compute; reflexivity))
    as [_ Hagain].
  exact (Hagain 9 PdfFailed).
Defined.

(** X14. The checks of [createBooking] come before its first write and in a
    fixed order: a request without user is answered 401 whatever else it
    holds; an authenticated one without a valid payment type (CASH or
    ONLINE) is answered 400 before the property is looked up; and every
    answer 401, 400 or 404 leaves the store as it was. *)
Theorem createBooking_refusals_write_nothing :
  forall req now pdf db,
    let result := createBooking req now pdf db in
    (cb_userId req = None ->
     result = (db, mkResponse 401 (Error "User not authenticated")))
    /\ (cb_userId req <> None ->
        parsePaymentType (cb_paymentType req) = None ->
        result
        = (db, mkResponse 400
                 (Error "Payment type is required and must be either CASH or ONLINE")))
    /\ (statusCode (snd result) = 401 \/ statusCode (snd result) = 400
        \/ statusCode (snd result) = 404 ->
        fst result = db).
Proof.
  intros req now pdf db result. unfold result, createBooking.
  split; [ intros ->; reflexivity | ].
  split.
  - intros Hu ->. destruct (cb_userId req); [ reflexivity | now elim Hu ].
  - destruct (cb_userId req) as [ userId | ]; [ | reflexivity ].
    destruct (parsePaymentType (cb_paymentType req)) as [ paymentType | ];
      [ | reflexivity ].
    cbv zeta.
    destruct (find _ (properties db)) as [ property | ]; [ | reflexivity ].
    destruct (Nat.ltb 0 _); [ reflexivity | ].
    destruct (negb (fitsBookingColumns req)); [ reflexivity | ].
    destruct ((installmentCountOf req =? 0) && _);
      [ cbn; intros [H | [H | H]]; discriminate H | ].
    destruct (installmentRecords _ _ _ _) as [ | r rest ];
      [ cbn; intros [H | [H | H]]; discriminate H | ].
    destruct pdf; cbn; intros [H | [H | H]]; discriminate H.
Qed.

Lemma createBooking_refusals_write_nothing_witness :
  let req := mkCreateBookingReq (Some 5%nat) 99 (ymd 2025 3 1) (ymd 2025 3 31) 1200 None
                                (Some "CARD"%string) (Some 3) in
  parsePaymentType (cb_paymentType req) = None
  /\ createBooking req 0 PdfFailed marchDB
     = (marchDB,
        mkResponse 400 (Error "Payment type is required and must be either CASH or ONLINE")).
Proof.
  intro req. split; [ reflexivity | ].
  destruct (createBooking_refusals_write_nothing req 0 PdfFailed marchDB)
    as (_ & Htype & _).
  apply Htype; [ discriminate | reflexivity ].
Defined.

Section InvoicesAndDates.

Lemma schedule_invoices_aligned (bookingId leaseId : Id) (q : Q) (n : Z)
      (start : JsDate) (l : list Z) (first first' : nat) :
  Forall2 (fun i v => v_leaseId v = leaseId
                      /\ v_amount v = i_amount i
                      /\ v_dueDate v = i_dueDate i
                      /\ v_status v = InvoiceStatus.DUE
                      /\ v_paidAt v = None)
          (insertInstallments first
             (map (fun i => mkInstallmentRecord bookingId i (q / inject_Z n)%Q
                                                (dueDateOf start i)
                                                InstallmentStatus.UNPAID) l))
          (insertInvoices first'
             (map (fun i => mkInvoiceRecord leaseId (q / inject_Z n)%Q
                                            (dueDateOf start i) InvoiceStatus.DUE
                                            ("Installment " ++ show_Z i ++ " of "
                                             ++ show_Z n ++ " for booking "
                                             ++ show_nat bookingId)) l)).
Proof.
  revert first first'. induction l as [ | i l IH ]; intros first first'; cbn.
  - constructor.
  - constructor; [ repeat split | apply IH ].
Qed.

Lemma MakeDay_next_month (y m dt : Z) :
  MakeDay y (m + 1) dt = MakeDay y m dt + daysInMonth (y + m / 12) (m mod 12).
Proof.
  unfold MakeDay.
  pose proof (Z.mod_pos_bound m 12 eq_refl) as Hr.
  pose proof (Z.div_mod m 12 ltac:(lia)) as Hm.
  destruct (Z.eq_dec (m mod 12) 11) as [He | Hne].
  - assert (Hq : (m + 1) / 12 = m / 12 + 1)
      by (symmetry; apply (Z.div_unique (m + 1) 12 (m / 12 + 1) 0); lia).
    assert (Hr' : (m + 1) mod 12 = 0)
      by (symmetry; apply (Z.mod_unique (m + 1) 12 (m / 12 + 1) 0); lia).
    rewrite Hq, Hr', He, Z.add_assoc, DayFromYear_succ, <- daysBeforeMonth_december.
    change (daysInMonth (y + m / 12) 11) with 31.
    change (daysBeforeMonth (y + m / 12 + 1) 0) with 0. lia.
  - assert (Hq : (m + 1) / 12 = m / 12)
      by (symmetry; apply (Z.div_unique (m + 1) 12 (m / 12) (m mod 12 + 1)); lia).
    assert (Hr' : (m + 1) mod 12 = m mod 12 + 1)
      by (symmetry; apply (Z.mod_unique (m + 1) 12 (m / 12) (m mod 12 + 1)); lia).
    rewrite Hq, Hr', daysBeforeMonth_succ by lia. lia.
Qed.

(** The row the schedule holds at position [i - 1]. *)
Lemma schedule_row (bookingId : Id) (q : Q) (n : Z) (start : JsDate) (first : nat)
      (i : Z) :
  1 <= i <= n ->
  exists row,
    nth_error (insertInstallments first (installmentRecords bookingId q n start))
              (Z.to_nat (i - 1)) = Some row
    /\ i_installmentNumber row = i
    /\ i_dueDate row = dueDateOf start i.
Proof.
  intro Hi. eexists. split.
  - apply nth_error_insertInstallments.
    unfold installmentRecords. rewrite nth_error_map.
    now rewrite (nth_error_loopIndices n i Hi).
  - split; reflexivity.
Qed.

End InvoicesAndDates.

(** X15. Booking creation keeps the invoice system in step with the
    schedule: it inserts one invoice per installment, in the same order,
    with the same amount and due date, for the new lease, [DUE] and unpaid;
    and the rent of the lease is the amount of one installment. *)
Theorem invoices_mirror_installments :
  forall req now pdf db db' booking lease insts invs ra url,
    createBooking req now pdf db
    = (db', mkResponse 201 (BookingCreated booking lease insts invs ra url)) ->
    invoices db' = invoices db ++ invs
    /\ Forall2 (fun i v => v_leaseId v = l_id lease
                           /\ v_amount v = i_amount i
                           /\ v_dueDate v = i_dueDate i
                           /\ v_status v = InvoiceStatus.DUE
                           /\ v_paidAt v = None)
               insts invs
    /\ Forall (fun i => i_amount i = l_rentAmount lease) insts.
Proof.
  intros req now pdf db db' booking lease insts invs ra url Hcreate.
  destruct (createBooking_accepted _ _ _ _ _ _ _ _ _ _ _ Hcreate)
    as (_ & _ & _ & _ & _ & Hlease & Hrent & (first & Hinvs) & Hdb).
  destruct (createBooking_created _ _ _ _ _ _ _ _ _ _ _ Hcreate) as (Hinsts & _).
  split; [ exact Hdb | ].
  split.
  - rewrite Hinsts, Hinvs, Hlease. unfold installmentRecords, invoiceRecords.
    apply schedule_invoices_aligned.
  - rewrite Hinsts, Hrent. unfold installmentRecords.
    generalize (loopIndices (installmentCountOf req)) as l.
    generalize (S (S (S (nextId db)))) as k.
    intros k l. revert k.
    induction l as [ | i l IH ]; intro k; cbn [map insertInstallments];
      constructor; [ reflexivity | apply IH ].
Qed.

Lemma invoices_mirror_installments_witness :
  map v_amount (invoices (fst (createBooking marchReq 0 PdfFailed marchDB)))
  = [40000; 40000; 40000]
  /\ map i_amount (installments (fst (createBooking marchReq 0 PdfFailed marchDB)))
     = [40000; 40000; 40000].
Proof.
  destruct (invoices_mirror_installments marchReq 0 PdfFailed marchDB
              (fst (createBooking marchReq 0 PdfFailed marchDB)) _ _ _ _ _ _
              ltac:(vm_compute; reflexivity)) as (Hdb & _).
  split; [ rewrite Hdb | ]; reflexivity.
Defined.

(** X16. The due dates of a schedule follow one another by whole calendar
    months.  [setMonth] computes them in the calendar of the process's zone,
    where the due date of installment [i + 1] comes after that of installment
    [i] by the length of the month the earlier one is computed for, so by 28
    to 31 days.  In elapsed time the gap is that length less the change of
    the zone's offset between the two dates: it is 28 to 31 days when the
    offset is the same at both (always so at UTC), and an hour less or more
    across a change to or from daylight saving time; the due dates are
    strictly increasing in any zone whose offset changes by less than a
    day. *)
Theorem due_dates_are_a_month_apart :
  forall req now pdf db db' booking lease insts invs ra url (offset : Z -> Z),
    createBooking req now pdf db
    = (db', mkResponse 201 (BookingCreated booking lease insts invs ra url)) ->
    forall i, 1 <= i < installmentCountOf req ->
      exists a b,
        nth_error insts (Z.to_nat (i - 1)) = Some a
        /\ nth_error insts (Z.to_nat i) = Some b
        /\ i_installmentNumber a = i
        /\ i_installmentNumber b = i + 1
        /\ let len := daysInMonth (getFullYear (cb_startDate req)
                                   + (getMonth (cb_startDate req) + (i - 1)) / 12)
                                  ((getMonth (cb_startDate req) + (i - 1)) mod 12) in
           let shift := offset (getTime (i_dueDate b)) - offset (getTime (i_dueDate a)) in
           28 <= len <= 31
           /\ getTime (i_dueDate b) - getTime (i_dueDate a) = len * msPerDay
           /\ timeValue offset (i_dueDate b) - timeValue offset (i_dueDate a)
              = len * msPerDay - shift
           /\ (shift = 0 ->
               28 * msPerDay
               <= timeValue offset (i_dueDate b) - timeValue offset (i_dueDate a)
               <= 31 * msPerDay)
           /\ (- msPerDay < shift < msPerDay ->
               timeValue offset (i_dueDate a) < timeValue offset (i_dueDate b)).
Proof.
  intros req now pdf db db' booking lease insts invs ra url offset Hcreate i Hi.
  destruct (createBooking_created _ _ _ _ _ _ _ _ _ _ _ Hcreate) as (Hinsts & _).
  set (start := cb_startDate req) in *. set (n := installmentCountOf req) in *.
  destruct (schedule_row (nextId db) (cb_totalAmount req) n start
                         (S (S (S (nextId db)))) i ltac:(lia))
    as (a & Ha & Hna & Hda).
  destruct (schedule_row (nextId db) (cb_totalAmount req) n start
                         (S (S (S (nextId db)))) (i + 1) ltac:(lia))
    as (b & Hb & Hnb & Hdb).
  replace (i + 1 - 1) with i in Hb by lia.
  exists a, b. rewrite Hinsts.
  split; [ exact Ha | ]. split; [ exact Hb | ].
  split; [ exact Hna | ]. split; [ exact Hnb | ].
  assert (Hgap : getTime (i_dueDate b) - getTime (i_dueDate a)
                 = daysInMonth (getFullYear start + (getMonth start + (i - 1)) / 12)
                               ((getMonth start + (i - 1)) mod 12) * msPerDay).
  { rewrite Hda, Hdb. unfold dueDateOf. rewrite !setMonth_getTime.
    replace (getMonth start + (i + 1 - 1)) with (getMonth start + (i - 1) + 1) by lia.
    rewrite MakeDay_next_month. lia. }
  pose proof (daysInMonth_bounds (getFullYear start + (getMonth start + (i - 1)) / 12)
                                 ((getMonth start + (i - 1)) mod 12)) as Hlen.
  cbv zeta.
  split; [ exact Hlen | ].
  split; [ exact Hgap | ].
  unfold timeValue.
  split; [ lia | ].
  unfold msPerDay in *. split; intro Hshift; lia.
Qed.

Lemma due_dates_are_a_month_apart_witness :
  let insts := installments (fst (createBooking eveningReq 0 PdfFailed marchDB)) in
  1 <= 1 < installmentCountOf eveningReq
  /\ map (fun r => timeValue newYork2025 (i_dueDate r)) insts
     = [1740787200000;
        1740787200000 + 28 * msPerDay - 3600000;
        1740787200000 + 28 * msPerDay - 3600000 + 31 * msPerDay]
  /\ exists a b,
       nth_error insts 0 = Some a
       /\ nth_error insts 1 = Some b
       /\ getTime (i_dueDate b) - getTime (i_dueDate a) = 28 * msPerDay
       /\ timeValue newYork2025 (i_dueDate b) - timeValue newYork2025 (i_dueDate a)
          = 28 * msPerDay - 3600000.
Proof.
  intro insts.
  split; [ vm_compute; split; [ discriminate | reflexivity ] | ].
  split; [ vm_compute; reflexivity | ].
  destruct (due_dates_are_a_month_apart eveningReq 0 PdfFailed marchDB
              (fst (createBooking eveningReq 0 PdfFailed marchDB)) _ _ _ _ _ _
              newYork2025
              ltac:(vm_compute; reflexivity) 1
              ltac:(vm_compute; split; [ discriminate | reflexivity ]))
    as (a & b & Ha & Hb & _ & _ & _ & Hlocal & Helapsed & _).
  exists a, b.
  split; [ exact Ha | ].
  split; [ exact Hb | ].
  split; [ rewrite Hlocal; reflexivity | ].
  rewrite Helapsed.
  assert (Hda : i_dueDate a = mkDate 2025 1 28 68400000)
    by (vm_compute in Ha; now injection Ha as <-).
  assert (Hdb : i_dueDate b = mkDate 2025 2 28 68400000)
    by (vm_compute in Hb; now injection Hb as <-).
  rewrite Hda, Hdb. vm_compute. reflexivity.
Defined.

(** X17. Booking creation is not atomic.  Take a request whose amounts and
    count fit their columns.  With a negative [installmentCount] the loop
    builds no installment record, the insert of the empty list throws, and
    the request is answered 500; by then the booking (still [PENDING]), its
    lease and its conflict record have been written and they stay: no
    installment exists for the booking, and for a range whose start is not
    after its end the property is from then on reported unavailable for those
    dates.  With [installmentCount = 0] and a total other than 0 the rent of
    the lease is infinite and the insert of the lease throws: the answer is
    500 and the [PENDING] booking stays alone.  A request that does not fit
    the columns of the booking is answered 500 as well, but leaves
    nothing. *)
Theorem failed_schedule_leaves_rows :
  forall req now pdf db userId paymentType property,
    cb_userId req = Some userId ->
    parsePaymentType (cb_paymentType req) = Some paymentType ->
    find (fun p => Nat.eqb (p_id p) (cb_propertyId req)) (properties db)
    = Some property ->
    selectConflicts db (cb_propertyId req) (cb_startDate req) (cb_endDate req) = [] ->
    let result := createBooking req now pdf db in
    (fitsBookingColumns req = true ->
     installmentCountOf req < 0 ->
     snd result = mkResponse 500 (Error "Failed to create booking")
     /\ (exists pending,
            bookings (fst result) = bookings db ++ [pending]
            /\ b_id pending = nextId db
            /\ b_tenantId pending = userId
            /\ b_status pending = BookingStatus.PENDING
            /\ b_contractPdfUrl pending = None)
     /\ List.length (leases (fst result)) = S (List.length (leases db))
     /\ bookingConflicts (fst result)
        = bookingConflicts db
          ++ [mkConflict (S (S (nextId db))) (cb_propertyId req) (cb_startDate req)
                         (cb_endDate req) (Some (nextId db))]
     /\ installments (fst result) = installments db
     /\ (getTime (cb_startDate req) <= getTime (cb_endDate req) ->
         exists cs,
           checkAvailability (mkAvailabilityReq (cb_propertyId req) (cb_startDate req)
                                                (cb_endDate req)) (fst result)
           = mkResponse 200 (Availability false cs)))
    /\ (fitsBookingColumns req = true ->
        installmentCountOf req = 0 ->
        ~ (cb_totalAmount req == 0)%Q ->
        snd result = mkResponse 500 (Error "Failed to create booking")
        /\ (exists pending,
               bookings (fst result) = bookings db ++ [pending]
               /\ b_id pending = nextId db
               /\ b_status pending = BookingStatus.PENDING)
        /\ leases (fst result) = leases db
        /\ bookingConflicts (fst result) = bookingConflicts db
        /\ installments (fst result) = installments db)
    /\ (fitsBookingColumns req = false ->
        result = (db, mkResponse 500 (Error "Failed to create booking"))).
Proof.
  intros req now pdf db userId paymentType property Hu Ht Hprop Hfree result.
  split; [ | split ].
  - intros Hfits Hn.
    assert (Hnone : installmentRecords (nextId db) (cb_totalAmount req)
                                       (installmentCountOf req) (cb_startDate req) = [])
      by (apply installmentRecords_none; lia).
    unfold result, createBooking.
    rewrite Hu, Ht. cbv zeta. rewrite Hprop, Hfree, Hfits.
    replace (installmentCountOf req =? 0) with false by (symmetry; apply Z.eqb_neq; lia).
    cbn [List.length Nat.ltb Nat.leb negb andb
         b_id l_id nextId set_bookings set_leases set_bookingConflicts].
    rewrite Hnone.
    cbn [fst snd bookings leases bookingConflicts installments
         set_bookings set_leases set_bookingConflicts].
    split; [ reflexivity | ].
    split; [ eexists; split; [ reflexivity | repeat split ] | ].
    split; [ rewrite length_app; cbn; lia | ].
    split; [ reflexivity | ].
    split; [ reflexivity | ].
    intro Hrange. eexists.
    unfold checkAvailability, selectConflicts.
    cbn [av_propertyId av_startDate av_endDate bookingConflicts
         set_bookings set_leases set_bookingConflicts].
    rewrite filter_app. unfold selectConflicts in Hfree. rewrite Hfree.
    cbn [filter app]. unfold conflictsWith, date_leb.
    cbn [c_propertyId c_startDate c_endDate].
    rewrite Nat.eqb_refl, (proj2 (Z.leb_le _ _) Hrange). reflexivity.
  - intros Hfits Hzero Htotal. unfold result, createBooking.
    rewrite Hu, Ht. cbv zeta. rewrite Hprop, Hfree, Hfits, Hzero.
    replace (Qeq_bool (cb_totalAmount req) 0) with false
      by (symmetry; apply not_true_is_false; intro H; apply Htotal;
          now apply Qeq_bool_eq).
    cbn [List.length Nat.ltb Nat.leb negb andb Z.eqb fst snd
         bookings leases bookingConflicts installments set_bookings].
    split; [ reflexivity | ].
    split; [ eexists; split; [ reflexivity | split; reflexivity ] | ].
    repeat split.
  - intro Hfits. unfold result, createBooking.
    rewrite Hu, Ht. cbv zeta. rewrite Hprop, Hfree, Hfits. reflexivity.
Qed.

Lemma failed_schedule_leaves_rows_witness :
  let req := mkCreateBookingReq (Some 5%nat) 1 (ymd 2025 3 1) (ymd 2025 3 31) 1200 None
                                (Some "CASH"%string) (Some (-1)) in
  let large := mkCreateBookingReq (Some 5%nat) 1 (ymd 2025 3 1) (ymd 2025 3 31)
                                  10000000000 None (Some "CASH"%string) (Some 3) in
  let none := mkCreateBookingReq (Some 5%nat) 1 (ymd 2025 3 1) (ymd 2025 3 31) 1200 None
                                 (Some "CASH"%string) (Some 0) in
  fitsBookingColumns req = true
  /\ installmentCountOf req < 0
  /\ statusCode (snd (createBooking req 0 PdfFailed marchDB)) = 500
  /\ map b_status (bookings (fst (createBooking req 0 PdfFailed marchDB)))
     = [BookingStatus.PENDING]
  /\ installments (fst (createBooking req 0 PdfFailed marchDB)) = []
  /\ fitsBookingColumns large = false
  /\ createBooking large 0 PdfFailed marchDB
     = (marchDB, mkResponse 500 (Error "Failed to create booking"))
  /\ statusCode (snd (createBooking none 0 PdfFailed marchDB)) = 500
  /\ map b_status (bookings (fst (createBooking none 0 PdfFailed marchDB)))
     = [BookingStatus.PENDING]
  /\ leases (fst (createBooking none 0 PdfFailed marchDB)) = [].
Proof.
  intros req large none.
  destruct (failed_schedule_leaves_rows req 0 PdfFailed marchDB 5%nat PaymentType.CASH
              (mkProperty 1 7) eq_refl eq_refl eq_refl eq_refl)
    as (Hrows & _).
  destruct (Hrows eq_refl eq_refl) as (Hresponse & _ & _ & _ & Hnone & _).
  destruct (failed_schedule_leaves_rows large 0 PdfFailed marchDB 5%nat PaymentType.CASH
              (mkProperty 1 7) eq_refl eq_refl eq_refl eq_refl)
    as (_ & _ & Hlarge).
  destruct (failed_schedule_leaves_rows none 0 PdfFailed marchDB 5%nat PaymentType.CASH
              (mkProperty 1 7) eq_refl eq_refl eq_refl eq_refl)
    as (_ & Hzero & _).
  destruct (Hzero eq_refl eq_refl ltac:(discriminate))
    as (Hresponse0 & _ & Hleases & _).
  split; [ reflexivity | ].
  split; [ reflexivity | ].
  split; [ now rewrite Hresponse | ].
  split; [ reflexivity | ].
  split; [ exact Hnone | ].
  split; [ reflexivity | ].
  split; [ exact (Hlarge eq_refl) | ].
  split; [ now rewrite Hresponse0 | ].
  split; [ reflexivity | exact Hleases ].
Defined.

(** * Read handlers *)

Section Ordering.

Context {A : Type} (key : A -> Z).

Lemma insertBy_perm (x : A) (l : list A) : Permutation (insertBy key x l) (x :: l).
Proof.
  induction l as [ | y l IH ]; cbn [insertBy]; [ reflexivity | ].
  destruct (key x <=? key y); [ reflexivity | ].
  rewrite IH. apply perm_swap.
Qed.

Lemma orderBy_perm (l : list A) : Permutation (orderBy key l) l.
Proof.
  induction l as [ | x l IH ]; cbn [orderBy fold_right]; [ constructor | ].
  fold (orderBy key l). rewrite insertBy_perm. now constructor.
Qed.

Lemma in_orderBy (x : A) (l : list A) : In x (orderBy key l) <-> In x l.
Proof.
  split; apply Permutation_in; [ apply orderBy_perm | symmetry; apply orderBy_perm ].
Qed.

Lemma length_orderBy (l : list A) : List.length (orderBy key l) = List.length l.
Proof. apply Permutation_length, orderBy_perm. Qed.

Lemma insertBy_sorted (x : A) (l : list A) :
  StronglySorted (fun a b => key a <= key b) l -> StronglySorted (fun a b => key a <= key b) (insertBy key x l).
Proof.
  induction l as [ | y l IH ]; intro Hs; cbn [insertBy].
  - repeat constructor.
  - inversion Hs as [ | ? ? Hl Hy ]; subst.
    destruct (key x <=? key y) eqn:E.
    + apply Z.leb_le in E. constructor; [ exact Hs | ].
      constructor; [ exact E | ].
      apply Forall_forall. intros z Hz.
      pose proof (proj1 (Forall_forall _ _) Hy z Hz). cbv beta in *. lia.
    + apply Z.leb_gt in E. constructor; [ now apply IH | ].
      apply Forall_forall. intros z Hz.
      apply (Permutation_in _ (insertBy_perm x l)) in Hz.
      destruct Hz as [ <- | Hz ]; [ cbv beta; lia | ].
      exact (proj1 (Forall_forall _ _) Hy z Hz).
Qed.

Lemma orderBy_sorted (l : list A) : StronglySorted (fun a b => key a <= key b) (orderBy key l).
Proof.
  induction l as [ | x l IH ]; cbn [orderBy fold_right]; [ constructor | ].
  now apply insertBy_sorted.
Qed.

(** Ordering rows that are in order already changes nothing. *)
Lemma orderBy_of_sorted (l : list A) : StronglySorted (fun a b => key a <= key b) l -> orderBy key l = l.
Proof.
  induction l as [ | x l IH ]; intro Hs; cbn [orderBy fold_right]; [ reflexivity | ].
  inversion Hs as [ | ? ? Hl Hx ]; subst.
  fold (orderBy key l). rewrite (IH Hl).
  destruct l as [ | y l ]; [ reflexivity | ].
  cbn [insertBy]. inversion Hx as [ | ? ? Hxy _ ]; subst.
  cbv beta in Hxy. now rewrite (proj2 (Z.leb_le _ _) Hxy).
Qed.


End Ordering.

Section Listings.

Lemma status_eqb_eq (a b : InstallmentStatus.t) :
  InstallmentStatus.eqb a b = true <-> a = b.
Proof. destruct a, b; cbn; split; intro H; try reflexivity; discriminate H. Qed.


End Listings.


(** X19. The listing of a user's installments.  For an authenticated user it
    holds exactly the installments of the bookings of which the user is the
    tenant, by ascending due date, and [count] is their number.  A status
    UNPAID, PAID or OVERDUE in the query keeps the installments stored with
    that status; any other value is not an error: the filter is dropped and
    the listing is the one of a query without status. *)
Theorem user_installments_listing :
  forall userId status db,
    exists listing,
      getUserInstallments (Some userId) status db = Ok listing
      /\ il_count listing = List.length (il_data listing)
      /\ StronglySorted (fun a b => dueTime a <= dueTime b) (il_data listing)
      /\ (forall row,
             In row (il_data listing)
             <-> In (fst row) (installments db)
                 /\ In (snd row) (bookings db)
                 /\ i_bookingId (fst row) = b_id (snd row)
                 /\ b_tenantId (snd row) = userId
                 /\ (forall s, statusFilter status = Some s -> i_status (fst row) = s))
      /\ (statusFilter status = None ->
          exists unfiltered,
            getUserInstallments (Some userId) None db = Ok unfiltered
            /\ il_data listing = il_data unfiltered).
Proof.
  intros userId status db. unfold getUserInstallments. cbv zeta.
  eexists. split; [ reflexivity | ].
  cbn [il_data il_count].
  split; [ reflexivity | ].
  split; [ apply orderBy_sorted | ].
  split.
  - intros [i b]. rewrite in_orderBy, filter_In, in_innerJoin. cbn [fst snd].
    rewrite andb_true_iff, Nat.eqb_eq.
    destruct (statusFilter status) as [ s | ].
    + rewrite status_eqb_eq. split.
      * intros ((Hi & Hb & Hk) & Ht & Hs). repeat split; auto.
        intros s' Hs'. injection Hs' as <-. exact Hs.
      * intros (Hi & Hb & Hk & Ht & Hs). repeat split; auto.
    + split.
      * intros ((Hi & Hb & Hk) & Ht & _). repeat split; auto. intros s' Hs'. discriminate Hs'.
      * intros (Hi & Hb & Hk & Ht & _). repeat split; auto.
  - intro Hnone. eexists. split; [ reflexivity | ].
    cbn [il_data statusFilter]. now rewrite Hnone.
Qed.

Lemma user_installments_listing_witness :
  statusFilter (Some "LATE"%string) = None
  /\ (exists listing,
         getUserInstallments (Some 5%nat) (Some "LATE"%string) invoicedDB = Ok listing
         /\ il_count listing = 1%nat
         /\ il_filter listing = "LATE"%string)
  /\ exists listing,
      getUserInstallments (Some 5%nat) (Some "PAID"%string) invoicedDB = Ok listing
      /\ il_data listing = [].
Proof.
  split; [ reflexivity | ].
  destruct (user_installments_listing 5%nat (Some "LATE"%string) invoicedDB)
    as (listing & Hrun & Hcount & _ & _ & Hdropped).
  destruct (Hdropped eq_refl) as (unfiltered & Hun & Hsame).
  split.
  - exists listing. split; [ exact Hrun | ].
    vm_compute in Hrun. injection Hrun as <-. split; reflexivity.
  - eexists. split; reflexivity.
Defined.

Section AfterWrites.

(** The cash path for the tenant's unpaid installment. *)
Lemma processInstallmentPayment_cash (req : PayReq) (key : option string) (now : Z)
      (gateway : InvoiceOutcome) (db : DB) (inst : Installment) (bk : Booking) :
  primaryKeysOk db = true ->
  In inst (installments db) ->
  In bk (bookings db) ->
  i_bookingId inst = b_id bk ->
  b_paymentType bk = PaymentType.CASH ->
  i_status inst <> InstallmentStatus.PAID ->
  pay_userId req = Some (b_tenantId bk) ->
  pay_installmentId req = Some (i_id inst) ->
  rejectedMethod (pay_paymentMethod req) = false ->
  processInstallmentPayment req key now gateway db
  = (set_paymentTransactions
       (set_installments db
          (updateWhere (hasId (i_id inst)) (markPaid now (i_amount inst) "CASH")
                       (installments db))
          (nextId db))
       (paymentTransactions db
        ++ [mkTransaction (nextId db) (Some (i_id inst)) (b_id bk) (i_amount inst)
                          "CASH" PaymentType.CASH None None PaymentStatus.COMPLETED
                          (Some now)])
       (S (nextId db)),
     mkResponse 200 (CashPaid (i_id inst) (i_amount inst) now)).
Proof.
  intros Hkeys Hi Hb Hk Hcash Hunpaid Hu Hid Hm.
  rewrite (processInstallmentPayment_located req key now gateway db inst bk)
    by assumption.
  unfold payLocated.
  rewrite (status_eqb_not_PAID _ Hunpaid), Hcash. cbn [PaymentType.eqb].
  rewrite finalPaymentMethod_cash.
  assert (Hex : existsb (hasId (i_id inst)) (installments db) = true)
    by (apply existsb_exists; exists inst; split; [ assumption | apply Nat.eqb_refl ]).
  now rewrite Hex.
Qed.

(** The row [checkPaymentStatus] selects by installment id. *)
Lemma status_row (db : DB) (inst : Installment) (bk : Booking) (userId : Id) :
  primaryKeysOk db = true ->
  In inst (installments db) ->
  In bk (bookings db) ->
  i_bookingId inst = b_id bk ->
  find (fun row => hasId (i_id inst) (fst row) && Nat.eqb (b_tenantId (snd row)) userId)
       (innerJoin (installments db) (bookings db))
  = if Nat.eqb (b_tenantId bk) userId then Some (inst, bk) else None.
Proof.
  intros Hkeys Hi Hb Hk.
  rewrite (find_innerJoin db inst bk _ Hkeys Hi Hb Hk).
  - cbn [fst snd]. unfold hasId. now rewrite Nat.eqb_refl.
  - intros i' b' Hp. cbn [fst snd] in Hp.
    apply andb_true_iff in Hp as [Hp _]. now apply Nat.eqb_eq.
Qed.

Lemma loopIndices_sorted (n : Z) : StronglySorted Z.le (loopIndices n).
Proof.
  unfold loopIndices. generalize (Z.to_nat n) as k. generalize 1%nat as a.
  intros a k. revert a.
  induction k as [ | k IH ]; intro a; cbn [seq map]; constructor.
  - apply IH.
  - apply Forall_forall. intros z Hz.
    apply in_map_iff in Hz as (m & <- & Hm). apply in_seq in Hm. lia.
Qed.

Lemma insertInstallments_numbers (first : nat) (records : list InstallmentRecord) :
  map i_installmentNumber (insertInstallments first records)
  = map ir_installmentNumber records.
Proof.
  revert first. induction records as [ | r rest IH ]; intro first; cbn;
    [ reflexivity | now rewrite IH ].
Qed.

Lemma sorted_by_key {A : Type} (key : A -> Z) (l : list A) :
  StronglySorted Z.le (map key l) ->
  StronglySorted (fun a b => key a <= key b) l.
Proof.
  induction l as [ | x l IH ]; cbn [map]; intro Hs; [ constructor | ].
  inversion Hs as [ | ? ? Hl Hx ]; subst.
  constructor; [ now apply IH | ].
  apply Forall_forall. intros y Hy.
  apply (proj1 (Forall_forall _ _) Hx). now apply in_map.
Qed.

Lemma insertInstallments_booking (first : nat) (bookingId : Id) (q : Q) (n : Z)
      (start : JsDate) :
  Forall (fun i => i_bookingId i = bookingId)
         (insertInstallments first (installmentRecords bookingId q n start)).
Proof.
  unfold installmentRecords. generalize (loopIndices n) as l. intro l. revert first.
  induction l as [ | i l IH ]; intro first; cbn [map insertInstallments];
    constructor; [ reflexivity | apply IH ].
Qed.

(** The booking row a [201] leaves in the store. *)
Lemma createBooking_stored (req : CreateBookingReq) (now : Z) (pdf : PdfOutcome)
      (db db' : DB) (booking : Booking) (lease : Lease)
      (insts : list Installment) (invs : list Invoice)
      (ra : RentalAgreement) (url : string) :
  createBooking req now pdf db
  = (db', mkResponse 201 (BookingCreated booking lease insts invs ra url)) ->
  exists pending,
    bookings db'
    = updateWhere (fun b => Nat.eqb (b_id b) (nextId db)) (confirmBooking url now)
                  (bookings db ++ [pending])
    /\ b_id pending = nextId db
    /\ cb_userId req = Some (b_tenantId pending)
    /\ parsePaymentType (cb_paymentType req) = Some (b_paymentType pending)
    /\ booking = confirmedView url pending.
Proof.
  unfold createBooking.
  destruct (cb_userId req) as [ userId | ]; [ | discriminate ].
  destruct (parsePaymentType (cb_paymentType req)) as [ paymentType | ];
    [ | discriminate ].
  cbv zeta.
  destruct (find _ (properties db)) as [ property | ]; [ | discriminate ].
  destruct (Nat.ltb 0 _); [ discriminate | ].
  destruct (negb (fitsBookingColumns req)); [ discriminate | ].
  destruct ((installmentCountOf req =? 0) && _); [ discriminate | ].
  cbn [b_id l_id nextId set_bookings set_leases set_bookingConflicts installments].
  destruct (installmentRecords _ _ _ _) as [ | r rest ] eqn:E; [ discriminate | ].
  destruct pdf; intro H; injection H as <- <- <- <- <- <- <-;
    eexists; (split; [ reflexivity | repeat split ]).
Qed.

End AfterWrites.

(** X20. A cash payment is visible to the tenant at once.  Before the payment
    [checkPaymentStatus] by installment id reports the installment as it is
    stored, not paid; after the 200 of the cash path it reports status
    [PAID], [isPaid], [paidAmount] equal to the amount, the payment time and
    method CASH.  The external id of the query is ignored when an
    installment id is given, and any other user is answered 404. *)
Theorem cash_payment_is_visible :
  forall db inst bk req key now gateway externalId,
    primaryKeysOk db = true ->
    In inst (installments db) ->
    In bk (bookings db) ->
    i_bookingId inst = b_id bk ->
    b_paymentType bk = PaymentType.CASH ->
    i_status inst <> InstallmentStatus.PAID ->
    pay_userId req = Some (b_tenantId bk) ->
    pay_installmentId req = Some (i_id inst) ->
    rejectedMethod (pay_paymentMethod req) = false ->
    let paid := fst (processInstallmentPayment req key now gateway db) in
    checkPaymentStatus (Some (b_tenantId bk)) (Some (i_id inst)) externalId db
    = Ok (mkPaymentStatusView (i_id inst) (i_xenditExternalId inst) (i_status inst)
                              (i_amount inst) (i_paidAmount inst) (i_paidAt inst)
                              (i_paymentMethod inst) (b_id bk) false)
    /\ checkPaymentStatus (Some (b_tenantId bk)) (Some (i_id inst)) externalId paid
       = Ok (mkPaymentStatusView (i_id inst) (i_xenditExternalId inst)
                                 InstallmentStatus.PAID (i_amount inst)
                                 (Some (i_amount inst)) (Some now)
                                 (Some "CASH"%string) (b_id bk) true)
    /\ (forall other,
           other <> b_tenantId bk ->
           checkPaymentStatus (Some other) (Some (i_id inst)) externalId paid
           = Fail 404 "Installment not found").
Proof.
  intros db inst bk req key now gateway externalId
         Hkeys Hi Hb Hk Hcash Hunpaid Hu Hid Hm paid.
  pose proof Hkeys as Hkeys'. apply andb_true_iff in Hkeys' as [Hki Hkb].
  assert (Hpaid : paid
                  = set_paymentTransactions
                      (set_installments db
                         (updateWhere (hasId (i_id inst))
                                      (markPaid now (i_amount inst) "CASH")
                                      (installments db))
                         (nextId db))
                      (paymentTransactions db
                       ++ [mkTransaction (nextId db) (Some (i_id inst)) (b_id bk)
                                         (i_amount inst) "CASH" PaymentType.CASH None
                                         None PaymentStatus.COMPLETED (Some now)])
                      (S (nextId db)))
    by (unfold paid;
        now rewrite (processInstallmentPayment_cash req key now gateway db inst bk)
          by assumption).
  set (row := markPaid now (i_amount inst) "CASH" inst).
  assert (Hkeys1 : primaryKeysOk paid = true).
  { rewrite Hpaid. unfold primaryKeysOk.
    cbn [installments bookings set_installments set_paymentTransactions].
    rewrite (map_key_updateWhere i_id) by reflexivity. now rewrite Hki, Hkb. }
  assert (Hrow : In row (installments paid))
    by (rewrite Hpaid; apply (in_updateWhere_key i_id); exact Hi).
  assert (Hbk : In bk (bookings paid)) by (rewrite Hpaid; exact Hb).
  split.
  - unfold checkPaymentStatus.
    rewrite (status_row db inst bk (b_tenantId bk) Hkeys Hi Hb Hk), Nat.eqb_refl.
    now rewrite (status_eqb_not_PAID _ Hunpaid).
  - split.
    + unfold checkPaymentStatus.
      change (i_id inst) with (i_id row) at 1.
      rewrite (status_row paid row bk (b_tenantId bk) Hkeys1 Hrow Hbk Hk), Nat.eqb_refl.
      reflexivity.
    + intros other Hother. unfold checkPaymentStatus.
      change (i_id inst) with (i_id row).
      rewrite (status_row paid row bk other Hkeys1 Hrow Hbk Hk).
      replace (Nat.eqb (b_tenantId bk) other) with false
        by (symmetry; apply Nat.eqb_neq; congruence).
      reflexivity.
Qed.

Lemma cash_payment_is_visible_witness :
  let paid := fst (processInstallmentPayment (payReq None) None 1000 issuedInvoice
                                             (paymentDB PaymentType.CASH)) in
  primaryKeysOk (paymentDB PaymentType.CASH) = true
  /\ checkPaymentStatus (Some 5%nat) (Some 10%nat) None paid
     = Ok (mkPaymentStatusView 10 None InstallmentStatus.PAID 40000 (Some 40000)
                               (Some 1000) (Some "CASH"%string) 1 true).
Proof.
  intro paid. split; [ reflexivity | ].
  destruct (cash_payment_is_visible (paymentDB PaymentType.CASH) sampleInstallment
              (sampleBooking PaymentType.CASH) (payReq None) None 1000 issuedInvoice
              None
              eq_refl (or_introl eq_refl) (or_introl eq_refl) eq_refl eq_refl
              ltac:(discriminate) eq_refl eq_refl eq_refl)
    as (_ & Hafter & _).
  exact Hafter.
Defined.

Section ReadBack.

Lemma find_confirmed (old : list Booking) (pending : Booking) (url : string)
      (now : Z) (userId : Id) :
  Forall (fun b => b_id b <> b_id pending) old ->
  find (fun b => Nat.eqb (b_id b) (b_id pending) && Nat.eqb (b_tenantId b) userId)
       (updateWhere (fun b => Nat.eqb (b_id b) (b_id pending))
                    (confirmBooking url now) (old ++ [pending]))
  = if Nat.eqb (b_tenantId pending) userId
    then Some (confirmBooking url now pending) else None.
Proof.
  intro Hfresh. unfold updateWhere.
  induction old as [ | b l IH ]; cbn [map app find].
  - rewrite Nat.eqb_refl. cbn [confirmBooking b_id b_tenantId andb].
    now rewrite Nat.eqb_refl.
  - inversion Hfresh as [ | ? ? Hb Hl ]; subst.
    apply Nat.eqb_neq in Hb. rewrite Hb. cbv iota. rewrite Hb. cbn [andb].
    now apply IH.
Qed.

Lemma filter_no_reference (rows : list Installment) (bookingId : Id) :
  Forall (fun i => i_bookingId i <> bookingId) rows ->
  filter (fun i => Nat.eqb (i_bookingId i) bookingId) rows = [].
Proof.
  intro Hfresh. induction rows as [ | i l IH ]; [ reflexivity | ].
  inversion Hfresh as [ | ? ? Hi Hl ]; subst. cbn [filter].
  apply Nat.eqb_neq in Hi. rewrite Hi. now apply IH.
Qed.

End ReadBack.

(** X21. A created booking can be read back.  After a [201], if no booking
    had the new id and no installment referred to it, [getBookingDetails]
    by the tenant returns the stored booking ([CONFIRMED], with the contract
    reference and its time) together with exactly the installments of the
    response, in the order of their numbers, and the payment flow of the
    chosen payment type; any other user is answered 404. *)
Theorem created_booking_reads_back :
  forall req now pdf db db' booking lease insts invs ra url userId,
    createBooking req now pdf db
    = (db', mkResponse 201 (BookingCreated booking lease insts invs ra url)) ->
    cb_userId req = Some userId ->
    Forall (fun b => b_id b <> nextId db) (bookings db) ->
    Forall (fun i => i_bookingId i <> nextId db) (installments db) ->
    (exists stored,
        getBookingDetails (Some userId) (b_id booking) db'
        = Ok (mkBookingDetails stored insts
                (if PaymentType.eqb (b_paymentType booking) PaymentType.CASH
                 then "Direct Payment" else "Xendit Integration"))
        /\ b_id stored = b_id booking
        /\ b_tenantId stored = userId
        /\ b_totalAmount stored = b_totalAmount booking
        /\ b_status stored = BookingStatus.CONFIRMED
        /\ b_contractPdfUrl stored = Some url
        /\ b_contractGeneratedAt stored = Some now)
    /\ (forall other,
           other <> userId ->
           getBookingDetails (Some other) (b_id booking) db'
           = Fail 404 "Booking not found").
Proof.
  intros req now pdf db db' booking lease insts invs ra url userId
         Hcreate Huser Hfreshb Hfreshi.
  destruct (createBooking_created _ _ _ _ _ _ _ _ _ _ _ Hcreate)
    as (Hinsts & Hrows & Hid & _).
  destruct (createBooking_stored _ _ _ _ _ _ _ _ _ _ _ Hcreate)
    as (pending & Hbookings & Hpid & Hpuser & _ & Hview).
  rewrite Huser in Hpuser. injection Hpuser as Hpuser.
  assert (Hfind : forall u,
             find (fun b => Nat.eqb (b_id b) (nextId db) && Nat.eqb (b_tenantId b) u)
                  (bookings db')
             = if Nat.eqb userId u then Some (confirmBooking url now pending) else None).
  { intro u. rewrite Hbookings, <- Hpid, Hpuser.
    apply find_confirmed. now rewrite Hpid. }
  assert (Hfilter : filter (fun i => Nat.eqb (i_bookingId i) (nextId db))
                           (installments db') = insts).
  { rewrite Hrows, filter_app, (filter_no_reference _ _ Hfreshi).
    cbn [app]. apply forallb_filter_id. apply forallb_forall.
    intros i Hi. apply Nat.eqb_eq.
    rewrite Hinsts in Hi.
    exact (proj1 (Forall_forall _ _) (insertInstallments_booking _ _ _ _ _) i Hi). }
  assert (Hordered : orderBy i_installmentNumber insts = insts).
  { apply orderBy_of_sorted, sorted_by_key.
    rewrite Hinsts, insertInstallments_numbers. unfold installmentRecords.
    rewrite map_map. cbn [ir_installmentNumber]. rewrite map_id.
    apply loopIndices_sorted. }
  rewrite Hid. split.
  - exists (confirmBooking url now pending).
    unfold getBookingDetails. rewrite (Hfind userId), Nat.eqb_refl, Hfilter, Hordered.
    rewrite Hview. cbn. repeat split; auto.
  - intros other Hother. unfold getBookingDetails. rewrite (Hfind other).
    replace (Nat.eqb userId other) with false
      by (symmetry; apply Nat.eqb_neq; congruence).
    reflexivity.
Qed.

Lemma created_booking_reads_back_witness :
  let db' := fst (createBooking marchReq 0 PdfFailed marchDB) in
  Forall (fun b => b_id b <> nextId marchDB) (bookings marchDB)
  /\ exists stored,
      getBookingDetails (Some 5%nat) 2 db'
      = Ok (mkBookingDetails stored (installments db') "Direct Payment")
      /\ b_status stored = BookingStatus.CONFIRMED.
Proof.
  intro db'.
  destruct (created_booking_reads_back marchReq 0 PdfFailed marchDB db'
              _ _ _ _ _ _ 5%nat
              ltac:(vm_compute; reflexivity) eq_refl
              ltac:(constructor) ltac:(constructor))
    as ((stored & Hread & _ & _ & _ & Hstatus & _) & _).
  split; [ constructor | ].
  exists stored. split; [ exact Hread | exact Hstatus ].
Defined.
